(** * MCP AI Assistant: request handlers and tool functions

    A shallow embedding of [api_server.py], [data_analysis_tools.py],
    [finance_tools.py], [news_tools.py] and [music_tools.py].

    Python [str] values are Rocq strings (the UTF-8 bytes of the text).
    What Python computes on the bytes alone (substring and suffix tests,
    splitting at an ASCII separator, counting code points) is defined here.
    What depends on the Unicode character database (case mapping,
    whitespace, line boundaries, digits) is a method of the interpreter,
    [Py.Runtime], with the facts the proofs use stated in [Py.Laws]; the
    ASCII implementations of [PyStr] are one instance.  Python [float] is
    the kernel's binary64.  Code that can raise returns [Res]; code that
    talks to an outside service runs in the monad [M], which threads the
    list of service requests made so far.  Third-party libraries and
    services (pandas, requests, yfinance, the search service, the music
    agent, the HTML parser) are parameters of the development. *)

From Stdlib Require Import String Ascii List Bool ZArith NArith QArith Lia.
From Stdlib Require Import DecimalString.
From Stdlib Require Import PrimFloat FloatOps SpecFloat.
Import ListNotations.

Local Close Scope Q_scope.
Local Open Scope list_scope.
Local Open Scope string_scope.

(* ===================================================================== *)
(** ** Python strings *)
(* ===================================================================== *)

Module PyStr.

Definition nl : string := String "010"%char "".
Definition dq : string := String "034"%char "".

Definition is_upper (c : ascii) : bool :=
  let n := N_of_ascii c in (65 <=? n)%N && (n <=? 90)%N.

Definition is_lower (c : ascii) : bool :=
  let n := N_of_ascii c in (97 <=? n)%N && (n <=? 122)%N.

Definition is_digit (c : ascii) : bool :=
  let n := N_of_ascii c in (48 <=? n)%N && (n <=? 57)%N.

(** [str.isspace] on the ASCII range: tab, LF, VT, FF, CR, FS, GS, RS, US
    and the space. *)
Definition is_space (c : ascii) : bool :=
  let n := N_of_ascii c in
  ((9 <=? n)%N && (n <=? 13)%N) || ((28 <=? n)%N && (n <=? 32)%N).

Definition lower_char (c : ascii) : ascii :=
  if is_upper c then ascii_of_N (N_of_ascii c + 32) else c.

Definition upper_char (c : ascii) : ascii :=
  if is_lower c then ascii_of_N (N_of_ascii c - 32) else c.

(** [s.lower()] and [s.upper()] on ASCII text: the letters A-Z and a-z are
    mapped, every other byte is kept. *)
Fixpoint lower_ascii (s : string) : string :=
  match s with
  | EmptyString => EmptyString
  | String c s' => String (lower_char c) (lower_ascii s')
  end.

Fixpoint upper_ascii (s : string) : string :=
  match s with
  | EmptyString => EmptyString
  | String c s' => String (upper_char c) (upper_ascii s')
  end.

(** [sub in s] for two strings: [sub] occurs in [s] as a substring. *)
Fixpoint str_in (sub s : string) : bool :=
  String.prefix sub s ||
  match s with
  | EmptyString => false
  | String _ s' => str_in sub s'
  end.

(** [any(word in s for word in words)] *)
Definition any_in (words : list string) (s : string) : bool :=
  existsb (fun word => str_in word s) words.

(** [x in xs] for a list of strings: membership by equality. *)
Definition list_in (x : string) (xs : list string) : bool :=
  existsb (String.eqb x) xs.

(** [s.endswith(suffix)] *)
Fixpoint endswith (s suffix : string) : bool :=
  String.eqb s suffix ||
  match s with
  | EmptyString => false
  | String _ s' => endswith s' suffix
  end.

(** [s.replace(old, new)] for a non-empty [old]: leftmost occurrences,
    not overlapping. *)
Fixpoint drop (n : nat) (s : string) : string :=
  match n, s with
  | O, _ => s
  | S n', String _ s' => drop n' s'
  | S _, EmptyString => EmptyString
  end.

Fixpoint replace_fuel (fuel : nat) (old new s : string) : string :=
  match fuel with
  | O => s
  | S fuel' =>
      match s with
      | EmptyString => EmptyString
      | String c s' =>
          if String.prefix old s
          then new ++ replace_fuel fuel' old new (drop (String.length old) s)
          else String c (replace_fuel fuel' old new s')
      end
  end.

Definition replace (old new s : string) : string :=
  match old with
  | EmptyString => s
  | _ => replace_fuel (S (String.length s)) old new s
  end.

Definition rev_string (cs : list ascii) : string :=
  string_of_list_ascii (rev cs).

(** [re.findall(r'\d+', s)] on ASCII text: the maximal runs of the digits
    0-9, left to right.  [cur] is the run being read, in reverse. *)
Fixpoint findall_digits_from (cur : list ascii) (s : string) : list string :=
  match s with
  | EmptyString =>
      match cur with
      | [] => []
      | _ => [rev_string cur]
      end
  | String c s' =>
      if is_digit c then findall_digits_from (c :: cur) s'
      else match cur with
           | [] => findall_digits_from [] s'
           | _ => rev_string cur :: findall_digits_from [] s'
           end
  end.

Definition findall_digits_ascii (s : string) : list string :=
  findall_digits_from [] s.

(** The number a run of the digits 0-9 stands for. *)
Fixpoint int_from (acc : N) (s : string) : N :=
  match s with
  | EmptyString => acc
  | String c s' => int_from (10 * acc + (N_of_ascii c - 48))%N s'
  end.

Definition int_ascii (s : string) : N := int_from 0%N s.

(** [str(n)] for a non-negative integer. *)
Definition str_N (n : N) : string := NilEmpty.string_of_uint (N.to_uint n).

Definition str_Z (z : Z) : string :=
  match z with
  | Zneg p => "-" ++ str_N (Npos p)
  | _ => str_N (Z.to_N z)
  end.

(** [s.split()] on ASCII text: the words between runs of whitespace. *)
Fixpoint split_from (cur : list ascii) (s : string) : list string :=
  match s with
  | EmptyString =>
      match cur with
      | [] => []
      | _ => [rev_string cur]
      end
  | String c s' =>
      if is_space c
      then match cur with
           | [] => split_from [] s'
           | _ => rev_string cur :: split_from [] s'
           end
      else split_from (c :: cur) s'
  end.

Definition split_ascii (s : string) : list string := split_from [] s.

(** [s.strip()] on ASCII text. *)
Fixpoint lstrip (s : string) : string :=
  match s with
  | EmptyString => EmptyString
  | String c s' => if is_space c then lstrip s' else s
  end.

Fixpoint rstrip (s : string) : string :=
  match s with
  | EmptyString => EmptyString
  | String c s' =>
      match rstrip s' with
      | EmptyString => if is_space c then EmptyString else String c EmptyString
      | r => String c r
      end
  end.

Definition strip_ascii (s : string) : string := rstrip (lstrip s).

(** [s.splitlines()] on ASCII text: the line boundaries are LF, VT, FF, CR,
    FS, GS and RS; CR LF counts once. *)
Definition is_linebreak (c : ascii) : bool :=
  let n := N_of_ascii c in
  ((10 <=? n)%N && (n <=? 13)%N) || ((28 <=? n)%N && (n <=? 30)%N).

Fixpoint splitlines_from (cur : list ascii) (s : string) : list string :=
  match s with
  | EmptyString =>
      match cur with
      | [] => []
      | _ => [rev_string cur]
      end
  | String c s' =>
      if is_linebreak c
      then rev_string cur ::
           match s' with
           | String c' s'' =>
               if (N_of_ascii c =? 13)%N && (N_of_ascii c' =? 10)%N
               then splitlines_from [] s''
               else splitlines_from [] s'
           | EmptyString => []
           end
      else splitlines_from (c :: cur) s'
  end.

Definition splitlines_ascii (s : string) : list string :=
  splitlines_from [] s.

(** [s.split("  ")]: split at every two-space separator, empty pieces kept. *)
Fixpoint split2_from (cur : list ascii) (s : string) : list string :=
  match s with
  | EmptyString => [rev_string cur]
  | String c s' =>
      match s' with
      | String c' s'' =>
          if (N_of_ascii c =? 32)%N && (N_of_ascii c' =? 32)%N
          then rev_string cur :: split2_from [] s''
          else split2_from (c :: cur) s'
      | EmptyString => [rev_string (c :: cur)]
      end
  end.

Definition split_two_spaces (s : string) : list string := split2_from [] s.

(** [sep.join(xs)] *)
Definition join (sep : string) (xs : list string) : string :=
  String.concat sep xs.

(** [len(s)] and [s[:n]] count code points: a byte [10xxxxxx] continues the
    code point before it. *)
Definition is_continuation (c : ascii) : bool :=
  let n := N_of_ascii c in (128 <=? n)%N && (n <=? 191)%N.

Fixpoint len (s : string) : N :=
  match s with
  | EmptyString => 0%N
  | String c s' => if is_continuation c then len s' else N.succ (len s')
  end.

Fixpoint take_continuation (s : string) : string :=
  match s with
  | EmptyString => EmptyString
  | String c s' =>
      if is_continuation c then String c (take_continuation s')
      else EmptyString
  end.

Fixpoint take (n : nat) (s : string) : string :=
  match n, s with
  | O, _ => EmptyString
  | S n', String c s' =>
      if is_continuation c then String c (take n s')
      else match n' with
           | O => String c (take_continuation s')
           | _ => String c (take n' s')
           end
  | S _, EmptyString => EmptyString
  end.


(** [s.split(sep)] for a separator of one ASCII character: the pieces
    between separators, empty pieces kept. *)
Fixpoint split_on_from (sep : ascii) (cur : list ascii) (s : string)
    : list string :=
  match s with
  | EmptyString => [rev_string cur]
  | String c s' =>
      if Ascii.eqb c sep
      then rev_string cur :: split_on_from sep [] s'
      else split_on_from sep (c :: cur) s'
  end.

Definition split_on (sep : ascii) (s : string) : list string :=
  split_on_from sep [] s.

(** Text of the ASCII repertoire: every byte is below 128. *)
Fixpoint is_ascii (s : string) : bool :=
  match s with
  | EmptyString => true
  | String c s' => (N_of_ascii c <? 128)%N && is_ascii s'
  end.

(** A string without an ASCII line boundary: it prints on one line. *)
Fixpoint one_line (s : string) : bool :=
  match s with
  | EmptyString => true
  | String c s' => negb (is_linebreak c) && one_line s'
  end.

(** The same for the characters read so far. *)
Definition plain (cs : list ascii) : bool :=
  forallb (fun c => negb (is_linebreak c)) cs.

End PyStr.

(* ===================================================================== *)
(** ** Exceptions, results and the call log *)
(* ===================================================================== *)

(** The exceptions the handlers see: the framework's [HTTPException], and
    any other exception, kept as its class name and its message. *)
Inductive exn : Type :=
| HTTPException (status_code : Z) (detail : string)
| PyError (cls : string) (msg : string).

(** [str(e)].  The framework prints an [HTTPException] as
    [f"{status_code}: {detail}"]. *)
Definition str_exn (e : exn) : string :=
  match e with
  | HTTPException status_code detail =>
      PyStr.str_Z status_code ++ ": " ++ detail
  | PyError _ msg => msg
  end.

Inductive Res (A : Type) : Type :=
| Ok (a : A)
| Raise (e : exn).

Arguments Ok {A} a.
Arguments Raise {A} e.

Definition res_bind {A B} (r : Res A) (k : A -> Res B) : Res B :=
  match r with
  | Ok a => k a
  | Raise e => Raise e
  end.

Declare Scope res_scope.
Delimit Scope res_scope with res.
Notation "x <~ c ;; k" := (res_bind c (fun x => k))
  (at level 61, c at next level, right associativity) : res_scope.

(** One entry per request sent to an outside service. *)
Inductive call : Type :=
| HttpGet (url : string)
| YfInfo (ticker : string)
| YfRecommendations (ticker : string)
| DdgText (query : string) (max_results : Z)
| AgentRun (prompt : string).

Definition M (A : Type) : Type := list call -> Res A * list call.

Definition ret {A} (a : A) : M A := fun log => (Ok a, log).

Definition raise {A} (e : exn) : M A := fun log => (Raise e, log).

Definition bind {A B} (m : M A) (k : A -> M B) : M B :=
  fun log =>
    match m log with
    | (Ok a, log') => k a log'
    | (Raise e, log') => (Raise e, log')
    end.

(** A library call: it may raise, and reaches no outside service. *)
Definition lift {A} (r : Res A) : M A := fun log => (r, log).

(** A request to an outside service: logged, then answered. *)
Definition service_call {A} (c : call) (answer : Res A) : M A :=
  fun log => (answer, (log ++ [c])%list).

(** [try: body  except Exception as e: handler(e)] *)
Definition try_except {A} (body : M A) (handler : exn -> M A) : M A :=
  fun log =>
    match body log with
    | (Ok a, log') => (Ok a, log')
    | (Raise e, log') => handler e log'
    end.

Declare Scope py_scope.
Delimit Scope py_scope with py.
Notation "x <- c ;; k" := (bind c (fun x => k))
  (at level 61, c at next level, right associativity) : py_scope.
Notation "c ;;; k" := (bind c (fun _ => k))
  (at level 61, right associativity) : py_scope.
Local Open Scope py_scope.

Definition outcome {A} (m : M A) : Res A := fst (m []).
Definition calls {A} (m : M A) : list call := snd (m []).

(* ===================================================================== *)
(** ** Values and the interpreter *)
(* ===================================================================== *)

(** A value of a provider's dictionary, seen through what the code does
    with it: the truth test, [str(v)] and [format(v, spec)]. *)
Record pyval : Type := {
  truthy : bool;
  py_str : string;
  py_format : string -> Res string
}.

(** A Python string used as a dictionary default, such as ['N/A'].  The
    format specifications the code applies are [,.2f], [,.0f], [.2f] and
    [+.2f]: a string refuses the code [f]. *)
Definition py_of_str (s : string) : pyval :=
  {| truthy := negb (String.eqb s "");
     py_str := s;
     py_format := fun spec =>
       if String.eqb spec "" then Ok s
       else Raise (PyError "ValueError"
                     "Unknown format code 'f' for object of type 'str'") |}.

Module Py.

(** The methods of the interpreter that the Unicode character database,
    the class hierarchy or the number tower decides. *)
Class Runtime : Type := {
  (** [s.lower()] *)
  lower : string -> string;
  (** [s.upper()] *)
  upper : string -> string;
  (** [s.split()] *)
  split : string -> list string;
  (** [s.strip()] *)
  strip : string -> string;
  (** [s.splitlines()] *)
  splitlines : string -> list string;
  (** [re.findall(r'\d+', s)] *)
  findall_digits : string -> list string;
  (** [int(s)]: [ValueError] when [s] is no integer literal, or too long *)
  int : string -> Res Z;
  (** [issubclass(cls, base)] on the names of exception classes *)
  issubclass : string -> string -> bool;
  (** the integer [n] as a value *)
  int_value : Z -> pyval;
  (** [price * shares], for a value and an integer *)
  mul : pyval -> Z -> Res pyval;
  (** [total + value] *)
  add : pyval -> pyval -> Res pyval;
  (** [v > 0] and [v < 0] *)
  gt0 : pyval -> Res bool;
  lt0 : pyval -> Res bool
}.

(** What the proofs use of these methods.  On ASCII text the case mappings
    are the ASCII ones; [upper] maps character by character, so it goes
    through an ASCII suffix; no line of [splitlines] holds a line
    boundary; [strip] returns a part of its argument. *)
Class Laws `{Runtime} : Prop := {
  lower_ascii_text :
    forall s, PyStr.is_ascii s = true -> lower s = PyStr.lower_ascii s;
  upper_ascii_text :
    forall s, PyStr.is_ascii s = true -> upper s = PyStr.upper_ascii s;
  upper_app :
    forall s t, PyStr.is_ascii t = true -> upper (s ++ t) = upper s ++ upper t;
  splitlines_one_line :
    forall s, Forall (fun line => PyStr.one_line line = true) (splitlines s);
  strip_within :
    forall s, exists before after, s = before ++ strip s ++ after
}.

(** [except (cls1, cls2, ...)] catches [e]. *)
Definition caught_by `{Runtime} (classes : list string) (e : exn) : bool :=
  match e with
  | HTTPException _ _ => existsb (issubclass "HTTPException") classes
  | PyError cls _ => existsb (issubclass cls) classes
  end.

End Py.

(* ===================================================================== *)
(** ** The outside world *)
(* ===================================================================== *)

Definition info_dict : Type := list (string * pyval).

Fixpoint dict_lookup (d : info_dict) (key : string) : option pyval :=
  match d with
  | [] => None
  | (k, v) :: d' => if String.eqb k key then Some v else dict_lookup d' key
  end.

(** [d.get(key, default)] *)
Definition dict_get (d : info_dict) (key : string) (default : pyval) : pyval :=
  match dict_lookup d key with
  | Some v => v
  | None => default
  end.

(** [key in d and d[key]] *)
Definition has_truthy (d : info_dict) (key : string) : bool :=
  match dict_lookup d key with
  | Some v => truthy v
  | None => false
  end.

(** [row[key]]: a missing label raises [KeyError], printed as the quoted
    label. *)
Definition subscript (d : info_dict) (key : string) : Res pyval :=
  match dict_lookup d key with
  | Some v => Ok v
  | None => Raise (PyError "KeyError" ("'" ++ key ++ "'"))
  end.

(** [key in d] *)
Definition has_key (d : info_dict) (key : string) : bool :=
  match dict_lookup d key with
  | Some _ => true
  | None => false
  end.

(** The parsed document: text nodes and tags with their attributes and
    children.  Comments and the doctype carry no text and are left out. *)
#[warnings="-register-all"]
Inductive node : Type :=
| NavigableString (text : string)
| Tag (name : string) (attrs : list (string * string)) (children : list node).

(** The answer of [requests.get]. *)
Record Response : Type := {
  status_code : Z;
  reason : string;
  url : string;
  content : string
}.

(** One row of the provider's recommendations table. *)
Record recommendation : Type := {
  (** the labelled cells of the row *)
  cells : info_dict;
  (** [row.name.strftime('%Y-%m-%d')] *)
  name_strftime : Res string
}.

Record World : Type := {
  (** [datetime.now().isoformat()] *)
  now_isoformat : string;
  (** [os.getenv] *)
  getenv : string -> option string;
  (** [requests.get(url, headers=headers, timeout=10)] *)
  requests_get : string -> Res Response;
  (** [BeautifulSoup(content, 'html.parser')]: the top-level nodes, or the
      exception of the parser *)
  html_parser : string -> Res (list node);
  (** [yf.Ticker(symbol).info] *)
  yf_info : string -> Res info_dict
}.

Record Services : Type := {
  (** [yf.Ticker(symbol).recommendations]: [None], or the rows *)
  yf_recommendations : string -> Res (option (list recommendation));
  (** [DDGS().text(query, max_results=n)] *)
  ddg_text : string -> Z -> Res (list info_dict);
  (** [datetime.now().strftime(format)] *)
  now_strftime : string -> string;
  (** whether [import name] succeeds *)
  importable : string -> bool;
  (** [requests.get(url, timeout=10)] *)
  requests_get_timeout : string -> Res Response;
  (** [response.json()], the JSON object of the answer *)
  response_json : Response -> Res info_dict;
  (** [Agent(...).run(prompt).audio] with the two keys: the addresses of
      the audio, none when there is no audio *)
  agent_run : string -> option string -> option string -> Res (list string);
  (** [os.makedirs(path, exist_ok=True)] *)
  makedirs : string -> Res unit;
  (** [requests.get(url)] *)
  requests_get_plain : string -> Res Response;
  (** [uuid4()], printed *)
  uuid4 : string;
  (** [open(filename, "wb")] and [f.write(content)] *)
  write_file : string -> string -> Res unit
}.

(** [x or y] and the truth test on optional strings: [None] and the empty
    string are false. *)
Definition str_truthy (x : option string) : bool :=
  match x with
  | Some s => negb (String.eqb s "")
  | None => false
  end.

Definition py_or (x y : option string) : option string :=
  if str_truthy x then x else y.

(** [response.raise_for_status()] of the HTTP client. *)
Definition raise_for_status (response : Response) : Res unit :=
  let code := status_code response in
  let message (kind : string) :=
    PyStr.str_Z code ++ " " ++ kind ++ " Error: " ++ reason response
    ++ " for url: " ++ url response in
  if ((400 <=? code) && (code <? 500))%Z
  then Raise (PyError "HTTPError" (message "Client"))
  else if ((500 <=? code) && (code <? 600))%Z
  then Raise (PyError "HTTPError" (message "Server"))
  else Ok tt.

(* ===================================================================== *)
(** ** The tabular-data library *)
(* ===================================================================== *)

(** What [analyze_data_with_sql] asks of pandas.  Accessors are total;
    the operations that pandas documents as raising return [Res].  Each
    [_to_string] field stands for the library's rendering of the value
    the source builds and prints. *)
Class Pandas : Type := {
  DataFrame : Type;
  (** [pd.read_csv(StringIO(data), encoding='utf-8', na_values=[...])] *)
  read_csv : string -> Res DataFrame;
  (** [len(df)], [df.shape[0]] *)
  df_len : DataFrame -> N;
  (** [df.columns] *)
  df_columns : DataFrame -> list string;
  (** [str(df[col].dtype)] *)
  dtype_str : DataFrame -> string -> string;
  (** [df[col].isnull().sum()] *)
  null_count : DataFrame -> string -> N;
  (** [df.select_dtypes(include=['number']).columns] *)
  numeric_cols : DataFrame -> list string;
  (** [df.head(n).to_string()] *)
  head_to_string : DataFrame -> N -> string;
  (** [df[cols].describe().to_string()] *)
  describe_to_string : DataFrame -> list string -> string;
  (** [missing_info.to_string(index=False)], the rows with a positive count *)
  missing_info_to_string : DataFrame -> string;
  (** [df.nunique().to_string()] *)
  nunique_to_string : DataFrame -> string;
  (** [df[cols].corr().to_string()] *)
  corr_to_string : DataFrame -> list string -> string;
  (** [df.groupby(col).size().to_string()] *)
  groupby_size_to_string : DataFrame -> string -> Res string;
  (** [df.groupby(col)[cols].mean().to_string()] *)
  groupby_mean_to_string : DataFrame -> string -> list string -> Res string;
  (** [df.groupby(col).agg(['count', 'mean']).round(2).to_string()] *)
  groupby_agg_to_string : DataFrame -> string -> Res string;
  (** [df[col].dtype in ['number']] *)
  dtype_in_number : DataFrame -> string -> Res bool;
  (** [df.nlargest(n, col).to_string()] *)
  nlargest_to_string : DataFrame -> N -> string -> Res string;
  (** [repr] of a list of column labels, as an f-string prints it *)
  repr_list : list string -> string;
  (** [repr(dict(df.dtypes))] *)
  dtypes_repr : DataFrame -> string
}.

(** What [preprocess_csv_data] asks of pandas beyond that: the operations
    that change a column return the changed frame. *)
Class PandasFrames `{Pandas} : Type := {
  (** the labels of [df.select_dtypes(include=['object'])] *)
  object_cols : DataFrame -> list string;
  (** [df[col] = df[col].astype(str).replace(..., regex=True)], line 245 *)
  quote_strings : DataFrame -> string -> Res DataFrame;
  (** [df[col] = pd.to_datetime(df[col], errors='coerce')] *)
  to_datetime : DataFrame -> string -> Res DataFrame;
  (** [df[col].dtype == 'object'] *)
  dtype_is_object : DataFrame -> string -> Res bool;
  (** [df[col] = pd.to_numeric(df[col])] *)
  to_numeric : DataFrame -> string -> Res DataFrame;
  (** [df.to_csv(index=False, quoting=csv.QUOTE_ALL)] *)
  to_csv : DataFrame -> Res string
}.

(** [df.shape[1]], [len(df.columns)] *)
Definition df_ncols `{Pandas} (df : DataFrame) : N :=
  N.of_nat (List.length (df_columns df)).

(** [df.isnull().sum()]: the null count of every column. *)
Definition isnull_sum `{Pandas} (df : DataFrame) : list (string * N) :=
  map (fun col => (col, null_count df col)) (df_columns df).

(** [missing_info[missing_info['Missing Count'] > 0]] *)
Definition missing_rows `{Pandas} (df : DataFrame) : list (string * N) :=
  filter (fun row => (0 <? snd row)%N) (isnull_sum df).

(** [df.isnull().sum().sum()] *)
Definition missing_total `{Pandas} (df : DataFrame) : N :=
  fold_right N.add 0%N (map snd (isnull_sum df)).

(* ===================================================================== *)
(** ** data_analysis_tools.py *)
(* ===================================================================== *)

Module DataAnalysis.
Import PyStr Py.

Section WithPandas.
Context `{Runtime} `{P : Pandas}.

(** The line [**Data Shape**: {df.shape[0]} rows × {df.shape[1]} columns]. *)
Definition shape_line (label : string) (df : DataFrame) : string :=
  label ++ str_N (df_len df) ++ " rows × " ++ str_N (df_ncols df) ++ " columns".

(** Lines 54-57: one entry of [col_info] per column. *)
Definition col_info (df : DataFrame) : list string :=
  map (fun col =>
         let dtype := dtype_str df col in
         let null_count := null_count df col in
         "- **" ++ col ++ "**: " ++ dtype ++
         " (" ++ str_N null_count ++ " null values)")
      (df_columns df).

(** Lines 121-141: the loop over the words of the query, and the return
    that follows it. *)
Fixpoint group_by_loop (df : DataFrame) (query_lower : string)
    (words : list string) : M (option string) :=
  match words with
  | [] =>
      ret (Some "❌ Could not identify grouping column. Please specify 'group by [column_name]'.")
  | word :: rest =>
      if list_in (lower word) ["by"; "group"]
      then match rest with
           | [] => group_by_loop df query_lower rest
           | group_col :: _ =>
               if list_in group_col (df_columns df)
               then
                 let finish (result : string) : M (option string) :=
                   ret (Some ("📊 Grouped Analysis by '" ++ group_col ++ "':"
                              ++ nl ++ nl ++ result)) in
                 if any_in ["count"; "sum"] query_lower
                 then result <- lift (groupby_size_to_string df group_col) ;;
                      finish result
                 else if any_in ["mean"; "average"] query_lower
                 then
                   let numeric_cols := numeric_cols df in
                   if (0 <? List.length numeric_cols)%nat
                   then result <- lift (groupby_mean_to_string df group_col
                                          numeric_cols) ;;
                        finish result
                   else ret (Some "❌ No numeric columns found for averaging.")
                 else result <- lift (groupby_agg_to_string df group_col) ;;
                      finish result
               else group_by_loop df query_lower rest
           end
      else group_by_loop df query_lower rest
  end.

(** Lines 145-169: the "top values" branch. *)
Definition top_values (df : DataFrame) (user_query query_lower : string)
    : M (option string) :=
  let numbers := findall_digits user_query in
  n <- match numbers with
       | first :: _ => n <- lift (int first) ;; ret (Z.to_N n)
       | [] => ret 10%N
       end ;;
  match find (fun col => str_in (lower col) query_lower) (df_columns df) with
  | Some col =>
      is_number <- lift (dtype_in_number df col) ;;
      result <- (if is_number : bool
                 then lift (nlargest_to_string df n col)
                 else ret (head_to_string df n)) ;;
      ret (Some ("🏆 Top " ++ str_N n ++ " values by '" ++ col ++ "':"
                 ++ nl ++ nl ++ result))
  | None =>
      let numeric_cols := numeric_cols df in
      match numeric_cols with
      | first_numeric :: _ =>
          result <- lift (nlargest_to_string df n first_numeric) ;;
          ret (Some ("🏆 Top " ++ str_N n ++ " values by '" ++ first_numeric
                     ++ "':" ++ nl ++ nl ++ result))
      | [] =>
          ret (Some ("🏆 Top " ++ str_N n ++ " rows:" ++ nl ++ nl
                     ++ head_to_string df n))
      end
  end.

(** Lines 173-191: the default response. *)
Definition data_overview (df : DataFrame) : string :=
  "📊 Data Overview:" ++ nl ++ nl
  ++ shape_line "**Dataset Shape**: " df ++ nl
  ++ "**Columns**: " ++ repr_list (df_columns df) ++ nl
  ++ "**Data Types**: " ++ dtypes_repr df ++ nl
  ++ "**Missing Values**: " ++ str_N (missing_total df) ++ " total" ++ nl ++ nl
  ++ "**Sample Data**:" ++ nl
  ++ head_to_string df 5 ++ nl ++ nl
  ++ "💡 **Try asking for:**" ++ nl
  ++ "- " ++ dq ++ "Show me the first 10 rows" ++ dq ++ nl
  ++ "- " ++ dq ++ "What are the column names and data types?" ++ dq ++ nl
  ++ "- " ++ dq ++ "Calculate summary statistics" ++ dq ++ nl
  ++ "- " ++ dq ++ "Find missing values" ++ dq ++ nl
  ++ "- " ++ dq ++ "Show correlations between numeric columns" ++ dq ++ nl
  ++ "- " ++ dq ++ "Group by [column] and calculate averages" ++ dq ++ nl
  ++ "- " ++ dq ++ "Show top 5 values by [column]" ++ dq ++ nl.

(** Lines 82-98: the missing-value report, or the message that there is
    nothing to report. *)
Definition missing_values (df : DataFrame) : string :=
  let missing_info := missing_rows df in
  if (0 <? List.length missing_info)%nat
  then "🔍 Missing Values Analysis:" ++ nl ++ nl
       ++ missing_info_to_string df ++ nl ++ nl
       ++ "**Total Missing Values**: " ++ str_N (missing_total df)
  else "✅ No missing values found in the dataset!".

(** Lines 31-191, the body of the [try].  [None] is Python's [None]: what a
    function returns when it runs off its end.  The module is imported at
    the top of the file, so the guarded re-import of lines 25-29 succeeds. *)
Definition analysis (data_content user_query : string) : M (option string) :=
  df <- lift (read_csv data_content) ;;
  let query_lower := lower user_query in
  (* Basic data exploration *)
  if any_in ["first"; "rows"; "head"; "show"] query_lower then
    if str_in "first" query_lower || str_in "head" query_lower then
      let numbers := findall_digits user_query in
      num_rows <- match numbers with
                  | first :: _ =>
                      n <- lift (int first) ;;
                      ret (N.min (Z.to_N n) (df_len df))
                  | [] => ret 5%N
                  end ;;
      ret (Some ("📊 First " ++ str_N num_rows ++ " rows of the data:"
                 ++ nl ++ nl
                 ++ head_to_string df num_rows ++ nl ++ nl
                 ++ shape_line "**Data Shape**: " df))
    else ret None
  (* Column information *)
  else if any_in ["columns"; "column names"; "data types"] query_lower then
    ret (Some ("📋 Column Information:" ++ nl ++ nl
               ++ "**Total Columns**: " ++ str_N (df_ncols df) ++ nl
               ++ shape_line "**Data Shape**: " df ++ nl ++ nl
               ++ "**Column Details**:" ++ nl
               ++ join nl (col_info df)))
  (* Summary statistics *)
  else if any_in ["summary"; "statistics"; "describe"; "mean"; "median"; "std"]
                 query_lower then
    let numeric_cols := numeric_cols df in
    if (0 <? List.length numeric_cols)%nat then
      ret (Some ("📈 Summary Statistics for Numeric Columns:" ++ nl ++ nl
                 ++ "**Numeric Columns**: " ++ repr_list numeric_cols
                 ++ nl ++ nl
                 ++ describe_to_string df numeric_cols))
    else ret (Some "❌ No numeric columns found in the dataset for statistical analysis.")
  (* Missing values *)
  else if any_in ["missing"; "null"; "na"] query_lower then
    ret (Some (missing_values df))
  (* Unique values *)
  else if any_in ["unique"; "distinct"; "values"] query_lower then
    ret (Some ("🎯 Unique Values Count:" ++ nl ++ nl ++ nunique_to_string df))
  (* Correlations *)
  else if any_in ["correlation"; "correlate"] query_lower then
    let numeric_cols := numeric_cols df in
    if (1 <? List.length numeric_cols)%nat then
      ret (Some ("🔗 Correlation Matrix:" ++ nl ++ nl
                 ++ corr_to_string df numeric_cols))
    else ret (Some "❌ Need at least 2 numeric columns for correlation analysis.")
  (* Group by operations *)
  else if any_in ["group"; "groupby"; "count"; "average"; "mean"] query_lower
  then group_by_loop df query_lower (split user_query)
  (* Top values *)
  else if any_in ["top"; "highest"; "maximum"; "largest"] query_lower then
    top_values df user_query query_lower
  (* Default response *)
  else ret (Some (data_overview df)).

(** Lines 10-194. *)
Definition analyze_data_with_sql (data_content user_query : string)
    (openai_api_key : option string) : M (option string) :=
  try_except (analysis data_content user_query)
    (fun e => ret (Some ("Error analyzing data: " ++ str_exn e))).


(** Lines 244-245: the loop over the object columns. *)
Fixpoint quote_loop {PF : @PandasFrames P} (cols : list string) (df : DataFrame)
    : Res DataFrame :=
  match cols with
  | [] => Ok df
  | col :: rest => (df <~ quote_strings df col ;; quote_loop rest df)%res
  end.

(** Lines 248-256: the loop over all columns.  A [ValueError] or
    [TypeError] of the numeric conversion is dropped and the column kept
    as it is; any other exception goes on. *)
Fixpoint convert_loop {PF : @PandasFrames P} (cols : list string) (df : DataFrame)
    : Res DataFrame :=
  match cols with
  | [] => Ok df
  | col :: rest =>
      if str_in "date" (lower col)
      then (df <~ to_datetime df col ;; convert_loop rest df)%res
      else
        (is_object <~ dtype_is_object df col ;;
         if is_object : bool
         then match to_numeric df col with
              | Ok df => convert_loop rest df
              | Raise e =>
                  if caught_by ["ValueError"; "TypeError"] e
                  then convert_loop rest df
                  else Raise e
              end
         else convert_loop rest df)%res
  end.

(** Lines 229-273. *)
Definition preprocess_csv_data {PF : @PandasFrames P} (csv_content : string)
    : M string :=
  try_except
    (df <- lift (read_csv csv_content) ;;
     (* Ensure string columns are properly quoted *)
     df <- lift (quote_loop (object_cols df) df) ;;
     (* Parse dates and numeric columns *)
     df <- lift (convert_loop (df_columns df) df) ;;
     (* Convert back to CSV string *)
     output <- lift (to_csv df) ;;
     ret ("✅ Data preprocessing completed!" ++ nl ++ nl
          ++ "**Original columns**: " ++ repr_list (df_columns df) ++ nl
          ++ shape_line "**Data shape**: " df ++ nl
          ++ "**Data types**: " ++ dtypes_repr df ++ nl ++ nl
          ++ "**Preprocessed data**:" ++ nl
          ++ "```csv" ++ nl
          ++ take 1000 output
          ++ (if (1000 <? len output)%N then "..." else "") ++ nl
          ++ "```"))
    (fun e => ret ("Error preprocessing data: " ++ str_exn e)).

End WithPandas.

Section WithWorld.
Variable W : World.
Variable S : Services.

(** Lines 196-227. *)
Definition get_data_analysis_status : string :=
  let openai_api_key := getenv W "OPENAI_API_KEY" in
  let status := "📊 Data Analysis Status:" ++ nl ++ nl in
  let status :=
    if str_truthy openai_api_key
    then status ++ "✅ OpenAI API key: Configured" ++ nl
    else status ++ "❌ OpenAI API key: Not configured" ++ nl in
  let status :=
    if importable S "pandas"
    then status ++ "✅ Pandas library: Installed" ++ nl
    else status
         ++ "❌ Pandas library: Not installed (run: pip install pandas)" ++ nl
  in
  let status :=
    if importable S "duckdb"
    then status ++ "✅ DuckDB library: Installed" ++ nl
    else status
         ++ "❌ DuckDB library: Not installed (run: pip install duckdb)" ++ nl
  in
  if str_truthy openai_api_key
  then status ++ nl ++ "🎉 Data analysis is ready to use!"
  else status ++ nl
       ++ "⚠️ Please configure OpenAI API key to enable data analysis.".

End WithWorld.
End DataAnalysis.

(* ===================================================================== *)
(** ** finance_tools.py *)
(* ===================================================================== *)

Module Finance.
Import PyStr Py.

Section WithWorld.
Context `{Runtime}.
Variable W : World.
Variable S : Services.

Definition N_A : pyval := py_of_str "N/A".

(** Lines 10-34. *)
Definition get_stock_price (symbol : string) : M string :=
  try_except
    (info <- service_call (YfInfo (upper symbol)) (yf_info W (upper symbol)) ;;
     if has_truthy info "regularMarketPrice" then
       let price := dict_get info "regularMarketPrice" N_A in
       let currency := py_str (dict_get info "currency" (py_of_str "USD")) in
       let company_name :=
         py_str (dict_get info "longName" (py_of_str (upper symbol))) in
       ret (nl
            ++ "**Stock Price for " ++ company_name ++ " (" ++ upper symbol
            ++ ")**" ++ nl
            ++ "- **Current Price**: " ++ py_str price ++ " " ++ currency ++ nl
            ++ "- **Previous Close**: "
            ++ py_str (dict_get info "previousClose" N_A) ++ " " ++ currency ++ nl
            ++ "- **Market Cap**: "
            ++ py_str (dict_get info "marketCap" N_A) ++ " " ++ currency ++ nl
            ++ "- **Volume**: " ++ py_str (dict_get info "volume" N_A) ++ nl
            ++ "- **52 Week High**: "
            ++ py_str (dict_get info "fiftyTwoWeekHigh" N_A) ++ " " ++ currency
            ++ nl
            ++ "- **52 Week Low**: "
            ++ py_str (dict_get info "fiftyTwoWeekLow" N_A) ++ " " ++ currency
            ++ nl)
     else
       ret ("Could not retrieve stock price for " ++ upper symbol
            ++ ". Please check the symbol and try again."))
    (fun e =>
       ret ("Error retrieving stock price for " ++ symbol ++ ": " ++ str_exn e)).

(** Lines 36-68. *)
Definition get_stock_fundamentals (symbol : string) : M string :=
  try_except
    (info <- service_call (YfInfo (upper symbol)) (yf_info W (upper symbol)) ;;
     let field (key : string) := py_str (dict_get info key N_A) in
     let fundamentals :=
       nl
       ++ "**Fundamental Analysis for "
       ++ py_str (dict_get info "longName" (py_of_str (upper symbol)))
       ++ " (" ++ upper symbol ++ ")**" ++ nl ++ nl
       ++ "**Valuation Metrics:**" ++ nl
       ++ "- **P/E Ratio**: " ++ field "trailingPE" ++ nl
       ++ "- **Forward P/E**: " ++ field "forwardPE" ++ nl
       ++ "- **PEG Ratio**: " ++ field "pegRatio" ++ nl
       ++ "- **Price to Book**: " ++ field "priceToBook" ++ nl
       ++ "- **Enterprise Value**: " ++ field "enterpriseValue" ++ nl ++ nl
       ++ "**Financial Performance:**" ++ nl
       ++ "- **Revenue**: " ++ field "totalRevenue" ++ nl
       ++ "- **Profit Margin**: " ++ field "profitMargins" ++ nl
       ++ "- **Operating Margin**: " ++ field "operatingMargins" ++ nl
       ++ "- **Return on Equity**: " ++ field "returnOnEquity" ++ nl
       ++ "- **Return on Assets**: " ++ field "returnOnAssets" ++ nl ++ nl
       ++ "**Dividend Information:**" ++ nl
       ++ "- **Dividend Yield**: " ++ field "dividendYield" ++ nl
       ++ "- **Dividend Rate**: " ++ field "dividendRate" ++ nl
       ++ "- **Payout Ratio**: " ++ field "payoutRatio" ++ nl in
     ret fundamentals)
    (fun e =>
       ret ("Error retrieving fundamentals for " ++ symbol ++ ": " ++ str_exn e)).

(** [recommendations.tail(10)] *)
Definition tail10 {A} (rows : list A) : list A :=
  skipn (List.length rows - 10) rows.

(** Lines 82-86: the loop over the latest rows; [result] is the text built
    so far.  The module never imports [pd], so the test of line 84 raises
    [NameError] as soon as a row has the label ['Action']. *)
Fixpoint recommendation_lines (rows : list recommendation) (result : string)
    : Res string :=
  match rows with
  | [] => Ok result
  | row :: rest =>
      (to_grade <~ subscript (cells row) "To Grade" ;;
       firm <~ subscript (cells row) "Firm" ;;
       date <~ name_strftime row ;;
       let result :=
         result ++ "- **" ++ py_str to_grade ++ "** by " ++ py_str firm
         ++ " on " ++ date ++ nl in
       if has_key (cells row) "Action"
       then Raise (PyError "NameError" "name 'pd' is not defined")
       else recommendation_lines rest (result ++ nl))%res
  end.

(** Lines 70-93. *)
Definition get_analyst_recommendations (symbol : string) : M string :=
  try_except
    (recommendations <- service_call (YfRecommendations (upper symbol))
                          (yf_recommendations S (upper symbol)) ;;
     match recommendations with
     | Some ((_ :: _) as rows) =>
         (* Get the latest recommendations *)
         let latest := tail10 rows in
         let result :=
           "**Analyst Recommendations for " ++ upper symbol ++ "**" ++ nl ++ nl
         in
         lift (recommendation_lines latest result)
     | _ => ret ("No analyst recommendations found for " ++ upper symbol)
     end)
    (fun e =>
       ret ("Error retrieving analyst recommendations for " ++ symbol ++ ": "
            ++ str_exn e)).

(** Line 99. *)
Definition search_url (query : string) : string :=
  "https://api.duckduckgo.com/?q=" ++ query
  ++ "&format=json&no_html=1&skip_disambig=1".

(** Lines 95-120. *)
Definition get_market_news (query : string) : M string :=
  try_except
    (response <- service_call (HttpGet (search_url query))
                   (requests_get_timeout S (search_url query)) ;;
     lift (raise_for_status response) ;;;
     data <- lift (response_json S response) ;;
     if has_truthy data "AbstractText" then
       ret (nl
            ++ "**Latest Financial News: " ++ query ++ "**" ++ nl ++ nl
            ++ "**Summary:**" ++ nl
            ++ py_str (dict_get data "AbstractText" N_A) ++ nl ++ nl
            ++ "**Source:** "
            ++ py_str (dict_get data "AbstractSource" (py_of_str "DuckDuckGo"))
            ++ nl
            ++ "**URL:** " ++ py_str (dict_get data "AbstractURL" N_A)
            ++ nl)
     else
       ret ("Could not retrieve news for '" ++ query
            ++ "'. Please try a different search term."))
    (fun e => ret ("Error retrieving market news: " ++ str_exn e)).

(** [holdings_dict[key] = value]: a key already there keeps its place. *)
Fixpoint holdings_set (d : list (string * Z)) (key : string) (value : Z)
    : list (string * Z) :=
  match d with
  | [] => [(key, value)]
  | (k, v) :: d' =>
      if String.eqb k key then (k, value) :: d'
      else (k, v) :: holdings_set d' key value
  end.

(** Lines 127-130: the loop over the comma-separated holdings. *)
Fixpoint parse_holdings (parts : list string) (holdings_dict : list (string * Z))
    : Res (list (string * Z)) :=
  match parts with
  | [] => Ok holdings_dict
  | holding :: rest =>
      if str_in ":" holding
      then match split_on ":" (strip holding) with
           | [symbol; shares] =>
               (shares <~ int shares ;;
                parse_holdings rest
                  (holdings_set holdings_dict (upper (strip symbol)) shares))%res
           | [] | [_] =>
               Raise (PyError "ValueError"
                        "not enough values to unpack (expected 2, got 1)")
           | _ =>
               Raise (PyError "ValueError"
                        "too many values to unpack (expected 2)")
           end
      else parse_holdings rest holdings_dict
  end.

(** Line 145. *)
Definition holding_error (symbol : string) (e : exn) : string :=
  "- **" ++ symbol ++ "**: Error retrieving data - " ++ str_exn e.

(** Lines 135-145: the loop over the holdings, with its own [try].  The
    total is updated on line 140, before the line of the holding is
    formatted: an exception of the formatting leaves the new total, an
    earlier one the old. *)
Fixpoint portfolio_loop (holdings : list (string * Z)) (total_value : pyval)
    (portfolio_details : list string) : M (pyval * list string) :=
  match holdings with
  | [] => ret (total_value, portfolio_details)
  | (symbol, shares) :: rest =>
      step <- try_except
                (info <- service_call (YfInfo symbol) (yf_info W symbol) ;;
                 let price :=
                   dict_get info "regularMarketPrice" (int_value 0) in
                 value <- lift (mul price shares) ;;
                 new_total <- lift (add total_value value) ;;
                 try_except
                   (price_text <- lift (py_format price ".2f") ;;
                    value_text <- lift (py_format value ".2f") ;;
                    ret (new_total,
                         "- **" ++ symbol ++ "**: " ++ str_Z shares
                         ++ " shares @ $" ++ price_text ++ " = $"
                         ++ value_text))
                   (fun e => ret (new_total, holding_error symbol e)))
                (fun e => ret (total_value, holding_error symbol e)) ;;
      portfolio_loop rest (fst step) (portfolio_details ++ [snd step])%list
  end.

(** Lines 122-159. *)
Definition calculate_portfolio_value (holdings : string) : M string :=
  try_except
    ((* Parse holdings (format: "AAPL:100,GOOGL:50,MSFT:75") *)
     holdings_dict <- lift (parse_holdings (split_on "," holdings) []) ;;
     totals <- portfolio_loop holdings_dict (int_value 0) [] ;;
     total_text <- lift (py_format (fst totals) ".2f") ;;
     ret (nl
          ++ "**Portfolio Analysis**" ++ nl ++ nl
          ++ "**Holdings:**" ++ nl
          ++ join nl (snd totals) ++ nl ++ nl
          ++ "**Total Portfolio Value: $" ++ total_text ++ "**" ++ nl))
    (fun e => ret ("Error calculating portfolio value: " ++ str_exn e)).

(** Lines 165-166: the ticker symbol that is looked up. *)
Definition crypto_symbol (symbol : string) : string :=
  if negb (endswith symbol "-USD") then upper symbol ++ "-USD" else symbol.

(** Lines 161-187.  From line 166 on, [symbol] is the rebound name. *)
Definition get_crypto_price (symbol : string) : M string :=
  let symbol := crypto_symbol symbol in
  try_except
    (info <- service_call (YfInfo symbol) (yf_info W symbol) ;;
     if has_truthy info "regularMarketPrice" then
       let price := dict_get info "regularMarketPrice" N_A in
       price_text <- lift (py_format price ",.2f") ;;
       market_cap <- lift (py_format (dict_get info "marketCap" N_A) ",.0f") ;;
       supply <- lift (py_format (dict_get info "circulatingSupply" N_A)
                         ",.0f") ;;
       ret (nl
            ++ "**Cryptocurrency Price: " ++ replace "-USD" "" symbol ++ "**"
            ++ nl ++ nl
            ++ "- **Current Price**: $" ++ price_text ++ " USD" ++ nl
            ++ "- **24h Change**: "
            ++ py_str (dict_get info "regularMarketChangePercent" N_A) ++ "%"
            ++ nl
            ++ "- **24h Volume**: " ++ py_str (dict_get info "volume" N_A) ++ nl
            ++ "- **Market Cap**: $" ++ market_cap ++ " USD" ++ nl
            ++ "- **Circulating Supply**: " ++ supply ++ nl)
     else
       ret ("Could not retrieve price for " ++ replace "-USD" "" symbol
            ++ ". Please check the symbol."))
    (fun e =>
       ret ("Error retrieving crypto price for " ++ symbol ++ ": " ++ str_exn e)).

(** Lines 193-201, in the order of the dictionary. *)
Definition indicators : list (string * string) :=
  [("^GSPC", "S&P 500"); ("^DJI", "Dow Jones"); ("^IXIC", "NASDAQ");
   ("^VIX", "Volatility Index"); ("GC=F", "Gold Futures");
   ("CL=F", "Crude Oil Futures"); ("DX-Y.NYB", "US Dollar Index")].

(** Lines 205-218: the loop over the indicators, with its own [try]; the
    text of a caught exception is not used. *)
Fixpoint indicators_loop (items : list (string * string)) (result : string)
    : M string :=
  match items with
  | [] => ret result
  | (symbol, name) :: rest =>
      result <- try_except
                  (info <- service_call (YfInfo symbol) (yf_info W symbol) ;;
                   if has_truthy info "regularMarketPrice" then
                     let price := dict_get info "regularMarketPrice" N_A in
                     let change :=
                       dict_get info "regularMarketChangePercent"
                                (int_value 0) in
                     positive <- lift (gt0 change) ;;
                     change_symbol <-
                       (if positive : bool then ret "📈"
                        else negative <- lift (lt0 change) ;;
                             ret (if negative : bool then "📉" else "➡️")) ;;
                     price_text <- lift (py_format price ",.2f") ;;
                     change_text <- lift (py_format change "+.2f") ;;
                     ret (result ++ change_symbol ++ " **" ++ name ++ "**: $"
                          ++ price_text ++ " (" ++ change_text ++ "%)" ++ nl)
                   else ret result)
                  (fun e =>
                     ret (result ++ "❌ **" ++ name
                          ++ "**: Error retrieving data" ++ nl)) ;;
      indicators_loop rest result
  end.

(** Lines 189-223. *)
Definition get_economic_indicators : M string :=
  try_except
    (indicators_loop indicators ("**Key Economic Indicators**" ++ nl ++ nl))
    (fun e => ret ("Error retrieving economic indicators: " ++ str_exn e)).

End WithWorld.
End Finance.

(* ===================================================================== *)
(** ** news_tools.py *)
(* ===================================================================== *)

Module News.
Import PyStr Py.

Section WithServices.
Variable S : Services.

(** The loop [for i, result in enumerate(results, 1)]: one entry per
    result, numbered from [i]. *)
Fixpoint news_entries (label : string) (i : N) (results : list info_dict)
    : list string :=
  match results with
  | [] => []
  | result :: rest =>
      (nl
       ++ "**" ++ label ++ " " ++ str_N i ++ ":**" ++ nl
       ++ "- **Title**: "
       ++ py_str (dict_get result "title" (py_of_str "No title")) ++ nl
       ++ "- **Source**: "
       ++ py_str (dict_get result "href" (py_of_str "No URL")) ++ nl
       ++ "- **Summary**: "
       ++ py_str (dict_get result "body" (py_of_str "No summary")) ++ nl)
      :: news_entries label (N.succ i) rest
  end.

(** Lines 10-33. *)
Definition search_news_articles (topic : string) (max_results : Z)
    : M string :=
  try_except
    (let search_query := topic ++ " news " ++ now_strftime S "%Y-%m" in
     results <- service_call (DdgText search_query max_results)
                  (ddg_text S search_query max_results) ;;
     match results with
     | _ :: _ =>
         let news_results := news_entries "Article" 1 results in
         ret ("Found " ++ str_N (N.of_nat (List.length results))
              ++ " recent news articles about '" ++ topic ++ "':" ++ nl
              ++ join nl news_results)
     | [] =>
         ret ("No recent news found for '" ++ topic
              ++ "'. Try a different search term or check spelling.")
     end)
    (fun e => ret ("Error searching for news: " ++ str_exn e)).

(** The common body of the five functions of lines 35-148: a fixed query
    for 5 results, a dated title over the numbered entries, a message when
    there are none, and the error string. *)
Definition headlines (query label title date_format empty_message
                      error_prefix : string) : M string :=
  try_except
    (results <- service_call (DdgText query 5) (ddg_text S query 5) ;;
     match results with
     | _ :: _ =>
         let news_results := news_entries label 1 results in
         ret ("**" ++ title ++ " - " ++ now_strftime S date_format ++ "**"
              ++ nl ++ join nl news_results)
     | [] => ret empty_message
     end)
    (fun e => ret (error_prefix ++ str_exn e)).

(** Lines 35-57. *)
Definition search_breaking_news : M string :=
  headlines "breaking news today" "Breaking News" "Breaking News"
            "%Y-%m-%d %H:%M" "No breaking news found at the moment."
            "Error searching for breaking news: ".

(** Lines 59-80. *)
Definition search_tech_news : M string :=
  headlines "technology news today" "Tech News" "Technology News"
            "%Y-%m-%d" "No technology news found at the moment."
            "Error searching for tech news: ".

(** Lines 82-103. *)
Definition search_business_news : M string :=
  headlines "business news today" "Business News" "Business News"
            "%Y-%m-%d" "No business news found at the moment."
            "Error searching for business news: ".

(** Lines 105-126. *)
Definition search_sports_news : M string :=
  headlines "sports news today" "Sports News" "Sports News"
            "%Y-%m-%d" "No sports news found at the moment."
            "Error searching for sports news: ".

(** Lines 128-149. *)
Definition search_science_news : M string :=
  headlines "science news today" "Science News" "Science News"
            "%Y-%m-%d" "No science news found at the moment."
            "Error searching for science news: ".

(** Lines 151-181. *)
Definition create_news_summary (topic : string) : M string :=
  try_except
    ((* First, search for news articles *)
     news_data <- search_news_articles topic 5 ;;
     (* Create a summary based on the news data *)
     let summary :=
       nl
       ++ "# News Summary: " ++ topic ++ nl ++ nl
       ++ "## Overview" ++ nl
       ++ "Based on recent news coverage, here are the key developments regarding "
       ++ topic ++ ":" ++ nl ++ nl
       ++ news_data ++ nl ++ nl
       ++ "## Key Themes" ++ nl
       ++ "- Recent developments in " ++ topic
       ++ " show significant activity and interest" ++ nl
       ++ "- Multiple sources are covering various aspects of this topic" ++ nl
       ++ "- The coverage spans different perspectives and implications"
       ++ nl ++ nl
       ++ "## Analysis" ++ nl
       ++ "The news coverage indicates that " ++ topic
       ++ " continues to be a relevant and evolving subject with ongoing developments worth monitoring."
       ++ nl ++ nl
       ++ "---" ++ nl
       ++ "*Summary generated on " ++ now_strftime S "%Y-%m-%d %H:%M:%S" ++ "*"
       ++ nl in
     ret summary)
    (fun e => ret ("Error creating news summary: " ++ str_exn e)).

(** Lines 183-205. *)
Definition search_company_news (company : string) : M string :=
  try_except
    (let search_query :=
       company ++ " company news " ++ now_strftime S "%Y-%m" in
     results <- service_call (DdgText search_query 5)
                  (ddg_text S search_query 5) ;;
     match results with
     | _ :: _ =>
         let news_results := news_entries "Company News" 1 results in
         ret ("**" ++ company ++ " News - " ++ now_strftime S "%Y-%m-%d" ++ "**"
              ++ nl ++ join nl news_results)
     | [] =>
         ret ("No recent news found for " ++ company
              ++ ". Try checking the company name or searching for a different term.")
     end)
    (fun e => ret ("Error searching for company news: " ++ str_exn e)).

End WithServices.
End News.

(* ===================================================================== *)
(** ** music_tools.py *)
(* ===================================================================== *)

Module Music.
Import PyStr Py.

Section WithWorld.
Variable W : World.
Variable S : Services.

(** Lines 28-38. *)
Definition missing_keys_message : string :=
  "Error: Missing API keys. To generate music, you need both OpenAI and ModelsLab API keys."
  ++ nl ++ "            " ++ nl
  ++ "Please provide:" ++ nl
  ++ "1. OpenAI API key (for the AI agent)" ++ nl
  ++ "2. ModelsLab API key (for music generation)" ++ nl ++ nl
  ++ "You can set them as environment variables:" ++ nl
  ++ "- OPENAI_API_KEY" ++ nl
  ++ "- MODELSLAB_API_KEY" ++ nl ++ nl
  ++ "Or provide them directly when calling this tool.".

(** Lines 6-99.  The agent of lines 50-71 is built and run in one step. *)
Definition generate_music (prompt : string)
    (openai_api_key models_lab_api_key : option string) : M string :=
  try_except
    ((* Check if API keys are provided *)
     let openai_api_key :=
       if negb (str_truthy openai_api_key)
       then getenv W "OPENAI_API_KEY" else openai_api_key in
     let models_lab_api_key :=
       if negb (str_truthy models_lab_api_key)
       then getenv W "MODELSLAB_API_KEY" else models_lab_api_key in
     if negb (str_truthy openai_api_key)
        || negb (str_truthy models_lab_api_key)
     then ret missing_keys_message
     (* Import Agno components *)
     else if negb (importable S "agno")
     then ret ("Error: Required dependencies not installed. Please install:"
               ++ nl ++ "pip install agno requests")
     else
       (* Generate the music *)
       audio <- service_call (AgentRun prompt)
                  (agent_run S prompt openai_api_key models_lab_api_key) ;;
       match audio with
       | url :: _ =>
           (* Create directory for audio files *)
           let save_dir := "audio_generations" in
           lift (makedirs S save_dir) ;;;
           (* Download the generated audio *)
           response <- service_call (HttpGet url) (requests_get_plain S url) ;;
           let filename := save_dir ++ "/music_" ++ uuid4 S ++ ".mp3" in
           lift (write_file S filename (content response)) ;;;
           ret ("🎵 Music generated successfully!" ++ nl ++ nl
                ++ "**Prompt**: " ++ prompt ++ nl
                ++ "**File saved**: " ++ filename ++ nl
                ++ "**Audio URL**: " ++ url ++ nl ++ nl
                ++ "The music has been generated and saved locally. You can play it using any audio player that supports MP3 files."
                ++ nl ++ nl
                ++ "To use this in a Streamlit app, you can load the file and display it with st.audio().")
       | [] =>
           ret "No audio was generated. Please try again with a different prompt."
       end)
    (fun e => ret ("Error generating music: " ++ str_exn e)).

(** Lines 101-138. *)
Definition get_music_generation_status : string :=
  let openai_api_key := getenv W "OPENAI_API_KEY" in
  let models_lab_api_key := getenv W "MODELSLAB_API_KEY" in
  let status := "🎵 Music Generation Status:" ++ nl ++ nl in
  let status :=
    if str_truthy openai_api_key
    then status ++ "✅ OpenAI API key: Configured" ++ nl
    else status ++ "❌ OpenAI API key: Not configured" ++ nl in
  let status :=
    if str_truthy models_lab_api_key
    then status ++ "✅ ModelsLab API key: Configured" ++ nl
    else status ++ "❌ ModelsLab API key: Not configured" ++ nl in
  let status :=
    if importable S "agno"
    then status ++ "✅ Agno library: Installed" ++ nl
    else status ++ "❌ Agno library: Not installed (run: pip install agno)"
         ++ nl in
  let status :=
    if importable S "requests"
    then status ++ "✅ Requests library: Installed" ++ nl
    else status
         ++ "❌ Requests library: Not installed (run: pip install requests)"
         ++ nl in
  if str_truthy openai_api_key && str_truthy models_lab_api_key
  then status ++ nl ++ "🎉 Music generation is ready to use!"
  else status ++ nl
       ++ "⚠️ Please configure API keys to enable music generation.".

End WithWorld.
End Music.

(* ===================================================================== *)
(** ** The document tree of the HTML parser *)
(* ===================================================================== *)

Module Soup.
Import PyStr.

Definition tag_named (names : list string) (n : node) : bool :=
  match n with
  | NavigableString _ => false
  | Tag name _ _ => list_in name names
  end.

(** [for t in soup(names): t.decompose()]: every tag with one of the names
    is taken out of the tree, with all that is below it. *)
Fixpoint decompose_all (names : list string) (n : node) : list node :=
  match n with
  | NavigableString _ => [n]
  | Tag name attrs children =>
      if list_in name names then []
      else [Tag name attrs (flat_map (decompose_all names) children)]
  end.

(** [tag.find_all(...)]: the matching tags below a node, in document
    order; [find_all_from] includes the node itself. *)
Fixpoint find_all_from (p : node -> bool) (n : node) : list node :=
  match n with
  | NavigableString _ => []
  | Tag _ _ children =>
      ((if p n then [n] else []) ++ flat_map (find_all_from p) children)%list
  end.

Definition find_all (p : node -> bool) (soup : list node) : list node :=
  flat_map (find_all_from p) soup.

(** [soup.find(name)]: the first match, or [None]. *)
Definition find (name : string) (soup : list node) : option node :=
  hd_error (find_all (tag_named [name]) soup).

(** [tag.get_text()]: the text nodes below, joined. *)
Fixpoint get_text (n : node) : string :=
  match n with
  | NavigableString text => text
  | Tag _ _ children => String.concat "" (map get_text children)
  end.

Definition soup_get_text (soup : list node) : string :=
  String.concat "" (map get_text soup).

(** [href=True]: the tag has the attribute. *)
Definition has_attr (key : string) (n : node) : bool :=
  match n with
  | NavigableString _ => false
  | Tag _ attrs _ => existsb (fun kv => String.eqb (fst kv) key) attrs
  end.

End Soup.

(* ===================================================================== *)
(** ** api_server.py *)
(* ===================================================================== *)

Module ApiServer.
Import PyStr Py.

Record MathRequest : Type := {
  operation : string;
  a : float;
  b : float
}.

Record MathResponse : Type := {
  result : float;
  operation_name : string;
  inputs : list float
}.

Record WebScrapeRequest : Type := {
  scrape_url : string;
  prompt : string
}.

(** The scrape result is a string or a list of strings. *)
Inductive scraped : Type :=
| Text (s : string)
| Items (xs : list string).

Record WebScrapeResponse : Type := {
  scraped_url : string;
  scraped_prompt : string;
  scraped_result : scraped;
  scraped_timestamp : string
}.

Record DataAnalysisRequest : Type := {
  data_content : string;
  user_query : string;
  openai_api_key : option string
}.

Record DataAnalysisResponse : Type := {
  analysis_data_content : string;
  analysis_query : string;
  analysis_result : option string;
  analysis_timestamp : string
}.

Record StockRequest : Type := { symbol : string }.

Record StockResponse : Type := {
  stock_symbol : string;
  stock_result : string;
  stock_timestamp : string
}.

Record NewsRequest : Type := {
  topic : string;
  max_results : option Z
}.

Record NewsResponse : Type := {
  news_topic : string;
  news_result : string;
  news_timestamp : string
}.

Record BreakingNewsResponse : Type := {
  breaking_result : string;
  breaking_timestamp : string
}.

Record MusicRequest : Type := {
  music_prompt : string;
  music_openai_api_key : option string;
  music_models_lab_api_key : option string
}.

Record MusicResponse : Type := {
  generated_prompt : string;
  generated_result : string;
  generated_timestamp : string
}.

Record HealthResponse : Type := {
  status : string;
  timestamp : string;
  version : string;
  services : list string
}.

(** The handlers' [except Exception as e: raise HTTPException(400, str(e))]. *)
Definition bad_request {A} (e : exn) : M A :=
  raise (HTTPException 400 (str_exn e)).

(** [n or 5] on an optional integer: [None] and [0] are false. *)
Definition int_or (n : option Z) (default : Z) : Z :=
  match n with
  | Some 0%Z => default
  | Some n => n
  | None => default
  end.

(** Python's [x / y] on floats. *)
Definition truediv (x y : float) : Res float :=
  if (y =? 0)%float
  then Raise (PyError "ZeroDivisionError" "float division by zero")
  else Ok (x / y)%float.

(** Lines 74-81. *)
Definition add_numbers (request : MathRequest) : M MathResponse :=
  try_except
    (let result := (a request + b request)%float in
     ret {| result := result; operation_name := "addition";
            inputs := [a request; b request] |})
    bad_request.

(** Lines 83-90. *)
Definition multiply_numbers (request : MathRequest) : M MathResponse :=
  try_except
    (let result := (a request * b request)%float in
     ret {| result := result; operation_name := "multiplication";
            inputs := [a request; b request] |})
    bad_request.

(** Lines 92-99. *)
Definition subtract_numbers (request : MathRequest) : M MathResponse :=
  try_except
    (let result := (a request - b request)%float in
     ret {| result := result; operation_name := "subtraction";
            inputs := [a request; b request] |})
    bad_request.

(** Lines 101-110. *)
Definition divide_numbers (request : MathRequest) : M MathResponse :=
  try_except
    ((if (b request =? 0)%float
      then raise (HTTPException 400 "Cannot divide by zero")
      else ret tt) ;;;
     result <- lift (truediv (a request) (b request)) ;;
     ret {| result := result; operation_name := "division";
            inputs := [a request; b request] |})
    bad_request.

Section WithWorld.
Context `{Runtime} `{Pandas}.
Variable W : World.
Variable S : Services.

(** Lines 113-120. *)
Definition get_stock_price_api (request : StockRequest) : M StockResponse :=
  try_except
    (result <- Finance.get_stock_price W (symbol request) ;;
     ret {| stock_symbol := symbol request; stock_result := result;
            stock_timestamp := now_isoformat W |})
    bad_request.

(** Lines 122-129. *)
Definition get_stock_fundamentals_api (request : StockRequest)
    : M StockResponse :=
  try_except
    (result <- Finance.get_stock_fundamentals W (symbol request) ;;
     ret {| stock_symbol := symbol request; stock_result := result;
            stock_timestamp := now_isoformat W |})
    bad_request.

(** Lines 131-138. *)
Definition get_crypto_price_api (request : StockRequest) : M StockResponse :=
  try_except
    (result <- Finance.get_crypto_price W (symbol request) ;;
     ret {| stock_symbol := symbol request; stock_result := result;
            stock_timestamp := now_isoformat W |})
    bad_request.

(** Lines 141-149. *)
Definition search_news_articles_api (request : NewsRequest) : M NewsResponse :=
  try_except
    (let max_results := int_or (max_results request) 5 in
     result <- News.search_news_articles S (topic request) max_results ;;
     ret {| news_topic := topic request; news_result := result;
            news_timestamp := now_isoformat W |})
    bad_request.

(** Lines 151-158. *)
Definition search_breaking_news_api : M BreakingNewsResponse :=
  try_except
    (result <- News.search_breaking_news S ;;
     ret {| breaking_result := result;
            breaking_timestamp := now_isoformat W |})
    bad_request.

(** Lines 161-177. *)
Definition generate_music_api (request : MusicRequest) : M MusicResponse :=
  try_except
    (let openai_key :=
       py_or (music_openai_api_key request) (getenv W "OPENAI_API_KEY") in
     let models_lab_key :=
       py_or (music_models_lab_api_key request)
             (getenv W "MODELSLAB_API_KEY") in
     (if negb (str_truthy openai_key) || negb (str_truthy models_lab_key)
      then raise (HTTPException 400
                    "Both OpenAI and ModelsLab API keys are required for music generation")
      else ret tt) ;;;
     result <- Music.generate_music W S (music_prompt request)
                 openai_key models_lab_key ;;
     ret {| generated_prompt := music_prompt request;
            generated_result := result;
            generated_timestamp := now_isoformat W |})
    bad_request.

(** Lines 180-200. *)
Definition analyze_data_api (request : DataAnalysisRequest)
    : M DataAnalysisResponse :=
  try_except
    (let openai_key :=
       py_or (openai_api_key request) (getenv W "OPENAI_API_KEY") in
     (if negb (str_truthy openai_key)
      then raise (HTTPException 400
                    "OpenAI API key is required for data analysis")
      else ret tt) ;;;
     result <- DataAnalysis.analyze_data_with_sql
                 (data_content request) (user_query request) openai_key ;;
     ret {| analysis_data_content := take 100 (data_content request) ++ "...";
            analysis_query := user_query request;
            analysis_result := result;
            analysis_timestamp := now_isoformat W |})
    bad_request.

(** Lines 203-247. *)
Definition scrape_website (request : WebScrapeRequest) : M WebScrapeResponse :=
  try_except
    (response <- service_call (HttpGet (scrape_url request))
                   (requests_get W (scrape_url request)) ;;
     lift (raise_for_status response) ;;;
     soup <- lift (html_parser W (content response)) ;;
     (* Remove script and style elements *)
     let soup := flat_map (Soup.decompose_all ["script"; "style"]) soup in
     let text := Soup.soup_get_text soup in
     let lines := map strip (splitlines text) in
     let chunks :=
       flat_map (fun line => map strip (split_two_spaces line)) lines in
     let text :=
       join " " (filter (fun chunk => negb (String.eqb chunk "")) chunks) in
     (* Extract based on prompt *)
     let prompt_lower := lower (prompt request) in
     let result :=
       if str_in "title" prompt_lower then
         let title := Soup.find "title" soup in
         match title with
         | Some title => Text (Soup.get_text title)
         | None => Text "No title found"
         end
       else if str_in "headings" prompt_lower then
         let headings :=
           Soup.find_all (Soup.tag_named ["h1"; "h2"; "h3"]) soup in
         Items (map (fun h => strip (Soup.get_text h)) (firstn 5 headings))
       else if str_in "links" prompt_lower then
         let links :=
           Soup.find_all (fun n => Soup.tag_named ["a"] n
                                   && Soup.has_attr "href" n) soup in
         Items (map (fun link => strip (Soup.get_text link)) (firstn 10 links))
       else
         Text (if (500 <? len text)%N then take 500 text ++ "..." else text) in
     ret {| scraped_url := scrape_url request;
            scraped_prompt := prompt request;
            scraped_result := result;
            scraped_timestamp := now_isoformat W |})
    bad_request.

(** Lines 250-258. *)
Definition health_check : M HealthResponse :=
  ret {| status := "healthy";
         timestamp := now_isoformat W;
         version := "1.0.0";
         services := ["math"; "finance"; "news"; "music"; "data_analysis";
                      "web_scraping"] |}.

End WithWorld.
End ApiServer.


(* ===================================================================== *)
(** ** A small instance to run the model on *)
(* ===================================================================== *)

(** The theorems below hold for every interpreter, every instance of the
    library interfaces and every world.  The instances here serve to
    evaluate the handlers on sample inputs: the interpreter on ASCII text
    with whole numbers, a plain reader of comma-separated lines with plain
    renderings, and a small world. *)
Module Sample.
Import PyStr.

Definition all_digits (s : string) : bool :=
  negb (String.eqb s "") && forallb is_digit (list_ascii_of_string s).

(** [int(s)] on ASCII text: blanks around an optional sign and digits; at
    most 4300 digits. *)
Definition int_of_text (s : string) : Res Z :=
  let bad :=
    Raise (PyError "ValueError"
             ("invalid literal for int() with base 10: '" ++ s ++ "'")) in
  let digits (d : string) (sign : Z) : Res Z :=
    if negb (all_digits d) then bad
    else if (4300 <? String.length d)%nat
    then Raise (PyError "ValueError"
                  "Exceeds the limit (4300 digits) for integer string conversion")
    else Ok (sign * Z.of_N (int_ascii d))%Z in
  match strip_ascii s with
  | String "-" d => digits d (-1)%Z
  | String "+" d => digits d 1%Z
  | d => digits d 1%Z
  end.

(** Digits in groups of three, for the format option [,]. *)
Fixpoint group3 (cs : list ascii) : list ascii :=
  match cs with
  | a :: b :: c :: ((_ :: _) as rest) =>
      a :: b :: c :: ","%char :: group3 rest
  | _ => cs
  end.

Definition grouped (n : N) : string :=
  string_of_list_ascii
    (rev (group3 (rev (list_ascii_of_string (str_N n))))).

(** A whole number as a value: the format specifications of the code add
    two zero decimals, or none. *)
Definition whole (z : Z) : pyval :=
  {| truthy := negb (z =? 0)%Z;
     py_str := str_Z z;
     py_format := fun spec =>
       let sign := if (z <? 0)%Z then "-" else "" in
       if String.eqb spec "" then Ok (str_Z z)
       else if String.eqb spec ".2f" then Ok (str_Z z ++ ".00")
       else if String.eqb spec "+.2f"
       then Ok ((if (z <? 0)%Z then "" else "+") ++ str_Z z ++ ".00")
       else if String.eqb spec ",.2f"
       then Ok (sign ++ grouped (Z.abs_N z) ++ ".00")
       else if String.eqb spec ",.0f"
       then Ok (sign ++ grouped (Z.abs_N z))
       else Raise (PyError "ValueError" "Invalid format specifier") |}.

(** The number behind a value: the values of this sample print their
    number. *)
Definition number_of (v : pyval) : Res Z :=
  match int_of_text (py_str v) with
  | Ok z => Ok z
  | Raise _ =>
      Raise (PyError "TypeError" "unsupported operand type(s)")
  end.

#[export] Instance runtime : Py.Runtime := {|
  Py.lower := lower_ascii;
  Py.upper := upper_ascii;
  Py.split := split_ascii;
  Py.strip := strip_ascii;
  Py.splitlines := splitlines_ascii;
  Py.findall_digits := findall_digits_ascii;
  Py.int := int_of_text;
  Py.issubclass := fun cls base =>
    String.eqb cls base || String.eqb base "Exception";
  Py.int_value := whole;
  Py.mul := fun v n => res_bind (number_of v) (fun z => Ok (whole (z * n)));
  Py.add := fun v w =>
    res_bind (number_of v)
             (fun x => res_bind (number_of w) (fun y => Ok (whole (x + y))));
  Py.gt0 := fun v => res_bind (number_of v) (fun z => Ok (0 <? z)%Z);
  Py.lt0 := fun v => res_bind (number_of v) (fun z => Ok (z <? 0)%Z)
|}.

Fixpoint split_commas_from (cur : list ascii) (s : string) : list string :=
  match s with
  | EmptyString => [rev_string cur]
  | String c s' =>
      if (N_of_ascii c =? 44)%N
      then rev_string cur :: split_commas_from [] s'
      else split_commas_from (c :: cur) s'
  end.

Definition cell (s : string) : option string :=
  if list_in s [""; "NA"; "N/A"; "missing"] then None else Some s.

Definition frame : Type := list (string * list (option string)).

Definition parse (data : string) : Res frame :=
  match map (split_commas_from []) (splitlines_ascii data) with
  | [] => Raise (PyError "EmptyDataError" "No columns to parse from file")
  | header :: rows =>
      Ok (map (fun ic : nat * string =>
                 (snd ic, map (fun row => cell (nth (fst ic) row "")) rows))
              (combine (seq 0 (List.length header)) header))
  end.

Definition column (df : frame) (col : string) : list (option string) :=
  match List.find (fun kv => String.eqb (fst kv) col) df with
  | Some kv => snd kv
  | None => []
  end.

Definition is_numeric (cells : list (option string)) : bool :=
  forallb (fun c => match c with Some s => all_digits s | None => true end)
          cells.

Definition count_nulls (cells : list (option string)) : N :=
  N.of_nat (List.length
              (filter (fun c => match c with None => true | _ => false end)
                      cells)).

Definition rows_of (df : frame) : nat :=
  match df with
  | [] => 0
  | (_, cells) :: _ => List.length cells
  end.

Definition show_cell (c : option string) : string :=
  match c with
  | Some s => s
  | None => "NaN"
  end.

Definition show_row (df : frame) (i : nat) : string :=
  join " " (map (fun kv => show_cell (nth i (snd kv) None)) df).

Definition show_head (df : frame) (n : N) : string :=
  join nl (join " " (map fst df)
           :: map (show_row df) (seq 0 (Nat.min (N.to_nat n) (rows_of df)))).

Definition numeric_names (df : frame) : list string :=
  map fst (filter (fun kv => is_numeric (snd kv)) df).

#[export] Instance pandas : Pandas := {|
  DataFrame := frame;
  read_csv := parse;
  df_len := fun df => N.of_nat (rows_of df);
  df_columns := fun df => map fst df;
  dtype_str := fun df col =>
    if is_numeric (column df col) then "int64" else "object";
  null_count := fun df col => count_nulls (column df col);
  numeric_cols := numeric_names;
  head_to_string := show_head;
  describe_to_string := fun df cols => "count " ++ join " " cols;
  missing_info_to_string := fun df =>
    join nl (map (fun kv => fst kv ++ " " ++ str_N (count_nulls (snd kv)))
                 (filter (fun kv => (0 <? count_nulls (snd kv))%N) df));
  nunique_to_string := fun df => join nl (map fst df);
  corr_to_string := fun df cols => join " " cols;
  groupby_size_to_string := fun df col => Ok ("size by " ++ col);
  groupby_mean_to_string := fun df col cols => Ok ("mean by " ++ col);
  groupby_agg_to_string := fun df col =>
    if forallb (fun kv => is_numeric (snd kv)) df
    then Ok ("count mean by " ++ col)
    else Raise (PyError "TypeError"
                  "agg function failed [how->mean,dtype->object]");
  dtype_in_number := fun df col => Ok false;
  nlargest_to_string := fun df n col => Ok (show_head df n);
  repr_list := fun xs => "[" ++ join ", " (map (fun x => "'" ++ x ++ "'") xs)
                         ++ "]";
  dtypes_repr := fun df =>
    "{" ++ join ", "
             (map (fun kv => "'" ++ fst kv ++ "': "
                             ++ (if is_numeric (snd kv)
                                 then "dtype('int64')" else "dtype('O')"))
                  df)
    ++ "}"
|}.

#[export] Instance frames : @PandasFrames pandas := {|
  object_cols := fun df =>
    map fst (filter (fun kv => negb (is_numeric (snd kv))) df);
  quote_strings := fun df col => Ok df;
  to_datetime := fun df col => Ok df;
  dtype_is_object := fun df col => Ok (negb (is_numeric (column df col)));
  to_numeric := fun df col =>
    if is_numeric (column df col) then Ok df
    else Raise (PyError "ValueError" "Unable to parse string at position 0");
  to_csv := fun df => Ok (show_head df (N.of_nat (rows_of df)))
|}.

Definition people_csv : string :=
  "name,age,city" ++ nl ++ "John,25,NYC" ++ nl ++ "Jane,30,LA".

Definition gaps_csv : string :=
  "name,age,city" ++ nl ++ "John,NA,NYC" ++ nl ++ "Jane,30,missing".

Definition example_page : list node :=
  [Tag "html" []
     [Tag "head" []
        [Tag "title" [] [NavigableString "Example Domain"];
         Tag "style" [] [NavigableString "body { margin: 0 }"]];
      Tag "body" []
        [Tag "h1" [] [NavigableString "Example Domain"];
         Tag "p" []
           [NavigableString "More ";
            Tag "a" [("href", "https://www.iana.org/domains/example")]
              [NavigableString "information..."]]]]].

Definition price (s : string) : pyval :=
  {| truthy := true; py_str := s; py_format := fun _ => Ok s |}.

(** One site that answers, one that is missing, everything else unreachable;
    one known ticker. *)
Definition world : World := {|
  now_isoformat := "2025-01-01T00:00:00";
  getenv := fun _ => None;
  requests_get := fun u =>
    if String.eqb u "https://example.com"
    then Ok {| status_code := 200; reason := "OK"; url := u;
               content := "<html>...</html>" |}
    else if String.eqb u "https://example.com/missing"
    then Ok {| status_code := 404; reason := "Not Found"; url := u;
               content := "" |}
    else if String.eqb u "https://example.com/broken"
    then Ok {| status_code := 200; reason := "OK"; url := u;
               content := "<![foo bar]>" |}
    else Raise (PyError "ConnectionError" "Max retries exceeded");
  html_parser := fun content =>
    if String.eqb content "" then Ok []
    else if String.eqb content "<![foo bar]>"
    then Raise (PyError "AssertionError" "unknown status keyword")
    else Ok example_page;
  yf_info := fun sym =>
    if String.eqb sym "BTC-USD"
    then Ok [("regularMarketPrice", price "97,000.00");
             ("marketCap", price "1,900,000,000,000");
             ("circulatingSupply", price "19,800,000")]
    else if String.eqb sym "ETH-USD"
    then Ok [("regularMarketPrice", price "3,100.00")]
    else if String.eqb sym "AAPL"
    then Ok [("regularMarketPrice", price "230.5"); ("currency", price "USD")]
    else if String.eqb sym "MSFT"
    then Ok [("regularMarketPrice", whole 400)]
    else if String.eqb sym "^GSPC"
    then Ok [("regularMarketPrice", whole 5000);
             ("regularMarketChangePercent", whole 1)]
    else Raise (PyError "HTTPError" "404 Client Error")
|}.

Definition text (s : string) : pyval := py_of_str s.

Definition upgrade : recommendation :=
  {| cells := [("Firm", text "Morgan Stanley"); ("To Grade", text "Overweight")];
     name_strftime := Ok "2024-05-02" |}.

Definition upgrade_with_action : recommendation :=
  {| cells := [("Firm", text "Morgan Stanley"); ("To Grade", text "Overweight");
               ("Action", text "up")];
     name_strftime := Ok "2024-05-02" |}.

Definition services : Services := {|
  yf_recommendations := fun sym =>
    if String.eqb sym "AAPL" then Ok (Some [upgrade; upgrade_with_action])
    else if String.eqb sym "MSFT" then Ok (Some [upgrade])
    else if String.eqb sym "NONE" then Ok None
    else Raise (PyError "HTTPError" "404 Client Error");
  ddg_text := fun query n =>
    if String.prefix "rust" query
    then Ok (firstn (Z.to_nat n)
               [[("title", text "Rust 2.0"); ("href", text "https://r.example")];
                [("title", text "Crates"); ("body", text "New crates")]])
    else if String.prefix "down" query
    then Raise (PyError "RatelimitException" "202 Ratelimit")
    else Ok [];
  now_strftime := fun format =>
    if String.eqb format "%Y-%m" then "2025-01" else "2025-01-01 00:00";
  importable := fun name => String.eqb name "pandas" || String.eqb name "agno";
  requests_get_timeout := fun u =>
    Ok {| status_code := 200; reason := "OK"; url := u; content := "{}" |};
  response_json := fun _ => Ok [("AbstractText", text "Markets rose.")];
  agent_run := fun prompt _ _ =>
    if String.eqb prompt "silence" then Ok []
    else if String.eqb prompt "crash"
    then Raise (PyError "APIError" "invalid api key")
    else Ok ["https://audio.example/1.mp3"];
  makedirs := fun _ => Ok tt;
  requests_get_plain := fun u =>
    Ok {| status_code := 404; reason := "Not Found"; url := u;
          content := "not found" |};
  uuid4 := "0000";
  write_file := fun _ _ => Ok tt
|}.

End Sample.

(* ===================================================================== *)
(** ** Vocabulary of the properties *)
(* ===================================================================== *)

Module Vocabulary.
Import PyStr Py.

(** The rational number a finite float stands for; infinities and NaN stand
    for none. *)
Definition value_of (x : float) : option Q :=
  match Prim2SF x with
  | S754_zero _ => Some 0%Q
  | S754_finite sign m e =>
      Some ((if sign then -1 else 1) * (Zpos m # 1) * Qpower 2 e)%Q
  | S754_infinity _ => None
  | S754_nan => None
  end.

(** The request body [{"operation": name, "a": x, "b": y}]. *)
Definition math_request (name : string) (x y : float) : ApiServer.MathRequest :=
  {| ApiServer.operation := name; ApiServer.a := x; ApiServer.b := y |}.

(** A math handler is exact on a request when the number it returns is the
    result of [op] on the numbers it was given, computed in the rationals. *)
Definition exact_on (op : Q -> Q -> Q)
    (handler : ApiServer.MathRequest -> M ApiServer.MathResponse)
    (request : ApiServer.MathRequest) : Prop :=
  forall qa qb,
    value_of (ApiServer.a request) = Some qa ->
    value_of (ApiServer.b request) = Some qb ->
    exists response q,
      outcome (handler request) = Ok response /\
      value_of (ApiServer.result response) = Some q /\
      (q == op qa qb)%Q.

(** The keywords [analyze_data_with_sql] tests before it tests for
    ["missing"], in the order of the source (lines 38, 52 and 68). *)
Definition tested_before_missing : list string :=
  (["first"; "rows"; "head"; "show"]
   ++ ["columns"; "column names"; "data types"]
   ++ ["summary"; "statistics"; "describe"; "mean"; "median"; "std"])%list.

(** Every keyword of the dispatch (lines 38, 52, 68, 81, 101, 108, 119
    and 144). *)
Definition dispatch_keywords : list string :=
  (tested_before_missing
   ++ ["missing"; "null"; "na"]
   ++ ["unique"; "distinct"; "values"]
   ++ ["correlation"; "correlate"]
   ++ ["group"; "groupby"; "count"; "average"; "mean"]
   ++ ["top"; "highest"; "maximum"; "largest"])%list.

(** The keywords tested before the group-by test of line 119. *)
Definition tested_before_group : list string :=
  (tested_before_missing
   ++ ["missing"; "null"; "na"]
   ++ ["unique"; "distinct"; "values"]
   ++ ["correlation"; "correlate"])%list.

(** The query is answered by the missing-value branch: whatever the key,
    the result is the missing-value report of the parsed data, or the
    message that nothing is missing. *)
Definition routes_to_missing `{Runtime} `{Pandas}
    (data_content user_query : string) : Prop :=
  forall df openai_api_key,
    read_csv data_content = Ok df ->
    outcome (DataAnalysis.analyze_data_with_sql data_content user_query
               openai_api_key)
    = Ok (Some (DataAnalysis.missing_values df)).

(** The words of a query that follow a word spelled [by] or [group] in any
    letter case: the candidates of line 124 for the grouping column. *)
Fixpoint group_candidates `{Runtime} (words : list string) : list string :=
  match words with
  | [] => []
  | word :: rest =>
      ((if list_in (lower word) ["by"; "group"]
        then match rest with
             | [] => []
             | candidate :: _ => [candidate]
             end
        else [])
       ++ group_candidates rest)%list
  end.

(** A computation that reaches no outside service leaves the log as it
    found it. *)
Definition quiet {A} (m : M A) : Prop :=
  forall log, snd (m log) = log.

(** A computation that sends exactly the one request [c]. *)
Definition calls_once {A} (c : call) (m : M A) : Prop :=
  forall log, snd (m log) = (log ++ [c])%list.

(** A computation that sends exactly the requests [cs], in this order. *)
Definition calls_exactly {A} (cs : list call) (m : M A) : Prop :=
  forall log, snd (m log) = (log ++ cs)%list.

(** Nothing is retried: no request is sent twice in one run. *)
Definition no_retry {A} (m : M A) : Prop :=
  forall log, exists cs, snd (m log) = (log ++ cs)%list /\ NoDup cs.

(** A tool function never raises. *)
Definition always_returns {A} (m : M A) : Prop :=
  forall log, exists r, fst (m log) = Ok r.

(** A handler returns, or raises the HTTP exception with status 400. *)
Definition returns_or_400 {A} (m : M A) : Prop :=
  forall log,
    (exists r, fst (m log) = Ok r) \/
    (exists detail, fst (m log) = Raise (HTTPException 400 detail)).

(** When the call answers with an exception, the tool function returns
    the marker followed by the text of that exception. *)
Definition converts {A} (answer : Res A) (marker : string) (m : M string)
    : Prop :=
  forall e log, answer = Raise e -> fst (m log) = Ok (marker ++ str_exn e).

(** When the call answers with an exception, the handler raises status 400
    with the text of that exception. *)
Definition rejects {A B} (answer : Res A) (m : M B) : Prop :=
  forall e log,
    answer = Raise e -> fst (m log) = Raise (HTTPException 400 (str_exn e)).

(** A computation whose value, when it returns, is never [None]. *)
Definition never_none (m : M (option string)) : Prop :=
  forall log, fst (m log) <> Ok None.

(** The key the analysis handler works with: the key of the request, or
    the key of the environment when the request has none (line 184). *)
Definition effective_key (W : World)
    (request : ApiServer.DataAnalysisRequest) : option string :=
  py_or (ApiServer.openai_api_key request) (getenv W "OPENAI_API_KEY").

(** A row of recommendations that line 83 can print: it has the labels
    ['To Grade'] and ['Firm'], and its index prints as a date. *)
Definition printable_row (row : recommendation) : bool :=
  has_key (cells row) "To Grade" && has_key (cells row) "Firm"
  && match name_strftime row with
     | Ok _ => true
     | Raise _ => false
     end.

Definition has_action (row : recommendation) : bool :=
  has_key (cells row) "Action".

(** The document the scrape handler searches: the parsed document with
    script and style elements removed (lines 216-218). *)
Definition cleaned (soup : list node) : list node :=
  flat_map (Soup.decompose_all ["script"; "style"]) soup.

(** The text of the document as lines 220-223 clean it: lines and the
    pieces between double spaces stripped, the empty ones dropped, the
    rest joined by single spaces. *)
Definition page_text `{Runtime} (soup : list node) : string :=
  join " "
    (filter (fun chunk => negb (String.eqb chunk ""))
       (flat_map (fun line => map strip (split_two_spaces line))
          (map strip (splitlines (Soup.soup_get_text soup))))).

(** No tag with one of the names is left in a document, at any depth. *)
Definition free_of (names : list string) (soup : list node) : Prop :=
  Soup.find_all (Soup.tag_named names) soup = [].

(** The entry of the news list for one result (lines 21-26), under its
    heading. *)
Definition news_entry (label : string) (i : N) (result : info_dict) : string :=
  nl
  ++ "**" ++ label ++ " " ++ str_N i ++ ":**" ++ nl
  ++ "- **Title**: "
  ++ py_str (dict_get result "title" (py_of_str "No title")) ++ nl
  ++ "- **Source**: "
  ++ py_str (dict_get result "href" (py_of_str "No URL")) ++ nl
  ++ "- **Summary**: "
  ++ py_str (dict_get result "body" (py_of_str "No summary")) ++ nl.

End Vocabulary.

(* ===================================================================== *)
(** ** The error policy, function by function *)
(* ===================================================================== *)

Module Policy.
Import PyStr Py Vocabulary ApiServer.

(** A tool function built around one request to a service: it never
    raises, it sends exactly that request, and an exception of the service
    comes back as the marker followed by its text. *)
Definition lookup_tool {A} (c : call) (answer : Res A) (marker : string)
    (m : M string) : Prop :=
  always_returns m /\ calls_once c m /\ converts answer marker m.

(** A handler that wraps a tool function: it returns the response made of
    the text of the tool, and sends what the tool sends. *)
Definition wraps {A B} (tool : M A) (wrap : A -> B) (handler : M B) : Prop :=
  forall log,
    exists text,
      fst (tool log) = Ok text /\
      fst (handler log) = Ok (wrap text) /\
      snd (handler log) = snd (tool log).

Section WithWorld.
Context `{Runtime} `{P : Pandas} {PF : @PandasFrames P}.
Variable W : World.
Variable S : Services.

(** api_server.py, lines 74-110 and 250-258: no outside call; only the
    division by zero is refused. *)
Definition math_and_health : Prop :=
  forall (request : MathRequest) (log : list call),
    (exists response, add_numbers request log = (Ok response, log)) /\
    (exists response, multiply_numbers request log = (Ok response, log)) /\
    (exists response, subtract_numbers request log = (Ok response, log)) /\
    ((b request =? 0)%float = true ->
     divide_numbers request log
     = (Raise (HTTPException 400
                 (str_exn (HTTPException 400 "Cannot divide by zero"))),
        log)) /\
    ((b request =? 0)%float = false ->
     exists response, divide_numbers request log = (Ok response, log)) /\
    (exists response, health_check W log = (Ok response, log)).

(** finance_tools.py: the five functions built around one request. *)
Definition finance_lookups : Prop :=
  (forall symbol,
      lookup_tool (YfInfo (upper symbol)) (yf_info W (upper symbol))
        ("Error retrieving stock price for " ++ symbol ++ ": ")
        (Finance.get_stock_price W symbol)) /\
  (forall symbol,
      lookup_tool (YfInfo (upper symbol)) (yf_info W (upper symbol))
        ("Error retrieving fundamentals for " ++ symbol ++ ": ")
        (Finance.get_stock_fundamentals W symbol)) /\
  (forall symbol,
      lookup_tool (YfRecommendations (upper symbol))
        (yf_recommendations S (upper symbol))
        ("Error retrieving analyst recommendations for " ++ symbol ++ ": ")
        (Finance.get_analyst_recommendations S symbol) /\
      (forall row rows,
          yf_recommendations S (upper symbol) = Ok (Some (row :: rows)) ->
          converts
            (Finance.recommendation_lines (Finance.tail10 (row :: rows))
               ("**Analyst Recommendations for " ++ upper symbol ++ "**"
                ++ nl ++ nl))
            ("Error retrieving analyst recommendations for " ++ symbol ++ ": ")
            (Finance.get_analyst_recommendations S symbol))) /\
  (forall query,
      lookup_tool (HttpGet (Finance.search_url query))
        (requests_get_timeout S (Finance.search_url query))
        "Error retrieving market news: "
        (Finance.get_market_news S query) /\
      (forall response,
          requests_get_timeout S (Finance.search_url query) = Ok response ->
          converts (raise_for_status response)
            "Error retrieving market news: "
            (Finance.get_market_news S query) /\
          (raise_for_status response = Ok tt ->
           converts (response_json S response)
             "Error retrieving market news: "
             (Finance.get_market_news S query)))) /\
  (forall symbol,
      lookup_tool (YfInfo (Finance.crypto_symbol symbol))
        (yf_info W (Finance.crypto_symbol symbol))
        ("Error retrieving crypto price for " ++ Finance.crypto_symbol symbol
         ++ ": ")
        (Finance.get_crypto_price W symbol) /\
      (forall info,
          yf_info W (Finance.crypto_symbol symbol) = Ok info ->
          has_truthy info "regularMarketPrice" = true ->
          converts
            (price <~ py_format (dict_get info "regularMarketPrice"
                                    Finance.N_A) ",.2f" ;;
             cap <~ py_format (dict_get info "marketCap" Finance.N_A)
                      ",.0f" ;;
             py_format (dict_get info "circulatingSupply" Finance.N_A)
               ",.0f")%res
            ("Error retrieving crypto price for "
             ++ Finance.crypto_symbol symbol ++ ": ")
            (Finance.get_crypto_price W symbol))).

(** finance_tools.py, lines 122-159 and 189-223: the two functions that
    loop over several lookups.  Each lookup is sent once; an exception of
    one lookup is caught inside the loop, becomes a line of the report and
    the loop goes on; only an exception outside the loop comes back as the
    error string of the function. *)
Definition finance_reports : Prop :=
  (forall holdings,
      always_returns (Finance.calculate_portfolio_value W holdings) /\
      no_retry (Finance.calculate_portfolio_value W holdings) /\
      converts (Finance.parse_holdings (split_on "," holdings) [])
        "Error calculating portfolio value: "
        (Finance.calculate_portfolio_value W holdings) /\
      (forall holdings_dict,
          Finance.parse_holdings (split_on "," holdings) []
          = Ok holdings_dict ->
          calls_exactly (map YfInfo (map fst holdings_dict))
            (Finance.calculate_portfolio_value W holdings) /\
          (forall log,
              exists totals log',
                Finance.portfolio_loop W holdings_dict (int_value 0) [] log
                = (Ok totals, log') /\
                forall e,
                  py_format (fst totals) ".2f" = Raise e ->
                  fst (Finance.calculate_portfolio_value W holdings log)
                  = Ok ("Error calculating portfolio value: "
                        ++ str_exn e)))) /\
  (forall symbol shares rest total_value details log,
      exists new_total line,
        Finance.portfolio_loop W ((symbol, shares) :: rest) total_value
          details log
        = Finance.portfolio_loop W rest new_total (details ++ [line])%list
            (log ++ [YfInfo symbol])%list /\
        (forall e,
            yf_info W symbol = Raise e ->
            new_total = total_value /\
            line = Finance.holding_error symbol e) /\
        (forall info e,
            yf_info W symbol = Ok info ->
            (value <~ mul (dict_get info "regularMarketPrice" (int_value 0))
                        shares ;;
             add total_value value)%res = Raise e ->
            new_total = total_value /\
            line = Finance.holding_error symbol e) /\
        (forall info value sum e,
            yf_info W symbol = Ok info ->
            mul (dict_get info "regularMarketPrice" (int_value 0)) shares
            = Ok value ->
            add total_value value = Ok sum ->
            (price_text <~ py_format
                             (dict_get info "regularMarketPrice" (int_value 0))
                             ".2f" ;;
             py_format value ".2f")%res = Raise e ->
            new_total = sum /\
            line = Finance.holding_error symbol e)) /\
  always_returns (Finance.get_economic_indicators W) /\
  calls_exactly (map YfInfo (map fst Finance.indicators))
    (Finance.get_economic_indicators W) /\
  NoDup (map YfInfo (map fst Finance.indicators)) /\
  (forall symbol name rest result log,
      exists line,
        Finance.indicators_loop W ((symbol, name) :: rest) result log
        = Finance.indicators_loop W rest (result ++ line)
            (log ++ [YfInfo symbol])%list /\
        (forall e,
            yf_info W symbol = Raise e ->
            line = "❌ **" ++ name ++ "**: Error retrieving data" ++ nl) /\
        (forall info e,
            yf_info W symbol = Ok info ->
            has_truthy info "regularMarketPrice" = true ->
            gt0 (dict_get info "regularMarketChangePercent" (int_value 0))
            = Raise e ->
            line = "❌ **" ++ name ++ "**: Error retrieving data" ++ nl) /\
        (forall info positive e,
            yf_info W symbol = Ok info ->
            has_truthy info "regularMarketPrice" = true ->
            gt0 (dict_get info "regularMarketChangePercent" (int_value 0))
            = Ok positive ->
            (positive = false ->
             exists negative,
               lt0 (dict_get info "regularMarketChangePercent" (int_value 0))
               = Ok negative) ->
            py_format (dict_get info "regularMarketPrice" Finance.N_A) ",.2f"
            = Raise e ->
            line = "❌ **" ++ name ++ "**: Error retrieving data" ++ nl)).

(** news_tools.py: the seven functions built around one search, and the
    summary, which wraps the first and so never sees an exception. *)
Definition news_searches : Prop :=
  (forall topic max_results,
      lookup_tool
        (DdgText (topic ++ " news " ++ now_strftime S "%Y-%m") max_results)
        (ddg_text S (topic ++ " news " ++ now_strftime S "%Y-%m") max_results)
        "Error searching for news: "
        (News.search_news_articles S topic max_results)) /\
  lookup_tool (DdgText "breaking news today" 5)
    (ddg_text S "breaking news today" 5)
    "Error searching for breaking news: " (News.search_breaking_news S) /\
  lookup_tool (DdgText "technology news today" 5)
    (ddg_text S "technology news today" 5)
    "Error searching for tech news: " (News.search_tech_news S) /\
  lookup_tool (DdgText "business news today" 5)
    (ddg_text S "business news today" 5)
    "Error searching for business news: " (News.search_business_news S) /\
  lookup_tool (DdgText "sports news today" 5)
    (ddg_text S "sports news today" 5)
    "Error searching for sports news: " (News.search_sports_news S) /\
  lookup_tool (DdgText "science news today" 5)
    (ddg_text S "science news today" 5)
    "Error searching for science news: " (News.search_science_news S) /\
  (forall company,
      lookup_tool
        (DdgText (company ++ " company news " ++ now_strftime S "%Y-%m") 5)
        (ddg_text S (company ++ " company news " ++ now_strftime S "%Y-%m") 5)
        "Error searching for company news: "
        (News.search_company_news S company)) /\
  (forall topic,
      always_returns (News.create_news_summary S topic) /\
      calls_once (DdgText (topic ++ " news " ++ now_strftime S "%Y-%m") 5)
        (News.create_news_summary S topic) /\
      (forall log,
          exists news_data before after,
            fst (News.search_news_articles S topic 5 log) = Ok news_data /\
            fst (News.create_news_summary S topic log)
            = Ok (before ++ news_data ++ after))).

(** music_tools.py, lines 6-99: the agent is asked once and the audio
    fetched once; an exception of the agent, of the directory, of the
    download or of the file comes back as the error string. *)
Definition music_generation : Prop :=
  forall prompt key1 key2,
    let openai_api_key :=
      if negb (str_truthy key1) then getenv W "OPENAI_API_KEY" else key1 in
    let models_lab_api_key :=
      if negb (str_truthy key2) then getenv W "MODELSLAB_API_KEY" else key2 in
    let run := Music.generate_music W S prompt key1 key2 in
    always_returns run /\
    no_retry run /\
    (str_truthy openai_api_key && str_truthy models_lab_api_key = false ->
     quiet run) /\
    (str_truthy openai_api_key && str_truthy models_lab_api_key = true ->
     importable S "agno" = true ->
     converts (agent_run S prompt openai_api_key models_lab_api_key)
       "Error generating music: " run /\
     (forall url rest,
         agent_run S prompt openai_api_key models_lab_api_key
         = Ok (url :: rest) ->
         converts
           (_ <~ makedirs S "audio_generations" ;;
            response <~ requests_get_plain S url ;;
            write_file S ("audio_generations/music_" ++ uuid4 S ++ ".mp3")
              (content response))%res
           "Error generating music: " run)).

(** data_analysis_tools.py: the two functions that work on the data.
    They reach no outside service; an exception of the library comes back
    as the error string, but for the [ValueError] or [TypeError] of the
    numeric conversion of a column, which line 254 drops. *)
Definition data_tools : Prop :=
  (forall data_content user_query key,
      always_returns
        (DataAnalysis.analyze_data_with_sql data_content user_query key) /\
      quiet (DataAnalysis.analyze_data_with_sql data_content user_query key) /\
      (forall e log,
          fst (DataAnalysis.analysis data_content user_query log) = Raise e ->
          fst (DataAnalysis.analyze_data_with_sql data_content user_query key
                 log)
          = Ok (Some ("Error analyzing data: " ++ str_exn e))) /\
      (forall e log,
          read_csv data_content = Raise e ->
          fst (DataAnalysis.analyze_data_with_sql data_content user_query key
                 log)
          = Ok (Some ("Error analyzing data: " ++ str_exn e)))) /\
  (forall csv_content,
      always_returns (DataAnalysis.preprocess_csv_data csv_content) /\
      quiet (DataAnalysis.preprocess_csv_data csv_content) /\
      converts
        (df <~ read_csv csv_content ;;
         df <~ DataAnalysis.quote_loop (object_cols df) df ;;
         df <~ DataAnalysis.convert_loop (df_columns df) df ;;
         to_csv df)%res
        "Error preprocessing data: "
        (DataAnalysis.preprocess_csv_data csv_content)) /\
  (forall col rest df e,
      str_in "date" (lower col) = false ->
      dtype_is_object df col = Ok true ->
      to_numeric df col = Raise e ->
      DataAnalysis.convert_loop (col :: rest) df
      = if caught_by ["ValueError"; "TypeError"] e
        then DataAnalysis.convert_loop rest df
        else Raise e).

(** data_analysis_tools.py, lines 196-227, and music_tools.py, lines
    101-138: the two status reports.  They have no outer [try]; the
    [ImportError] of a library that cannot be imported is caught where it
    is raised and becomes a line of the report. *)
Definition status_reports : Prop :=
  (importable S "pandas" = false ->
   str_in ("❌ Pandas library: Not installed (run: pip install pandas)" ++ nl)
     (DataAnalysis.get_data_analysis_status W S) = true) /\
  (importable S "duckdb" = false ->
   str_in ("❌ DuckDB library: Not installed (run: pip install duckdb)" ++ nl)
     (DataAnalysis.get_data_analysis_status W S) = true) /\
  (importable S "agno" = false ->
   str_in ("❌ Agno library: Not installed (run: pip install agno)" ++ nl)
     (Music.get_music_generation_status W S) = true) /\
  (importable S "requests" = false ->
   str_in ("❌ Requests library: Not installed (run: pip install requests)"
           ++ nl)
     (Music.get_music_generation_status W S) = true).

(** api_server.py: the handlers that wrap a tool function.  The tools
    never raise, so these handlers always return; the two that need keys
    refuse the request with status 400 before any call when a key is
    missing. *)
Definition wrapping_handlers : Prop :=
  (forall request : StockRequest,
      wraps (Finance.get_stock_price W (symbol request))
        (fun text => {| stock_symbol := symbol request; stock_result := text;
                        stock_timestamp := now_isoformat W |})
        (get_stock_price_api W request) /\
      wraps (Finance.get_stock_fundamentals W (symbol request))
        (fun text => {| stock_symbol := symbol request; stock_result := text;
                        stock_timestamp := now_isoformat W |})
        (get_stock_fundamentals_api W request) /\
      wraps (Finance.get_crypto_price W (symbol request))
        (fun text => {| stock_symbol := symbol request; stock_result := text;
                        stock_timestamp := now_isoformat W |})
        (get_crypto_price_api W request)) /\
  (forall request : NewsRequest,
      wraps (News.search_news_articles S (topic request)
               (int_or (max_results request) 5))
        (fun text => {| news_topic := topic request; news_result := text;
                        news_timestamp := now_isoformat W |})
        (search_news_articles_api W S request)) /\
  wraps (News.search_breaking_news S)
    (fun text => {| breaking_result := text;
                    breaking_timestamp := now_isoformat W |})
    (search_breaking_news_api W S) /\
  (forall request : MusicRequest,
      let openai_key :=
        py_or (music_openai_api_key request) (getenv W "OPENAI_API_KEY") in
      let models_lab_key :=
        py_or (music_models_lab_api_key request)
              (getenv W "MODELSLAB_API_KEY") in
      (str_truthy openai_key && str_truthy models_lab_key = false ->
       forall log,
         generate_music_api W S request log
         = (Raise (HTTPException 400
                     (str_exn (HTTPException 400
                                 "Both OpenAI and ModelsLab API keys are required for music generation"))),
            log)) /\
      (str_truthy openai_key && str_truthy models_lab_key = true ->
       wraps (Music.generate_music W S (music_prompt request) openai_key
                models_lab_key)
         (fun text => {| generated_prompt := music_prompt request;
                         generated_result := text;
                         generated_timestamp := now_isoformat W |})
         (generate_music_api W S request))) /\
  (forall request : DataAnalysisRequest,
      (str_truthy (effective_key W request) = false ->
       forall log,
         analyze_data_api W request log
         = (Raise (HTTPException 400
                     (str_exn (HTTPException 400
                                 "OpenAI API key is required for data analysis"))),
            log)) /\
      (str_truthy (effective_key W request) = true ->
       wraps (DataAnalysis.analyze_data_with_sql (data_content request)
                (user_query request) (effective_key W request))
         (fun result =>
            {| analysis_data_content :=
                 take 100 (data_content request) ++ "...";
               analysis_query := user_query request;
               analysis_result := result;
               analysis_timestamp := now_isoformat W |})
         (analyze_data_api W request))).

(** api_server.py, lines 203-247: the one handler that calls a service
    itself.  An exception of the fetch, of the status check or of the
    parser becomes status 400 with its text; otherwise the handler
    returns.  The page is fetched once. *)
Definition scrape_handler : Prop :=
  forall request : WebScrapeRequest,
    calls_once (HttpGet (scrape_url request)) (scrape_website W request) /\
    rejects (requests_get W (scrape_url request)) (scrape_website W request) /\
    (forall fetched,
        requests_get W (scrape_url request) = Ok fetched ->
        rejects (raise_for_status fetched) (scrape_website W request) /\
        (raise_for_status fetched = Ok tt ->
         rejects (html_parser W (content fetched))
           (scrape_website W request) /\
         (forall soup log,
             html_parser W (content fetched) = Ok soup ->
             exists response,
               fst (scrape_website W request log) = Ok response))).

End WithWorld.
End Policy.

(* ===================================================================== *)
(** ** Facts about strings and about the monad *)
(* ===================================================================== *)

Module Facts.
Import PyStr.

Lemma any_in_app (xs ys : list string) (s : string) :
  any_in (xs ++ ys)%list s = any_in xs s || any_in ys s.
Proof. unfold any_in. apply existsb_app. Qed.

Lemma any_in_cons (x : string) (xs : list string) (s : string) :
  any_in (x :: xs) s = str_in x s || any_in xs s.
Proof. reflexivity. Qed.

Lemma upper_ascii_app (s t : string) :
  upper_ascii (s ++ t) = upper_ascii s ++ upper_ascii t.
Proof.
  induction s as [| c s IH]; simpl.
  - reflexivity.
  - rewrite IH. reflexivity.
Qed.

Lemma length_app (s t : string) :
  String.length (s ++ t) = String.length s + String.length t.
Proof.
  induction s as [| c s IH]; simpl; [reflexivity | now rewrite IH].
Qed.

Lemma append_nil_r (s : string) : s ++ "" = s.
Proof. induction s; cbn; congruence. Qed.

Lemma append_assoc (s t u : string) : (s ++ t) ++ u = s ++ (t ++ u).
Proof.
  induction s as [| c s IH]; simpl; [reflexivity | now rewrite IH].
Qed.

Lemma endswith_refl (s : string) : endswith s s = true.
Proof.
  destruct s as [| c s]; [reflexivity |].
  cbn [endswith]. rewrite String.eqb_refl. reflexivity.
Qed.

Lemma endswith_app (s t : string) : endswith (s ++ t) t = true.
Proof.
  induction s as [| c s IH].
  - apply endswith_refl.
  - cbn [append endswith]. rewrite IH. apply orb_true_r.
Qed.

(** A string that ends with a suffix is a prefix followed by the suffix. *)
Lemma endswith_split (s suffix : string) :
  endswith s suffix = true -> exists p, s = p ++ suffix.
Proof.
  induction s as [| c s IH]; cbn [endswith]; intros E.
  - rewrite orb_false_r in E. apply String.eqb_eq in E.
    exists "". now rewrite <- E.
  - apply orb_true_iff in E. destruct E as [E | E].
    + apply String.eqb_eq in E. exists "". now rewrite <- E.
    + destruct (IH E) as [p ->]. now exists (String c p).
Qed.

Lemma append_same_length (p q x y : string) :
  p ++ x = q ++ y -> String.length x = String.length y -> x = y.
Proof.
  revert q. induction p as [| c p IH]; intros [| d q] E L; simpl in E.
  - assumption.
  - apply (f_equal String.length) in E. simpl in E.
    rewrite length_app in E. lia.
  - apply (f_equal String.length) in E. simpl in E.
    rewrite length_app in E. lia.
  - injection E as _ E. now apply (IH q).
Qed.

(** The suffix test is case-sensitive: a symbol spelled [...-usd] does not
    end with [-USD]. *)
Lemma endswith_lowercase_usd (s : string) :
  endswith (s ++ "-usd") "-USD" = false.
Proof.
  destruct (endswith (s ++ "-usd") "-USD") eqn:E; [| reflexivity].
  destruct (endswith_split _ _ E) as [p Hp].
  apply append_same_length in Hp; [discriminate | reflexivity].
Qed.

(** A [try] whose handler returns a value never raises. *)
Lemma try_except_returns {A} (body : M A) (f : exn -> A) (log : list call) :
  exists r, fst (try_except body (fun e => ret (f e)) log) = Ok r.
Proof.
  unfold try_except, ret.
  destruct (body log) as [[r | e] log']; simpl; eauto.
Qed.

(** A [try] whose handler is [bad_request] returns, or raises status 400
    with the text of the exception it caught. *)
Lemma try_except_bad_request {A} (body : M A) (log : list call) :
  (exists r, fst (try_except body ApiServer.bad_request log) = Ok r) \/
  (exists e, fst (body log) = Raise e /\
             fst (try_except body ApiServer.bad_request log)
             = Raise (HTTPException 400 (str_exn e))).
Proof.
  unfold try_except, ApiServer.bad_request, raise.
  destruct (body log) as [[r | e] log']; simpl; eauto.
Qed.

Lemma try_except_returns_or_400 {A} (body : M A) :
  Vocabulary.returns_or_400 (try_except body ApiServer.bad_request).
Proof.
  intro log.
  destruct (try_except_bad_request body log) as [Hok | (e & _ & Hraise)].
  - left. exact Hok.
  - right. eexists. exact Hraise.
Qed.

Lemma quiet_ret {A} (x : A) : Vocabulary.quiet (ret x).
Proof. intros log. reflexivity. Qed.

Lemma quiet_raise {A} (e : exn) : Vocabulary.quiet (@raise A e).
Proof. intros log. reflexivity. Qed.

Lemma quiet_lift {A} (r : Res A) : Vocabulary.quiet (lift r).
Proof. intros log. reflexivity. Qed.

Lemma quiet_bind {A B} (m : M A) (k : A -> M B) :
  Vocabulary.quiet m -> (forall x, Vocabulary.quiet (k x)) ->
  Vocabulary.quiet (bind m k).
Proof.
  intros Hm Hk log. unfold bind.
  specialize (Hm log).
  destruct (m log) as [[x | e] log']; simpl in Hm; subst log'.
  - apply Hk.
  - reflexivity.
Qed.

Lemma quiet_try_except {A} (body : M A) (handler : exn -> M A) :
  Vocabulary.quiet body -> (forall e, Vocabulary.quiet (handler e)) ->
  Vocabulary.quiet (try_except body handler).
Proof.
  intros Hb Hh log. unfold try_except.
  specialize (Hb log).
  destruct (body log) as [[x | e] log']; simpl in Hb; subst log'.
  - reflexivity.
  - apply Hh.
Qed.

(** After one request, a quiet continuation leaves exactly that request
    in the log. *)
Lemma calls_once_bind {A B} (c : call) (answer : Res A) (k : A -> M B) :
  (forall x, Vocabulary.quiet (k x)) ->
  Vocabulary.calls_once c (bind (service_call c answer) k).
Proof.
  intros Hk log. unfold bind, service_call.
  destruct answer as [x | e]; [apply Hk | reflexivity].
Qed.

Lemma calls_once_try_except {A} (c : call) (body : M A)
    (handler : exn -> M A) :
  Vocabulary.calls_once c body -> (forall e, Vocabulary.quiet (handler e)) ->
  Vocabulary.calls_once c (try_except body handler).
Proof.
  intros Hb Hh log. unfold try_except.
  specialize (Hb log).
  destruct (body log) as [[x | e] log']; simpl in Hb; subst log'.
  - reflexivity.
  - apply Hh.
Qed.

Lemma calls_once_then {A B} (c : call) (m : M A) (k : A -> M B) :
  Vocabulary.calls_once c m -> (forall x, Vocabulary.quiet (k x)) ->
  Vocabulary.calls_once c (bind m k).
Proof.
  intros Hm Hk log. unfold bind.
  specialize (Hm log).
  destruct (m log) as [[x | e] log']; simpl in Hm; subst log'.
  - apply Hk.
  - reflexivity.
Qed.

(** Split a computation along its binds and its tests. *)
Ltac quiet_steps :=
  repeat first
    [ apply quiet_ret | apply quiet_raise | apply quiet_lift
    | apply quiet_bind; [| intro]
    | match goal with
      | |- Vocabulary.quiet (if ?c then _ else _) => destruct c
      | |- Vocabulary.quiet (match ?x with _ => _ end) => destruct x
      | |- Vocabulary.quiet (let _ := _ in _) => cbv zeta
      end ].

(** Induction on a document node, with the hypothesis for every child. *)
Lemma node_induction (P : node -> Prop) :
  (forall text, P (NavigableString text)) ->
  (forall name attrs children,
      Forall P children -> P (Tag name attrs children)) ->
  forall n, P n.
Proof.
  intros Htext Htag. fix IH 1. intros [text | name attrs children].
  - apply Htext.
  - apply Htag.
    induction children as [| child rest IHrest]; constructor.
    + apply IH.
    + exact IHrest.
Qed.

Lemma flat_map_nil {A B} (f : A -> list B) (xs : list A) :
  Forall (fun x => f x = []) xs -> flat_map f xs = [].
Proof.
  induction 1 as [| x xs Hx _ IH]; simpl.
  - reflexivity.
  - rewrite Hx, IH. reflexivity.
Qed.

Lemma flat_map_flat_map_nil {A B C} (f : B -> list C) (g : A -> list B)
    (xs : list A) :
  Forall (fun x => flat_map f (g x) = []) xs ->
  flat_map f (flat_map g xs) = [].
Proof.
  induction 1 as [| x xs Hx _ IH]; simpl.
  - reflexivity.
  - rewrite flat_map_app, Hx, IH. reflexivity.
Qed.

Lemma decompose_all_node_free (names : list string) (n : node) :
  flat_map (Soup.find_all_from (Soup.tag_named names))
           (Soup.decompose_all names n) = [].
Proof.
  induction n as [text | name attrs children IH] using node_induction.
  - reflexivity.
  - cbn [Soup.decompose_all].
    destruct (list_in name names) eqn:Hname; [reflexivity |].
    cbn [flat_map Soup.find_all_from Soup.tag_named].
    rewrite Hname, app_nil_r. cbn [app].
    apply flat_map_flat_map_nil. exact IH.
Qed.

Lemma len_app (s t : string) : len (s ++ t) = (len s + len t)%N.
Proof.
  induction s as [| c s IH]; cbn [append len].
  - reflexivity.
  - destruct (is_continuation c); rewrite IH; lia.
Qed.

Lemma len_take_continuation (s : string) : len (take_continuation s) = 0%N.
Proof.
  induction s as [| c s IH]; cbn [take_continuation].
  - reflexivity.
  - destruct (is_continuation c) eqn:Hc; [| reflexivity].
    cbn [len]. rewrite Hc. exact IH.
Qed.

(** [s[:n]] has at most [n] code points. *)
Lemma len_take (n : nat) (s : string) : (len (take n s) <= N.of_nat n)%N.
Proof.
  revert n. induction s as [| c s IH]; intros [| n]; cbn [take len];
    try lia.
  destruct (is_continuation c) eqn:Hc.
  - cbn [len]. rewrite Hc. apply (IH (S n)).
  - destruct n as [| n].
    + cbn [len]. rewrite Hc, len_take_continuation. lia.
    + cbn [len]. rewrite Hc. specialize (IH (S n)). lia.
Qed.

Lemma prefix_app (p s : string) : String.prefix p (p ++ s) = true.
Proof.
  induction p as [| c p IH]; cbn [append String.prefix].
  - destruct s; reflexivity.
  - destruct (ascii_dec c c) as [_ | Hneq]; [exact IH | now elim Hneq].
Qed.

Lemma one_line_app (s t : string) :
  one_line (s ++ t) = one_line s && one_line t.
Proof.
  induction s as [| c s IH]; cbn [append one_line].
  - reflexivity.
  - rewrite IH. apply andb_assoc.
Qed.

Lemma one_line_of_list (cs : list ascii) :
  one_line (string_of_list_ascii cs) = plain cs.
Proof.
  induction cs as [| c cs IH]; cbn [string_of_list_ascii one_line plain forallb].
  - reflexivity.
  - rewrite IH. reflexivity.
Qed.

Lemma one_line_rev_string (cur : list ascii) :
  plain cur = true -> one_line (rev_string cur) = true.
Proof.
  intros Hcur. unfold rev_string. rewrite one_line_of_list.
  unfold plain in *. rewrite forallb_forall in *.
  intros c Hc. apply Hcur. apply in_rev. exact Hc.
Qed.

Lemma plain_cons (c : ascii) (cur : list ascii) :
  is_linebreak c = false -> plain cur = true -> plain (c :: cur) = true.
Proof. intros Hc Hcur. cbn [plain forallb]. rewrite Hc. exact Hcur. Qed.

(** Every line of [splitlines] is one line. *)
Lemma splitlines_from_one_line (n : nat) :
  forall (s : string) (cur : list ascii),
    String.length s <= n ->
    plain cur = true ->
    Forall (fun line => one_line line = true) (splitlines_from cur s).
Proof.
  induction n as [| n IH]; intros s cur Hlen Hcur.
  - destruct s as [| c s]; [| simpl in Hlen; lia].
    cbn [splitlines_from].
    destruct cur; constructor;
      [apply one_line_rev_string; exact Hcur | constructor].
  - destruct s as [| c s].
    + cbn [splitlines_from].
      destruct cur; constructor;
        [apply one_line_rev_string; exact Hcur | constructor].
    + simpl in Hlen. cbn [splitlines_from].
      destruct (is_linebreak c) eqn:Hc.
      * constructor; [apply one_line_rev_string; exact Hcur |].
        destruct s as [| c' s']; [constructor |].
        simpl in Hlen.
        destruct ((N_of_ascii c =? 13)%N && (N_of_ascii c' =? 10)%N).
        -- apply IH; [lia | reflexivity].
        -- apply IH; [simpl; lia | reflexivity].
      * apply IH; [lia | apply plain_cons; assumption].
Qed.

Lemma one_line_lstrip (s : string) :
  one_line s = true -> one_line (lstrip s) = true.
Proof.
  induction s as [| c s IH]; cbn [lstrip]; intros Hs.
  - reflexivity.
  - destruct (is_space c); [| exact Hs].
    cbn [one_line] in Hs. apply andb_true_iff in Hs. apply IH, Hs.
Qed.

Lemma one_line_rstrip (s : string) :
  one_line s = true -> one_line (rstrip s) = true.
Proof.
  induction s as [| c s IH]; cbn [rstrip]; intros Hs.
  - reflexivity.
  - cbn [one_line] in Hs. apply andb_true_iff in Hs.
    destruct Hs as (Hc & Hs). specialize (IH Hs).
    destruct (rstrip s) as [| d r].
    + destruct (is_space c); [reflexivity |].
      cbn [one_line]. rewrite Hc. reflexivity.
    + cbn [one_line] in *. rewrite Hc. exact IH.
Qed.

Lemma one_line_strip_ascii (s : string) :
  one_line s = true -> one_line (strip_ascii s) = true.
Proof. intros Hs. apply one_line_rstrip, one_line_lstrip, Hs. Qed.

(** The pieces between double spaces of one line are one line each. *)
Lemma split2_from_one_line (n : nat) :
  forall (s : string) (cur : list ascii),
    String.length s <= n ->
    plain cur = true ->
    one_line s = true ->
    Forall (fun piece => one_line piece = true) (split2_from cur s).
Proof.
  induction n as [| n IH]; intros s cur Hlen Hcur Hs.
  - destruct s as [| c s]; [| simpl in Hlen; lia].
    cbn [split2_from]. constructor; [| constructor].
    apply one_line_rev_string, Hcur.
  - destruct s as [| c s].
    + cbn [split2_from]. constructor; [| constructor].
      apply one_line_rev_string, Hcur.
    + simpl in Hlen. cbn [one_line] in Hs.
      apply andb_true_iff in Hs. destruct Hs as (Hc & Hs).
      apply negb_true_iff in Hc.
      cbn [split2_from].
      destruct s as [| c' s'].
      * constructor; [| constructor].
        apply one_line_rev_string, plain_cons; assumption.
      * simpl in Hlen.
        destruct ((N_of_ascii c =? 32)%N && (N_of_ascii c' =? 32)%N).
        -- constructor; [apply one_line_rev_string, Hcur |].
           cbn [one_line] in Hs. apply andb_true_iff in Hs.
           apply IH; [lia | reflexivity | apply Hs].
        -- apply IH; [simpl; lia | apply plain_cons; assumption | exact Hs].
Qed.

Lemma one_line_join (pieces : list string) :
  Forall (fun piece => one_line piece = true) pieces ->
  one_line (join " " pieces) = true.
Proof.
  unfold join.
  induction 1 as [| piece rest Hpiece Hrest IH]; [reflexivity |].
  cbn [String.concat].
  destruct rest as [| next rest']; [exact Hpiece |].
  rewrite !one_line_app, Hpiece, IH. reflexivity.
Qed.

Lemma one_line_take_continuation (s : string) :
  one_line s = true -> one_line (take_continuation s) = true.
Proof.
  induction s as [| c s IH]; cbn [take_continuation]; intros Hs.
  - reflexivity.
  - cbn [one_line] in Hs. apply andb_true_iff in Hs.
    destruct Hs as (Hc & Hs).
    destruct (is_continuation c); [| reflexivity].
    cbn [one_line]. rewrite Hc. apply IH, Hs.
Qed.

Lemma one_line_take (n : nat) (s : string) :
  one_line s = true -> one_line (take n s) = true.
Proof.
  revert n. induction s as [| c s IH]; intros [| n] Hs; cbn [take];
    try reflexivity.
  cbn [one_line] in Hs. apply andb_true_iff in Hs.
  destruct Hs as (Hc & Hs).
  destruct (is_continuation c).
  - cbn [one_line]. rewrite Hc. apply (IH (S n)), Hs.
  - destruct n as [| n]; cbn [one_line]; rewrite Hc.
    + apply one_line_take_continuation, Hs.
    + apply (IH (S n)), Hs.
Qed.

Lemma lstrip_within (s : string) : exists before, s = before ++ lstrip s.
Proof.
  induction s as [| c s (before & IH)]; cbn [lstrip].
  - exists "". reflexivity.
  - destruct (is_space c).
    + exists (String c before). cbn [append]. rewrite <- IH. reflexivity.
    + exists "". reflexivity.
Qed.

Lemma rstrip_within (s : string) : exists after, s = rstrip s ++ after.
Proof.
  induction s as [| c s (after & IH)]; cbn [rstrip].
  - exists "". reflexivity.
  - destruct (rstrip s) as [| d r] eqn:Hr.
    + destruct (is_space c).
      * exists (String c s). reflexivity.
      * exists s. reflexivity.
    + exists after. cbn [append] in *. rewrite <- IH. reflexivity.
Qed.

Lemma strip_ascii_within (s : string) :
  exists before after, s = before ++ strip_ascii s ++ after.
Proof.
  unfold strip_ascii.
  destruct (lstrip_within s) as (before & Hbefore).
  destruct (rstrip_within (lstrip s)) as (after & Hafter).
  exists before, after. rewrite <- Hafter. exact Hbefore.
Qed.

(** The ASCII interpreter of the samples satisfies the laws. *)
Lemma sample_laws : @Py.Laws Sample.runtime.
Proof.
  split.
  - intros s _. reflexivity.
  - intros s _. reflexivity.
  - intros s t _. apply upper_ascii_app.
  - intros s. apply (splitlines_from_one_line (String.length s));
      [apply le_n | reflexivity].
  - intros s. apply strip_ascii_within.
Qed.

Section WithRuntime.
Context `{Py.Laws}.

(** [strip] returns a part of its argument, so it keeps one line one
    line. *)
Lemma one_line_strip (s : string) :
  one_line s = true -> one_line (Py.strip s) = true.
Proof.
  intros Hs. destruct (Py.strip_within s) as (before & after & Hparts).
  rewrite Hparts in Hs. rewrite !one_line_app in Hs.
  apply andb_true_iff in Hs. destruct Hs as (_ & Hs).
  apply andb_true_iff in Hs. apply Hs.
Qed.

Lemma upper_usd (s : string) : Py.upper (s ++ "-usd") = Py.upper s ++ "-USD".
Proof.
  rewrite Py.upper_app by reflexivity.
  rewrite (Py.upper_ascii_text "-usd") by reflexivity.
  reflexivity.
Qed.

End WithRuntime.

(** A handler that wraps the text of a tool that never raises returns the
    wrapped text and sends what the tool sends. *)
Lemma wraps_total_tool {A B} (tool : M A) (wrap : A -> B) :
  Vocabulary.always_returns tool ->
  Policy.wraps tool wrap
    (try_except (bind tool (fun result => ret (wrap result)))
                ApiServer.bad_request).
Proof.
  intros Htotal log. destruct (Htotal log) as (text & Htext).
  exists text. split; [exact Htext |].
  unfold try_except, bind, ret.
  destruct (tool log) as [[r | e] log']; simpl in Htext.
  - injection Htext as ->. split; reflexivity.
  - discriminate Htext.
Qed.

Lemma always_returns_try_except {A} (body : M A) (f : exn -> A) :
  Vocabulary.always_returns (try_except body (fun e => ret (f e))).
Proof. intro log. apply try_except_returns. Qed.

Lemma calls_once_no_retry {A} (c : call) (m : M A) :
  Vocabulary.calls_once c m -> Vocabulary.no_retry m.
Proof.
  intros Hm log. exists [c]. split; [apply Hm |].
  constructor; [intros [] | constructor].
Qed.

Lemma quiet_no_retry {A} (m : M A) :
  Vocabulary.quiet m -> Vocabulary.no_retry m.
Proof.
  intros Hm log. exists []. rewrite app_nil_r. split; [apply Hm | constructor].
Qed.

Lemma calls_exactly_no_retry {A} (cs : list call) (m : M A) :
  NoDup cs -> Vocabulary.calls_exactly cs m -> Vocabulary.no_retry m.
Proof. intros Hcs Hm log. exists cs. split; [apply Hm | exact Hcs]. Qed.

(** A tool function of the shape [try: one request, then quiet steps;
    except: return the marker and the text]. *)
Lemma lookup_tool_shape {A} (c : call) (answer : Res A) (marker : string)
    (k : A -> M string) (report : exn -> string) :
  (forall e, report e = marker ++ str_exn e) ->
  (forall x, Vocabulary.quiet (k x)) ->
  Policy.lookup_tool c answer marker
    (try_except (bind (service_call c answer) k) (fun e => ret (report e))).
Proof.
  intros Hreport Hk. split; [| split].
  - apply always_returns_try_except.
  - apply calls_once_try_except; [| intro; apply quiet_ret].
    apply calls_once_bind. exact Hk.
  - intros e log Hanswer.
    unfold try_except, bind, service_call. rewrite Hanswer.
    cbn. rewrite Hreport. reflexivity.
Qed.

(** The same shape, when a quiet step after the request raises. *)
Lemma converts_after_call {A B} (c : call) (answer : Res A) (x : A)
    (step : Res B) (marker : string) (k : A -> M string)
    (report : exn -> string) :
  (forall e, report e = marker ++ str_exn e) ->
  answer = Ok x ->
  (forall e log, step = Raise e -> fst (k x log) = Raise e) ->
  Vocabulary.converts step marker
    (try_except (bind (service_call c answer) k) (fun e => ret (report e))).
Proof.
  intros Hreport Hanswer Hk e log Hstep.
  unfold try_except, bind, service_call. rewrite Hanswer.
  specialize (Hk e (log ++ [c])%list Hstep).
  destruct (k x (log ++ [c])%list) as [[r | e'] log']; simpl in Hk.
  - discriminate Hk.
  - injection Hk as ->. cbn. rewrite Hreport. reflexivity.
Qed.

(** Bring the two sides of an equation between texts to the same
    nesting. *)
Ltac same_text := intros; rewrite ?append_assoc; reflexivity.

End Facts.

(* ===================================================================== *)
(** ** Facts about the tool functions *)
(* ===================================================================== *)

Module ToolFacts.
Import PyStr Py Vocabulary Policy.

(** Unfold the analysis down to its chain of tests. *)
Ltac enter_analysis Hread :=
  unfold DataAnalysis.analyze_data_with_sql, try_except,
    DataAnalysis.analysis, bind, lift;
  rewrite Hread; cbv zeta.

Section WithWorld.
Context `{Runtime} `{P : Pandas} {PF : @PandasFrames P}.
Variable W : World.
Variable S : Services.

Lemma tested_before_missing_none (s : string) :
  any_in tested_before_missing s = false ->
  any_in ["first"; "rows"; "head"; "show"] s = false /\
  any_in ["columns"; "column names"; "data types"] s = false /\
  any_in ["summary"; "statistics"; "describe"; "mean"; "median"; "std"] s
  = false.
Proof.
  unfold tested_before_missing. rewrite !Facts.any_in_app.
  rewrite !orb_false_iff. tauto.
Qed.

(** *** finance_tools.py *)

Lemma get_stock_price_lookup (symbol : string) :
  lookup_tool (YfInfo (upper symbol)) (yf_info W (upper symbol))
    ("Error retrieving stock price for " ++ symbol ++ ": ")
    (Finance.get_stock_price W symbol).
Proof.
  unfold Finance.get_stock_price.
  apply Facts.lookup_tool_shape; [Facts.same_text |].
  intro info. Facts.quiet_steps.
Qed.

Lemma get_stock_fundamentals_lookup (symbol : string) :
  lookup_tool (YfInfo (upper symbol)) (yf_info W (upper symbol))
    ("Error retrieving fundamentals for " ++ symbol ++ ": ")
    (Finance.get_stock_fundamentals W symbol).
Proof.
  unfold Finance.get_stock_fundamentals.
  apply Facts.lookup_tool_shape; [Facts.same_text |].
  intro info. Facts.quiet_steps.
Qed.

Lemma get_analyst_recommendations_lookup (symbol : string) :
  lookup_tool (YfRecommendations (upper symbol))
    (yf_recommendations S (upper symbol))
    ("Error retrieving analyst recommendations for " ++ symbol ++ ": ")
    (Finance.get_analyst_recommendations S symbol).
Proof.
  unfold Finance.get_analyst_recommendations.
  apply Facts.lookup_tool_shape; [Facts.same_text |].
  intro rows. Facts.quiet_steps.
Qed.

Lemma get_analyst_recommendations_rows (symbol : string)
    (row : recommendation) (rows : list recommendation) :
  yf_recommendations S (upper symbol) = Ok (Some (row :: rows)) ->
  converts
    (Finance.recommendation_lines (Finance.tail10 (row :: rows))
       ("**Analyst Recommendations for " ++ upper symbol ++ "**"
        ++ nl ++ nl))
    ("Error retrieving analyst recommendations for " ++ symbol ++ ": ")
    (Finance.get_analyst_recommendations S symbol).
Proof.
  intros Hrows. unfold Finance.get_analyst_recommendations.
  eapply Facts.converts_after_call; [Facts.same_text | exact Hrows |].
  intros e log Hlines. cbv beta iota zeta. unfold lift.
  cbn [fst]. exact Hlines.
Qed.

Lemma get_market_news_lookup (query : string) :
  lookup_tool (HttpGet (Finance.search_url query))
    (requests_get_timeout S (Finance.search_url query))
    "Error retrieving market news: "
    (Finance.get_market_news S query).
Proof.
  unfold Finance.get_market_news.
  apply Facts.lookup_tool_shape; [Facts.same_text |].
  intro response. Facts.quiet_steps.
Qed.

Lemma get_market_news_status (query : string) (response : Response) :
  requests_get_timeout S (Finance.search_url query) = Ok response ->
  converts (raise_for_status response) "Error retrieving market news: "
    (Finance.get_market_news S query).
Proof.
  intros Hget. unfold Finance.get_market_news.
  eapply Facts.converts_after_call; [Facts.same_text | exact Hget |].
  intros e log Hstatus. unfold bind, lift. rewrite Hstatus. reflexivity.
Qed.

Lemma get_market_news_json (query : string) (response : Response) :
  requests_get_timeout S (Finance.search_url query) = Ok response ->
  raise_for_status response = Ok tt ->
  converts (response_json S response) "Error retrieving market news: "
    (Finance.get_market_news S query).
Proof.
  intros Hget Hstatus. unfold Finance.get_market_news.
  eapply Facts.converts_after_call; [Facts.same_text | exact Hget |].
  intros e log Hjson. unfold bind, lift. rewrite Hstatus, Hjson.
  reflexivity.
Qed.

Lemma get_crypto_price_lookup (symbol : string) :
  lookup_tool (YfInfo (Finance.crypto_symbol symbol))
    (yf_info W (Finance.crypto_symbol symbol))
    ("Error retrieving crypto price for " ++ Finance.crypto_symbol symbol
     ++ ": ")
    (Finance.get_crypto_price W symbol).
Proof.
  unfold Finance.get_crypto_price. cbv zeta.
  apply Facts.lookup_tool_shape; [Facts.same_text |].
  intro info. Facts.quiet_steps.
Qed.

Lemma get_crypto_price_format (symbol : string) (info : info_dict) :
  yf_info W (Finance.crypto_symbol symbol) = Ok info ->
  has_truthy info "regularMarketPrice" = true ->
  converts
    (price <~ py_format (dict_get info "regularMarketPrice" Finance.N_A)
                ",.2f" ;;
     cap <~ py_format (dict_get info "marketCap" Finance.N_A) ",.0f" ;;
     py_format (dict_get info "circulatingSupply" Finance.N_A) ",.0f")%res
    ("Error retrieving crypto price for " ++ Finance.crypto_symbol symbol
     ++ ": ")
    (Finance.get_crypto_price W symbol).
Proof.
  intros Hinfo Hprice. unfold Finance.get_crypto_price. cbv zeta.
  eapply Facts.converts_after_call; [Facts.same_text | exact Hinfo |].
  intros e log. rewrite Hprice. unfold res_bind, bind, lift.
  destruct (py_format (dict_get info "regularMarketPrice" Finance.N_A) ",.2f");
    [| intros [= ->]; reflexivity].
  destruct (py_format (dict_get info "marketCap" Finance.N_A) ",.0f");
    [| intros [= ->]; reflexivity].
  intros ->. reflexivity.
Qed.

(** The portfolio: one holding of the loop. *)
Lemma portfolio_loop_step (symbol : string) (shares : Z)
    (rest : list (string * Z)) (total_value : pyval) (details : list string)
    (log : list call) :
  exists new_total line,
    Finance.portfolio_loop W ((symbol, shares) :: rest) total_value
      details log
    = Finance.portfolio_loop W rest new_total (details ++ [line])%list
        (log ++ [YfInfo symbol])%list /\
    (forall e,
        yf_info W symbol = Raise e ->
        new_total = total_value /\
        line = Finance.holding_error symbol e) /\
    (forall info e,
        yf_info W symbol = Ok info ->
        (value <~ mul (dict_get info "regularMarketPrice" (int_value 0))
                    shares ;;
         add total_value value)%res = Raise e ->
        new_total = total_value /\
        line = Finance.holding_error symbol e) /\
    (forall info value sum e,
        yf_info W symbol = Ok info ->
        mul (dict_get info "regularMarketPrice" (int_value 0)) shares
        = Ok value ->
        add total_value value = Ok sum ->
        (price_text <~ py_format
                         (dict_get info "regularMarketPrice" (int_value 0))
                         ".2f" ;;
         py_format value ".2f")%res = Raise e ->
        new_total = sum /\
        line = Finance.holding_error symbol e).
Proof.
  cbn [Finance.portfolio_loop].
  unfold bind at 1. unfold try_except at 1. unfold bind at 1.
  unfold service_call at 1.
  destruct (yf_info W symbol) as [info | e] eqn:Hinfo.
  - cbv zeta. unfold bind at 1. unfold lift at 1.
    destruct (mul (dict_get info "regularMarketPrice" (int_value 0)) shares)
      as [value | e] eqn:Hmul.
    + unfold bind at 1. unfold lift at 1.
      destruct (add total_value value) as [sum | e] eqn:Hadd.
      * unfold try_except, bind, lift, ret.
        destruct (py_format
                    (dict_get info "regularMarketPrice" (int_value 0)) ".2f")
          as [price_text | e] eqn:Hprice.
        -- destruct (py_format value ".2f") as [value_text | e] eqn:Hvalue.
           ++ eexists. eexists. split; [reflexivity |].
              split; [discriminate |]. split.
              ** intros info' e [= <-]. unfold res_bind.
                 rewrite Hmul, Hadd. discriminate.
              ** intros info' value' sum' e [= <-]. rewrite Hmul.
                 intros [= <-] _. unfold res_bind.
                 rewrite Hprice, Hvalue. discriminate.
           ++ eexists. eexists. split; [reflexivity |].
              split; [discriminate |]. split.
              ** intros info' e' [= <-]. unfold res_bind.
                 rewrite Hmul, Hadd. discriminate.
              ** intros info' value' sum' e' [= <-]. rewrite Hmul.
                 intros [= <-]. rewrite Hadd. intros [= <-]. unfold res_bind.
                 rewrite Hprice, Hvalue. intros [= <-]. split; reflexivity.
        -- eexists. eexists. split; [reflexivity |].
           split; [discriminate |]. split.
           ++ intros info' e' [= <-]. unfold res_bind.
              rewrite Hmul, Hadd. discriminate.
           ++ intros info' value' sum' e' [= <-]. rewrite Hmul.
              intros [= <-]. rewrite Hadd. intros [= <-]. unfold res_bind.
              rewrite Hprice. intros [= <-]. split; reflexivity.
      * unfold ret. eexists. eexists. split; [reflexivity |].
        split; [discriminate |]. split.
        -- intros info' e' [= <-]. unfold res_bind. rewrite Hmul, Hadd.
           intros [= <-]. split; reflexivity.
        -- intros info' value' sum' e' [= <-]. rewrite Hmul.
           intros [= <-]. rewrite Hadd. discriminate.
    + unfold ret. eexists. eexists. split; [reflexivity |].
      split; [discriminate |]. split.
      * intros info' e' [= <-]. unfold res_bind. rewrite Hmul.
        intros [= <-]. split; reflexivity.
      * intros info' value' sum' e' [= <-]. rewrite Hmul. discriminate.
  - unfold ret. eexists. eexists. split; [reflexivity |].
    split; [| split].
    + intros e' [= <-]. split; reflexivity.
    + intros info' e' Hother. discriminate Hother.
    + intros info' value' sum' e' Hother. discriminate Hother.
Qed.

(** The loop returns, after one lookup per holding, in their order. *)
Lemma portfolio_loop_calls (holdings : list (string * Z)) :
  forall total_value details log,
    exists totals,
      Finance.portfolio_loop W holdings total_value details log
      = (Ok totals, (log ++ map YfInfo (map fst holdings))%list).
Proof.
  induction holdings as [| [symbol shares] rest IH];
    intros total_value details log.
  - eexists. cbn. rewrite app_nil_r. reflexivity.
  - destruct (portfolio_loop_step symbol shares rest total_value details log)
      as (new_total & line & -> & _).
    destruct (IH new_total (details ++ [line])%list
                (log ++ [YfInfo symbol])%list) as (totals & ->).
    exists totals. cbn [map fst]. rewrite <- app_assoc. reflexivity.
Qed.

Lemma holdings_set_keys (d : list (string * Z)) (key : string) (value : Z)
    (k : string) :
  In k (map fst (Finance.holdings_set d key value)) ->
  In k (map fst d) \/ k = key.
Proof.
  induction d as [| [k0 v0] d IH]; cbn [Finance.holdings_set].
  - cbn. intros [<- | []]. right. reflexivity.
  - destruct (String.eqb k0 key); cbn [map fst In].
    + intros Hin. left. exact Hin.
    + intros [<- | Hin]; [left; left; reflexivity |].
      destruct (IH Hin) as [Hd | ->]; [left; right; exact Hd | right].
      reflexivity.
Qed.

Lemma holdings_set_nodup (d : list (string * Z)) (key : string) (value : Z) :
  NoDup (map fst d) -> NoDup (map fst (Finance.holdings_set d key value)).
Proof.
  induction d as [| [k0 v0] d IH]; cbn [Finance.holdings_set]; intros Hd.
  - cbn. constructor; [intros [] | constructor].
  - cbn [map fst] in Hd. inversion Hd as [| ? ? Hnotin Hrest]; subst.
    destruct (String.eqb k0 key) eqn:Hkey; cbn [map fst].
    + constructor; assumption.
    + constructor; [| apply IH; exact Hrest].
      intros Hin. destruct (holdings_set_keys _ _ _ _ Hin) as [Hd' | ->].
      * exact (Hnotin Hd').
      * rewrite String.eqb_refl in Hkey. discriminate Hkey.
Qed.

Lemma parse_holdings_nodup (parts : list string) :
  forall d d',
    NoDup (map fst d) ->
    Finance.parse_holdings parts d = Ok d' ->
    NoDup (map fst d').
Proof.
  induction parts as [| holding rest IH]; intros d d' Hd;
    cbn [Finance.parse_holdings].
  - intros [= <-]. exact Hd.
  - destruct (str_in ":" holding); [| apply IH; exact Hd].
    destruct (split_on ":" (strip holding)) as [| symbol [| shares [| ? ?]]];
      try discriminate.
    unfold res_bind. destruct (int shares) as [n | e]; [| discriminate].
    apply IH. apply holdings_set_nodup. exact Hd.
Qed.

Lemma yf_info_calls_nodup (symbols : list string) :
  NoDup symbols -> NoDup (map YfInfo symbols).
Proof.
  induction 1 as [| symbol symbols Hnotin Hrest IH]; cbn [map].
  - constructor.
  - constructor; [| exact IH].
    intros Hin. apply in_map_iff in Hin.
    destruct Hin as (other & [= ->] & Hother). exact (Hnotin Hother).
Qed.

Lemma calculate_portfolio_value_total (holdings : string) :
  always_returns (Finance.calculate_portfolio_value W holdings).
Proof. apply Facts.always_returns_try_except. Qed.

Lemma calculate_portfolio_value_parse (holdings : string) :
  converts (Finance.parse_holdings (split_on "," holdings) [])
    "Error calculating portfolio value: "
    (Finance.calculate_portfolio_value W holdings).
Proof.
  intros e log Hparse.
  unfold Finance.calculate_portfolio_value, try_except, bind, lift.
  rewrite Hparse. reflexivity.
Qed.

Lemma calculate_portfolio_value_calls (holdings : string)
    (holdings_dict : list (string * Z)) :
  Finance.parse_holdings (split_on "," holdings) [] = Ok holdings_dict ->
  calls_exactly (map YfInfo (map fst holdings_dict))
    (Finance.calculate_portfolio_value W holdings).
Proof.
  intros Hparse log.
  unfold Finance.calculate_portfolio_value, try_except.
  unfold bind at 1. unfold lift at 1. rewrite Hparse.
  unfold bind at 1.
  destruct (portfolio_loop_calls holdings_dict (int_value 0) [] log)
    as (totals & ->).
  unfold bind, lift, ret.
  destruct (py_format (fst totals) ".2f"); reflexivity.
Qed.

Lemma calculate_portfolio_value_format (holdings : string)
    (holdings_dict : list (string * Z)) (log : list call) :
  Finance.parse_holdings (split_on "," holdings) [] = Ok holdings_dict ->
  exists totals log',
    Finance.portfolio_loop W holdings_dict (int_value 0) [] log
    = (Ok totals, log') /\
    forall e,
      py_format (fst totals) ".2f" = Raise e ->
      fst (Finance.calculate_portfolio_value W holdings log)
      = Ok ("Error calculating portfolio value: " ++ str_exn e).
Proof.
  intros Hparse.
  destruct (portfolio_loop_calls holdings_dict (int_value 0) [] log)
    as (totals & Hloop).
  exists totals. eexists. split; [exact Hloop |].
  intros e Hformat.
  unfold Finance.calculate_portfolio_value, try_except.
  unfold bind at 1. unfold lift at 1. rewrite Hparse.
  unfold bind at 1. rewrite Hloop.
  unfold bind, lift. rewrite Hformat. reflexivity.
Qed.

Lemma calculate_portfolio_value_no_retry (holdings : string) :
  no_retry (Finance.calculate_portfolio_value W holdings).
Proof.
  destruct (Finance.parse_holdings (split_on "," holdings) [])
    as [holdings_dict | e] eqn:Hparse.
  - apply (Facts.calls_exactly_no_retry
             (map YfInfo (map fst holdings_dict))).
    + apply yf_info_calls_nodup.
      apply (parse_holdings_nodup (split_on "," holdings) [] holdings_dict);
        [constructor | exact Hparse].
    + apply calculate_portfolio_value_calls. exact Hparse.
  - apply Facts.quiet_no_retry. intro log.
    unfold Finance.calculate_portfolio_value, try_except, bind, lift.
    rewrite Hparse. reflexivity.
Qed.

(** The indicators: one indicator of the loop. *)
Lemma indicators_loop_step (symbol name : string)
    (rest : list (string * string)) (result : string) (log : list call) :
  exists line,
    Finance.indicators_loop W ((symbol, name) :: rest) result log
    = Finance.indicators_loop W rest (result ++ line)
        (log ++ [YfInfo symbol])%list /\
    (forall e,
        yf_info W symbol = Raise e ->
        line = "❌ **" ++ name ++ "**: Error retrieving data" ++ nl) /\
    (forall info e,
        yf_info W symbol = Ok info ->
        has_truthy info "regularMarketPrice" = true ->
        gt0 (dict_get info "regularMarketChangePercent" (int_value 0))
        = Raise e ->
        line = "❌ **" ++ name ++ "**: Error retrieving data" ++ nl) /\
    (forall info positive e,
        yf_info W symbol = Ok info ->
        has_truthy info "regularMarketPrice" = true ->
        gt0 (dict_get info "regularMarketChangePercent" (int_value 0))
        = Ok positive ->
        (positive = false ->
         exists negative,
           lt0 (dict_get info "regularMarketChangePercent" (int_value 0))
           = Ok negative) ->
        py_format (dict_get info "regularMarketPrice" Finance.N_A) ",.2f"
        = Raise e ->
        line = "❌ **" ++ name ++ "**: Error retrieving data" ++ nl).
Proof.
  cbn [Finance.indicators_loop].
  unfold bind, try_except, service_call, lift, ret. cbv zeta.
  repeat match goal with
         | |- context [match ?r with Ok _ => _ | Raise _ => _ end] =>
             destruct r eqn:?
         | |- context [if ?c then _ else _] => destruct c eqn:?
         end;
    (first [ eexists; split; [reflexivity |]
           | exists ""; split; [rewrite Facts.append_nil_r; reflexivity |] ]);
    (split; [| split]); intros; first [reflexivity | congruence].
Qed.

Lemma indicators_loop_calls (items : list (string * string)) :
  forall result log,
    exists text,
      Finance.indicators_loop W items result log
      = (Ok text, (log ++ map YfInfo (map fst items))%list).
Proof.
  induction items as [| [symbol name] rest IH]; intros result log.
  - eexists. cbn. rewrite app_nil_r. reflexivity.
  - destruct (indicators_loop_step symbol name rest result log)
      as (line & -> & _).
    destruct (IH (result ++ line) (log ++ [YfInfo symbol])%list)
      as (text & ->).
    exists text. cbn [map fst]. rewrite <- app_assoc. reflexivity.
Qed.

Lemma get_economic_indicators_total :
  always_returns (Finance.get_economic_indicators W).
Proof. apply Facts.always_returns_try_except. Qed.

Lemma get_economic_indicators_calls :
  calls_exactly (map YfInfo (map fst Finance.indicators))
    (Finance.get_economic_indicators W).
Proof.
  intros log. unfold Finance.get_economic_indicators, try_except.
  destruct (indicators_loop_calls Finance.indicators
              ("**Key Economic Indicators**" ++ nl ++ nl) log) as (text & ->).
  reflexivity.
Qed.

Lemma indicators_nodup : NoDup (map YfInfo (map fst Finance.indicators)).
Proof.
  apply yf_info_calls_nodup. cbn.
  repeat (constructor; [cbn; intuition discriminate |]). constructor.
Qed.

(** *** news_tools.py *)

Lemma search_news_articles_lookup (topic : string) (max_results : Z) :
  lookup_tool
    (DdgText (topic ++ " news " ++ now_strftime S "%Y-%m") max_results)
    (ddg_text S (topic ++ " news " ++ now_strftime S "%Y-%m") max_results)
    "Error searching for news: "
    (News.search_news_articles S topic max_results).
Proof.
  unfold News.search_news_articles. cbv zeta.
  apply Facts.lookup_tool_shape; [Facts.same_text |].
  intro results. Facts.quiet_steps.
Qed.

Lemma headlines_lookup (query label title date_format empty_message
                        error_prefix : string) :
  lookup_tool (DdgText query 5) (ddg_text S query 5) error_prefix
    (News.headlines S query label title date_format empty_message
       error_prefix).
Proof.
  unfold News.headlines.
  apply Facts.lookup_tool_shape; [Facts.same_text |].
  intro results. Facts.quiet_steps.
Qed.

Lemma search_company_news_lookup (company : string) :
  lookup_tool
    (DdgText (company ++ " company news " ++ now_strftime S "%Y-%m") 5)
    (ddg_text S (company ++ " company news " ++ now_strftime S "%Y-%m") 5)
    "Error searching for company news: "
    (News.search_company_news S company).
Proof.
  unfold News.search_company_news. cbv zeta.
  apply Facts.lookup_tool_shape; [Facts.same_text |].
  intro results. Facts.quiet_steps.
Qed.

Lemma create_news_summary_wraps (topic : string) :
  always_returns (News.create_news_summary S topic) /\
  calls_once (DdgText (topic ++ " news " ++ now_strftime S "%Y-%m") 5)
    (News.create_news_summary S topic) /\
  (forall log,
      exists news_data before after,
        fst (News.search_news_articles S topic 5 log) = Ok news_data /\
        fst (News.create_news_summary S topic log)
        = Ok (before ++ news_data ++ after)).
Proof.
  destruct (search_news_articles_lookup topic 5) as (Htotal & Hcalls & _).
  split; [| split].
  - apply Facts.always_returns_try_except.
  - unfold News.create_news_summary.
    apply Facts.calls_once_try_except; [| intro; apply Facts.quiet_ret].
    apply Facts.calls_once_then; [exact Hcalls |].
    intro news_data. apply Facts.quiet_ret.
  - intros log. destruct (Htotal log) as (news_data & Hnews).
    exists news_data.
    exists (nl ++ "# News Summary: " ++ topic ++ nl ++ nl
            ++ "## Overview" ++ nl
            ++ "Based on recent news coverage, here are the key developments regarding "
            ++ topic ++ ":" ++ nl ++ nl).
    eexists. split; [exact Hnews |].
    unfold News.create_news_summary, try_except, bind, ret.
    destruct (News.search_news_articles S topic 5 log) as [[text | e] log'];
      cbn [fst] in Hnews; [| discriminate Hnews].
    injection Hnews as ->. cbn [fst].
    rewrite !Facts.append_assoc. reflexivity.
Qed.

(** *** music_tools.py *)

Lemma generate_music_total (prompt : string) (key1 key2 : option string) :
  always_returns (Music.generate_music W S prompt key1 key2).
Proof. apply Facts.always_returns_try_except. Qed.

Lemma generate_music_no_retry (prompt : string) (key1 key2 : option string) :
  no_retry (Music.generate_music W S prompt key1 key2).
Proof.
  intros log.
  unfold Music.generate_music, try_except, bind, service_call, lift, ret.
  cbv zeta.
  repeat match goal with
         | |- context [match ?r with Ok _ => _ | Raise _ => _ end] =>
             destruct r
         | |- context [match ?xs with [] => _ | _ :: _ => _ end] =>
             destruct xs
         | |- context [if ?c then _ else _] => destruct c
         end;
    cbn [snd];
    first
      [ exists []; split; [rewrite app_nil_r; reflexivity | constructor]
      | eexists [_]; split;
        [reflexivity | constructor; [intros [] | constructor]]
      | eexists [_; _]; split;
        [rewrite <- app_assoc; reflexivity
        | constructor;
          [intros [Hsame | []]; discriminate Hsame
          | constructor; [intros [] | constructor]]] ].
Qed.

Lemma generate_music_without_keys (prompt : string)
    (key1 key2 : option string) :
  str_truthy (if negb (str_truthy key1)
              then getenv W "OPENAI_API_KEY" else key1)
  && str_truthy (if negb (str_truthy key2)
                 then getenv W "MODELSLAB_API_KEY" else key2) = false ->
  quiet (Music.generate_music W S prompt key1 key2).
Proof.
  intros Hkeys log.
  unfold Music.generate_music, try_except. cbv zeta.
  rewrite <- negb_andb, Hkeys. reflexivity.
Qed.

Lemma generate_music_agent (prompt : string) (key1 key2 : option string) :
  let openai_api_key :=
    if negb (str_truthy key1) then getenv W "OPENAI_API_KEY" else key1 in
  let models_lab_api_key :=
    if negb (str_truthy key2) then getenv W "MODELSLAB_API_KEY" else key2 in
  str_truthy openai_api_key && str_truthy models_lab_api_key = true ->
  importable S "agno" = true ->
  converts (agent_run S prompt openai_api_key models_lab_api_key)
    "Error generating music: " (Music.generate_music W S prompt key1 key2) /\
  (forall url rest,
      agent_run S prompt openai_api_key models_lab_api_key
      = Ok (url :: rest) ->
      converts
        (_ <~ makedirs S "audio_generations" ;;
         response <~ requests_get_plain S url ;;
         write_file S ("audio_generations/music_" ++ uuid4 S ++ ".mp3")
           (content response))%res
        "Error generating music: "
        (Music.generate_music W S prompt key1 key2)).
Proof.
  intros openai_api_key models_lab_api_key Hkeys Hagno.
  subst openai_api_key models_lab_api_key.
  split.
  - intros e log Hagent.
    unfold Music.generate_music, try_except. cbv zeta.
    rewrite <- negb_andb, Hkeys, Hagno. cbn [negb].
    unfold bind, service_call. rewrite Hagent. reflexivity.
  - intros url rest Hagent e log.
    unfold Music.generate_music, try_except. cbv zeta.
    rewrite <- negb_andb, Hkeys, Hagno. cbn [negb].
    unfold bind, service_call, lift, res_bind. rewrite Hagent.
    destruct (makedirs S "audio_generations");
      [| intros [= ->]; reflexivity].
    destruct (requests_get_plain S url); [| intros [= ->]; reflexivity].
    intros Hwrite. cbn [append] in Hwrite |- *. rewrite Hwrite. reflexivity.
Qed.

(** *** data_analysis_tools.py *)

Lemma group_by_loop_quiet (df : DataFrame) (query_lower : string)
    (words : list string) :
  quiet (DataAnalysis.group_by_loop df query_lower words).
Proof.
  induction words as [| word rest IH]; cbn [DataAnalysis.group_by_loop].
  - apply Facts.quiet_ret.
  - repeat first [assumption | progress Facts.quiet_steps].
Qed.

Lemma top_values_quiet (df : DataFrame) (user_query query_lower : string) :
  quiet (DataAnalysis.top_values df user_query query_lower).
Proof. unfold DataAnalysis.top_values. Facts.quiet_steps. Qed.

Lemma analysis_quiet (data_content user_query : string) :
  quiet (DataAnalysis.analysis data_content user_query).
Proof.
  unfold DataAnalysis.analysis.
  apply Facts.quiet_bind; [apply Facts.quiet_lift | intro df]. cbv zeta.
  repeat match goal with
         | |- quiet (if ?c then _ else _) => destruct c
         end;
    first [apply group_by_loop_quiet | apply top_values_quiet
          | Facts.quiet_steps].
Qed.

Lemma analyze_quiet (data_content user_query : string)
    (key : option string) :
  quiet (DataAnalysis.analyze_data_with_sql data_content user_query key).
Proof.
  apply Facts.quiet_try_except; [apply analysis_quiet |].
  intro e. apply Facts.quiet_ret.
Qed.

Lemma analyze_total (data_content user_query : string)
    (key : option string) :
  always_returns
    (DataAnalysis.analyze_data_with_sql data_content user_query key).
Proof. intro log. apply Facts.try_except_returns. Qed.

Lemma analyze_reports (data_content user_query : string)
    (key : option string) (e : exn) (log : list call) :
  fst (DataAnalysis.analysis data_content user_query log) = Raise e ->
  fst (DataAnalysis.analyze_data_with_sql data_content user_query key log)
  = Ok (Some ("Error analyzing data: " ++ str_exn e)).
Proof.
  intros Hraise.
  unfold DataAnalysis.analyze_data_with_sql, try_except.
  destruct (DataAnalysis.analysis data_content user_query log)
    as [[r | e'] log']; simpl in Hraise; [discriminate |].
  injection Hraise as ->. reflexivity.
Qed.

Lemma analyze_reports_reader (data_content user_query : string)
    (key : option string) (e : exn) (log : list call) :
  read_csv data_content = Raise e ->
  fst (DataAnalysis.analyze_data_with_sql data_content user_query key log)
  = Ok (Some ("Error analyzing data: " ++ str_exn e)).
Proof.
  intros Hread. apply analyze_reports.
  unfold DataAnalysis.analysis, bind, lift. rewrite Hread. reflexivity.
Qed.

Lemma preprocess_total (csv_content : string) :
  always_returns (DataAnalysis.preprocess_csv_data csv_content).
Proof. apply Facts.always_returns_try_except. Qed.

Lemma preprocess_quiet (csv_content : string) :
  quiet (DataAnalysis.preprocess_csv_data csv_content).
Proof.
  unfold DataAnalysis.preprocess_csv_data.
  apply Facts.quiet_try_except; [| intro; apply Facts.quiet_ret].
  Facts.quiet_steps.
Qed.

Lemma preprocess_reports (csv_content : string) :
  converts
    (df <~ read_csv csv_content ;;
     df <~ DataAnalysis.quote_loop (object_cols df) df ;;
     df <~ DataAnalysis.convert_loop (df_columns df) df ;;
     to_csv df)%res
    "Error preprocessing data: "
    (DataAnalysis.preprocess_csv_data csv_content).
Proof.
  intros e log.
  unfold DataAnalysis.preprocess_csv_data, try_except, bind, lift, res_bind.
  destruct (read_csv csv_content) as [df |]; [| intros [= ->]; reflexivity].
  destruct (DataAnalysis.quote_loop (object_cols df) df) as [df1 |];
    [| intros [= ->]; reflexivity].
  destruct (DataAnalysis.convert_loop (df_columns df1) df1) as [df2 |];
    [| intros [= ->]; reflexivity].
  intros ->. reflexivity.
Qed.

Lemma convert_loop_conversion_error (col : string) (rest : list string)
    (df : DataFrame) (e : exn) :
  str_in "date" (lower col) = false ->
  dtype_is_object df col = Ok true ->
  to_numeric df col = Raise e ->
  DataAnalysis.convert_loop (col :: rest) df
  = if caught_by ["ValueError"; "TypeError"] e
    then DataAnalysis.convert_loop rest df
    else Raise e.
Proof.
  intros Hdate Hobject Hnumeric.
  cbn [DataAnalysis.convert_loop]. unfold res_bind.
  rewrite Hdate, Hobject, Hnumeric. reflexivity.
Qed.

(** *** api_server.py *)

Lemma scrape_website_calls (request : ApiServer.WebScrapeRequest) :
  calls_once (HttpGet (ApiServer.scrape_url request))
    (ApiServer.scrape_website W request).
Proof.
  unfold ApiServer.scrape_website.
  apply Facts.calls_once_try_except;
    [| intro; apply Facts.quiet_raise].
  apply Facts.calls_once_bind. intro response.
  apply Facts.quiet_bind; [apply Facts.quiet_lift | intro].
  apply Facts.quiet_bind; [apply Facts.quiet_lift | intro].
  cbv zeta. apply Facts.quiet_ret.
Qed.

End WithWorld.
End ToolFacts.

(* ===================================================================== *)
(** ** Properties of api_server.py: math and health check *)
(* ===================================================================== *)

Module ApiServerSpec.
Import PyStr ApiServer Vocabulary.

(** C2.  The health check answers every call, in every world and whatever
    was called before, with status ["healthy"] and the same list of six
    services; it calls no outside service. *)
Theorem health_check_fixed (W : World) (log : list call) :
  exists response,
    health_check W log = (Ok response, log) /\
    status response = "healthy" /\
    services response
    = ["math"; "finance"; "news"; "music"; "data_analysis"; "web_scraping"].
Proof.
  eexists. split; [reflexivity |]. split; reflexivity.
Qed.

(** C4.  Whatever the dividend, a divisor equal to zero makes the divide
    endpoint raise the HTTP exception with status 400; no result is
    returned. *)
Theorem divide_by_zero_rejected (request : MathRequest) (log : list call) :
  (b request =? 0)%float = true ->
  fst (divide_numbers request log)
  = Raise (HTTPException 400
             (str_exn (HTTPException 400 "Cannot divide by zero"))).
Proof.
  intros Hzero.
  unfold divide_numbers, try_except, bind, bad_request, raise.
  rewrite Hzero. reflexivity.
Qed.

Lemma divide_by_zero_rejected_witness :
  fst (divide_numbers (math_request "divide" 7 0) [])
  = Raise (HTTPException 400 "400: Cannot divide by zero").
Proof.
  apply (divide_by_zero_rejected (math_request "divide" 7 0) []). reflexivity.
Defined.

(** C3, as stated, fails: adding 1 to 2^53 returns 2^53, which is not the
    sum of the two numbers. *)
Lemma add_not_exact :
  ~ exact_on Qplus add_numbers (math_request "add" 9007199254740992 1).
Proof.
  intros Hexact.
  destruct (Hexact _ _ eq_refl eq_refl)
    as (response & q & Hresponse & Hvalue & Hsum).
  vm_compute in Hresponse. injection Hresponse as <-.
  vm_compute in Hvalue. injection Hvalue as <-.
  vm_compute in Hsum. discriminate Hsum.
Qed.

(** The same notion of exactness holds on the sample request of the
    tests: 10 + 5 is 15. *)
Example add_exact_sample :
  exact_on Qplus add_numbers (math_request "add" 10 5).
Proof.
  intros qa qb Ha Hb.
  vm_compute in Ha. injection Ha as <-.
  vm_compute in Hb. injection Hb as <-.
  eexists. eexists. split; [reflexivity |].
  split; [vm_compute; reflexivity | vm_compute; reflexivity].
Qed.

(** C3, amended.  The math endpoints return the binary64 result of the
    named operation on the two floats of the request: the sum, the
    product, the difference and, when the divisor is not zero, the
    quotient.  On the four sample requests the results are 15, 42, 12
    and 5. *)
Theorem math_endpoints_float (request : MathRequest) (log : list call) :
  (fst (add_numbers request log)
   = Ok {| result := (a request + b request)%float;
           operation_name := "addition";
           inputs := [a request; b request] |} /\
   fst (multiply_numbers request log)
   = Ok {| result := (a request * b request)%float;
           operation_name := "multiplication";
           inputs := [a request; b request] |} /\
   fst (subtract_numbers request log)
   = Ok {| result := (a request - b request)%float;
           operation_name := "subtraction";
           inputs := [a request; b request] |} /\
   ((b request =? 0)%float = false ->
    fst (divide_numbers request log)
    = Ok {| result := (a request / b request)%float;
            operation_name := "division";
            inputs := [a request; b request] |})) /\
  (fst (add_numbers (math_request "add" 10 5) log)
   = Ok {| result := 15; operation_name := "addition"; inputs := [10; 5] |} /\
   fst (multiply_numbers (math_request "multiply" 6 7) log)
   = Ok {| result := 42; operation_name := "multiplication";
           inputs := [6; 7] |} /\
   fst (subtract_numbers (math_request "subtract" 20 8) log)
   = Ok {| result := 12; operation_name := "subtraction";
           inputs := [20; 8] |} /\
   fst (divide_numbers (math_request "divide" 15 3) log)
   = Ok {| result := 5; operation_name := "division"; inputs := [15; 3] |})%float.
Proof.
  split.
  - repeat split.
    intros Hnonzero.
    unfold divide_numbers, try_except, bind, lift, truediv, ret.
    rewrite Hnonzero. reflexivity.
  - repeat split.
Qed.

Lemma math_endpoints_float_witness :
  fst (divide_numbers (math_request "divide" 1 4) [])
  = Ok {| result := 0.25; operation_name := "division";
          inputs := [1; 4] |}%float.
Proof.
  exact (proj2 (proj2 (proj2 (proj1
           (math_endpoints_float (math_request "divide" 1 4) []))))
         eq_refl).
Defined.

End ApiServerSpec.

(* ===================================================================== *)
(** ** Properties of data_analysis_tools.py *)
(* ===================================================================== *)

Module DataAnalysisSpec.
Import PyStr Py DataAnalysis Vocabulary.

Section WithPandas.
Context {R : Runtime} {P : Pandas}.

Lemma missing_total_sum (df : DataFrame) :
  missing_total df
  = fold_right N.add 0%N (map (null_count df) (df_columns df)).
Proof. unfold missing_total, isnull_sum. rewrite map_map. reflexivity. Qed.

(** C1, amended.  When the data parses and the lower-cased query contains
    ["missing"] and none of the keywords tested before it, the query is
    answered by the missing-value branch. *)
Theorem missing_routed (data_content user_query : string) :
  str_in "missing" (lower user_query) = true ->
  any_in tested_before_missing (lower user_query) = false ->
  routes_to_missing data_content user_query.
Proof.
  intros Hmissing Hbefore df key Hread.
  destruct (ToolFacts.tested_before_missing_none _ Hbefore) as (H1 & H2 & H3).
  unfold outcome. ToolFacts.enter_analysis Hread.
  rewrite H1, H2, H3.
  rewrite (Facts.any_in_cons "missing"), Hmissing.
  reflexivity.
Qed.

(** C6.  When the data parses and the lower-cased query contains none of
    the dispatch keywords, the result is the generic overview, whatever
    the column names: the heading, the shape (rows of the frame and number
    of its columns), the list of columns, the data types, the total of
    the null counts of all columns, the first five rows, and the list of
    suggested queries. *)
Theorem default_overview (data_content user_query : string)
    (openai_api_key : option string) (df : DataFrame) (log : list call) :
  read_csv data_content = Ok df ->
  any_in dispatch_keywords (lower user_query) = false ->
  analyze_data_with_sql data_content user_query openai_api_key log
  = (Ok (Some
           ("📊 Data Overview:" ++ nl ++ nl
            ++ "**Dataset Shape**: " ++ str_N (df_len df) ++ " rows × "
            ++ str_N (N.of_nat (List.length (df_columns df))) ++ " columns"
            ++ nl
            ++ "**Columns**: " ++ repr_list (df_columns df) ++ nl
            ++ "**Data Types**: " ++ dtypes_repr df ++ nl
            ++ "**Missing Values**: "
            ++ str_N (fold_right N.add 0%N
                        (map (null_count df) (df_columns df)))
            ++ " total" ++ nl ++ nl
            ++ "**Sample Data**:" ++ nl
            ++ head_to_string df 5 ++ nl ++ nl
            ++ "💡 **Try asking for:**" ++ nl
            ++ "- " ++ dq ++ "Show me the first 10 rows" ++ dq ++ nl
            ++ "- " ++ dq ++ "What are the column names and data types?"
            ++ dq ++ nl
            ++ "- " ++ dq ++ "Calculate summary statistics" ++ dq ++ nl
            ++ "- " ++ dq ++ "Find missing values" ++ dq ++ nl
            ++ "- " ++ dq ++ "Show correlations between numeric columns"
            ++ dq ++ nl
            ++ "- " ++ dq ++ "Group by [column] and calculate averages"
            ++ dq ++ nl
            ++ "- " ++ dq ++ "Show top 5 values by [column]" ++ dq ++ nl)),
     log).
Proof.
  intros Hread Hnone.
  unfold dispatch_keywords in Hnone.
  rewrite !Facts.any_in_app, !orb_false_iff in Hnone.
  destruct Hnone as (Hbefore & H4 & H5 & H6 & H7 & H8).
  destruct (ToolFacts.tested_before_missing_none _ Hbefore) as (H1 & H2 & H3).
  ToolFacts.enter_analysis Hread.
  rewrite H1, H2, H3, H4, H5, H6, H7, H8.
  unfold ret, data_overview, shape_line, df_ncols.
  rewrite missing_total_sum.
  rewrite !Facts.append_assoc. reflexivity.
Qed.

(** C8.  When the data parses and the lower-cased query contains one of
    ['first', 'rows', 'head', 'show'] but neither 'first' nor 'head', the
    function returns Python's [None]: no formatted result, no overview. *)
Theorem show_without_head_returns_none (data_content user_query : string)
    (openai_api_key : option string) (df : DataFrame) (log : list call) :
  read_csv data_content = Ok df ->
  any_in ["first"; "rows"; "head"; "show"] (lower user_query) = true ->
  str_in "first" (lower user_query) = false ->
  str_in "head" (lower user_query) = false ->
  analyze_data_with_sql data_content user_query openai_api_key log
  = (Ok None, log).
Proof.
  intros Hread Hany Hfirst Hhead.
  ToolFacts.enter_analysis Hread.
  rewrite Hany, Hfirst, Hhead.
  reflexivity.
Qed.

(** C9.  The result does not depend on the key: two runs on the same data
    and query, from the same log, with any two keys, are equal. *)
Theorem key_independent (data_content user_query : string)
    (key1 key2 : option string) :
  analyze_data_with_sql data_content user_query key1
  = analyze_data_with_sql data_content user_query key2.
Proof. reflexivity. Qed.

End WithPandas.

Import Sample.

(** C1, as stated, fails: this query contains "missing" and is answered
    with summary statistics. *)
Lemma missing_not_always_routed :
  str_in "missing" (lower "summary of missing values") = true /\
  ~ routes_to_missing people_csv "summary of missing values".
Proof.
  split; [reflexivity |].
  intros Hroutes.
  destruct (parse people_csv) as [df | e] eqn:Hparse;
    [| discriminate Hparse].
  specialize (Hroutes df None Hparse).
  vm_compute in Hparse. injection Hparse as <-.
  vm_compute in Hroutes. discriminate Hroutes.
Qed.

Lemma missing_routed_witness :
  routes_to_missing gaps_csv "Find missing values".
Proof.
  apply (missing_routed gaps_csv "Find missing values"); reflexivity.
Defined.

Lemma default_overview_witness :
  exists df,
    read_csv people_csv = Ok df /\
    analyze_data_with_sql people_csv "hello there" None []
    = (Ok (Some (data_overview df)), []) /\
    String.prefix
      ("📊 Data Overview:" ++ nl ++ nl
       ++ "**Dataset Shape**: 2 rows × 3 columns" ++ nl
       ++ "**Columns**: ['name', 'age', 'city']" ++ nl)
      (data_overview df) = true.
Proof.
  eexists. split; [vm_compute; reflexivity |].
  split; [| vm_compute; reflexivity].
  match goal with
  | |- _ = (Ok (Some (data_overview ?df)), _) =>
      rewrite (default_overview (R := runtime) (P := pandas) people_csv "hello there" None
                 df []
                 eq_refl eq_refl)
  end.
  vm_compute. reflexivity.
Defined.

Lemma show_without_head_returns_none_witness :
  analyze_data_with_sql people_csv "Show me the rows" None [] = (Ok None, []).
Proof.
  eapply (show_without_head_returns_none people_csv "Show me the rows" None
            _ []); reflexivity.
Defined.

End DataAnalysisSpec.

(* ===================================================================== *)
(** ** Properties of finance_tools.py *)
(* ===================================================================== *)

Module FinanceSpec.
Import PyStr Py Finance Vocabulary.

Section WithWorld.
Context {R : Runtime} {L : @Laws R}.
Variable W : World.

(** C10.  The one ticker [get_crypto_price] asks the provider about is
    [upper(symbol) + "-USD"] when the symbol does not end with ["-USD"],
    and the symbol itself when it does.  The test is case-sensitive: a
    symbol ending in ["-usd"] is upper-cased and suffixed again, and the
    ticker ends in ["-USD-USD"].  [upper] is the interpreter's, on all of
    Unicode. *)
Theorem crypto_ticker (symbol : string) (log : list call) :
  (endswith symbol "-USD" = false ->
   snd (get_crypto_price W symbol log)
   = (log ++ [YfInfo (upper symbol ++ "-USD")])%list) /\
  (endswith symbol "-USD" = true ->
   snd (get_crypto_price W symbol log) = (log ++ [YfInfo symbol])%list) /\
  (snd (get_crypto_price W (symbol ++ "-usd") log)
   = (log ++ [YfInfo (upper symbol ++ "-USD-USD")])%list /\
   endswith (upper symbol ++ "-USD-USD") "-USD-USD" = true).
Proof.
  pose proof (proj1 (proj2 (ToolFacts.get_crypto_price_lookup W symbol)))
    as Hcalls.
  pose proof (proj1 (proj2 (ToolFacts.get_crypto_price_lookup W
                              (symbol ++ "-usd")))) as Hcalls_lower.
  split; [| split; [| split]].
  - intros Hends. rewrite Hcalls.
    unfold crypto_symbol. rewrite Hends. reflexivity.
  - intros Hends. rewrite Hcalls.
    unfold crypto_symbol. rewrite Hends. reflexivity.
  - rewrite Hcalls_lower.
    unfold crypto_symbol. rewrite Facts.endswith_lowercase_usd.
    cbn [negb]. rewrite Facts.upper_usd, Facts.append_assoc. reflexivity.
  - apply Facts.endswith_app.
Qed.

End WithWorld.

Import Sample.

Lemma crypto_ticker_witness :
  snd (get_crypto_price Sample.world "btc" []) = [YfInfo "BTC-USD"] /\
  snd (get_crypto_price Sample.world "BTC-USD" []) = [YfInfo "BTC-USD"].
Proof.
  split.
  - exact (proj1 (crypto_ticker (L := Facts.sample_laws) Sample.world
                    "btc" []) eq_refl).
  - exact (proj1 (proj2 (crypto_ticker (L := Facts.sample_laws) Sample.world
                           "BTC-USD" [])) eq_refl).
Defined.

End FinanceSpec.

(* ===================================================================== *)
(** ** Properties of api_server.py: web scrape *)
(* ===================================================================== *)

Module WebScrapeSpec.
Import PyStr Py ApiServer Vocabulary.


Import Sample.


End WebScrapeSpec.

(* ===================================================================== *)
(** ** The error policy *)
(* ===================================================================== *)

Module ErrorPolicySpec.
Import PyStr Py ApiServer Vocabulary Policy.

Section WithWorld.
Context `{Runtime} `{P : Pandas} {PF : @PandasFrames P}.
Variable W : World.
Variable S : Services.

Lemma math_and_health_hold : math_and_health W.
Proof.
  intros request log.
  split; [eexists; reflexivity |].
  split; [eexists; reflexivity |].
  split; [eexists; reflexivity |].
  split; [| split; [| eexists; reflexivity]].
  - intros Hzero.
    unfold divide_numbers, try_except, bind, bad_request, raise.
    rewrite Hzero. reflexivity.
  - intros Hnonzero.
    unfold divide_numbers, try_except, bind, lift, truediv, ret.
    rewrite Hnonzero. eexists. reflexivity.
Qed.

Lemma finance_lookups_hold : finance_lookups W S.
Proof.
  split; [| split; [| split; [| split]]].
  - apply ToolFacts.get_stock_price_lookup.
  - apply ToolFacts.get_stock_fundamentals_lookup.
  - intros symbol. split.
    + apply ToolFacts.get_analyst_recommendations_lookup.
    + apply ToolFacts.get_analyst_recommendations_rows.
  - intros query. split.
    + apply ToolFacts.get_market_news_lookup.
    + intros response Hget. split.
      * apply ToolFacts.get_market_news_status. exact Hget.
      * apply ToolFacts.get_market_news_json. exact Hget.
  - intros symbol. split.
    + apply ToolFacts.get_crypto_price_lookup.
    + apply ToolFacts.get_crypto_price_format.
Qed.

Lemma finance_reports_hold : finance_reports W.
Proof.
  split; [| split; [| split; [| split; [| split]]]].
  - intros holdings.
    split; [apply ToolFacts.calculate_portfolio_value_total |].
    split; [apply ToolFacts.calculate_portfolio_value_no_retry |].
    split; [apply ToolFacts.calculate_portfolio_value_parse |].
    intros holdings_dict Hparse. split.
    + apply ToolFacts.calculate_portfolio_value_calls. exact Hparse.
    + intros log.
      apply ToolFacts.calculate_portfolio_value_format. exact Hparse.
  - apply ToolFacts.portfolio_loop_step.
  - apply ToolFacts.get_economic_indicators_total.
  - apply ToolFacts.get_economic_indicators_calls.
  - apply ToolFacts.indicators_nodup.
  - apply ToolFacts.indicators_loop_step.
Qed.

Lemma news_searches_hold : news_searches S.
Proof.
  split; [apply ToolFacts.search_news_articles_lookup |].
  repeat (split; [apply ToolFacts.headlines_lookup |]).
  split; [apply ToolFacts.search_company_news_lookup |].
  apply ToolFacts.create_news_summary_wraps.
Qed.

Lemma music_generation_holds : music_generation W S.
Proof.
  intros prompt key1 key2. cbv zeta.
  split; [apply ToolFacts.generate_music_total |].
  split; [apply ToolFacts.generate_music_no_retry |].
  split; [apply ToolFacts.generate_music_without_keys |].
  apply ToolFacts.generate_music_agent.
Qed.

Lemma data_tools_hold : data_tools.
Proof.
  split; [| split].
  - intros data_content user_query key.
    split; [apply ToolFacts.analyze_total |].
    split; [apply ToolFacts.analyze_quiet |].
    split; intros e log.
    + apply ToolFacts.analyze_reports.
    + apply ToolFacts.analyze_reports_reader.
  - intros csv_content.
    split; [apply ToolFacts.preprocess_total |].
    split; [apply ToolFacts.preprocess_quiet |].
    apply ToolFacts.preprocess_reports.
  - apply ToolFacts.convert_loop_conversion_error.
Qed.

Lemma status_reports_hold : status_reports W S.
Proof.
  split; [| split; [| split]]; intros Himport.
  - unfold DataAnalysis.get_data_analysis_status. cbv zeta. rewrite Himport.
    destruct (str_truthy (getenv W "OPENAI_API_KEY"));
      destruct (importable S "duckdb"); vm_compute; reflexivity.
  - unfold DataAnalysis.get_data_analysis_status. cbv zeta. rewrite Himport.
    destruct (str_truthy (getenv W "OPENAI_API_KEY"));
      destruct (importable S "pandas"); vm_compute; reflexivity.
  - unfold Music.get_music_generation_status. cbv zeta. rewrite Himport.
    destruct (str_truthy (getenv W "OPENAI_API_KEY"));
      destruct (str_truthy (getenv W "MODELSLAB_API_KEY"));
      destruct (importable S "requests"); vm_compute; reflexivity.
  - unfold Music.get_music_generation_status. cbv zeta. rewrite Himport.
    destruct (str_truthy (getenv W "OPENAI_API_KEY"));
      destruct (str_truthy (getenv W "MODELSLAB_API_KEY"));
      destruct (importable S "agno"); vm_compute; reflexivity.
Qed.

Lemma wrapping_handlers_hold : wrapping_handlers W S.
Proof.
  split; [| split; [| split; [| split]]].
  - intros request. split; [| split];
      apply Facts.wraps_total_tool, Facts.always_returns_try_except.
  - intros request.
    apply Facts.wraps_total_tool, Facts.always_returns_try_except.
  - apply Facts.wraps_total_tool, Facts.always_returns_try_except.
  - intros request. cbv zeta. split.
    + intros Hkeys log.
      unfold generate_music_api, try_except. unfold bind at 1. cbv zeta.
      rewrite <- negb_andb, Hkeys. reflexivity.
    + intros Hkeys log.
      unfold generate_music_api. cbv zeta.
      rewrite <- negb_andb, Hkeys. cbn [negb].
      apply (Facts.wraps_total_tool
               (Music.generate_music W S (music_prompt request)
                  (py_or (music_openai_api_key request)
                         (getenv W "OPENAI_API_KEY"))
                  (py_or (music_models_lab_api_key request)
                         (getenv W "MODELSLAB_API_KEY")))
               (fun text => {| generated_prompt := music_prompt request;
                               generated_result := text;
                               generated_timestamp := now_isoformat W |})).
      apply ToolFacts.generate_music_total.
  - intros request. unfold effective_key. split.
    + intros Hkey log.
      unfold analyze_data_api, try_except. unfold bind at 1. cbv zeta.
      rewrite Hkey. reflexivity.
    + intros Hkey log.
      unfold analyze_data_api. cbv zeta. rewrite Hkey. cbn [negb].
      apply (Facts.wraps_total_tool
               (DataAnalysis.analyze_data_with_sql (data_content request)
                  (user_query request)
                  (py_or (openai_api_key request)
                         (getenv W "OPENAI_API_KEY")))
               (fun result =>
                  {| analysis_data_content :=
                       take 100 (data_content request) ++ "...";
                     analysis_query := user_query request;
                     analysis_result := result;
                     analysis_timestamp := now_isoformat W |})).
      apply ToolFacts.analyze_total.
Qed.

Lemma scrape_handler_holds : scrape_handler W.
Proof.
  intros request.
  split; [apply ToolFacts.scrape_website_calls |]. split.
  - intros e log Hget.
    unfold scrape_website, try_except, bind, service_call.
    rewrite Hget. reflexivity.
  - intros fetched Hget. split.
    + intros e log Hstatus.
      unfold scrape_website, try_except, bind, service_call, lift.
      rewrite Hget, Hstatus. reflexivity.
    + intros Hstatus. split.
      * intros e log Hparse.
        unfold scrape_website, try_except, bind, service_call, lift.
        rewrite Hget, Hstatus, Hparse. reflexivity.
      * intros soup log Hparse.
        unfold scrape_website, try_except, bind, service_call, lift.
        rewrite Hget, Hstatus, Hparse. eexists. reflexivity.
Qed.


End WithWorld.

Import Sample.



End ErrorPolicySpec.

(* ===================================================================== *)
(** ** More properties of the web scrape *)
(* ===================================================================== *)

Module ScrapeMoreSpec.
Import PyStr Py ApiServer Vocabulary.

(** X1.  The removal loop of lines 217-218 leaves no script or style tag
    in the document, at any depth; the same holds for any list of
    names. *)
Theorem decompose_all_free (names : list string) (soup : list node) :
  free_of names (flat_map (Soup.decompose_all names) soup).
Proof.
  unfold free_of, Soup.find_all.
  apply Facts.flat_map_flat_map_nil.
  apply Forall_forall. intros n _.
  apply Facts.decompose_all_node_free.
Qed.

Section WithWorld.
Context {R : Runtime}.
Variable W : World.

(** X2.  When the page is fetched and parsed and the prompt asks for
    headings (and not for the title), the result is a list of at most 5
    strings: the stripped texts of the first h1, h2 and h3 tags in
    document order.  When it asks for links (and for neither of the
    former), it is a list of at most 10: the stripped texts of the first
    [a] tags that have an [href].  Lower-casing and stripping are the
    interpreter's. *)
Theorem scrape_lists_bounded (request : WebScrapeRequest)
    (fetched : Response) (soup : list node) (log : list call) :
  requests_get W (scrape_url request) = Ok fetched ->
  raise_for_status fetched = Ok tt ->
  html_parser W (content fetched) = Ok soup ->
  str_in "title" (lower (prompt request)) = false ->
  (str_in "headings" (lower (prompt request)) = true ->
   exists response items,
     fst (scrape_website W request log) = Ok response /\
     scraped_result response = Items items /\
     items = map (fun h => strip (Soup.get_text h))
               (firstn 5 (Soup.find_all (Soup.tag_named ["h1"; "h2"; "h3"])
                            (cleaned soup))) /\
     List.length items <= 5) /\
  (str_in "headings" (lower (prompt request)) = false ->
   str_in "links" (lower (prompt request)) = true ->
   exists response items,
     fst (scrape_website W request log) = Ok response /\
     scraped_result response = Items items /\
     items = map (fun link => strip (Soup.get_text link))
               (firstn 10 (Soup.find_all
                             (fun n => Soup.tag_named ["a"] n
                                       && Soup.has_attr "href" n)
                             (cleaned soup))) /\
     List.length items <= 10).
Proof.
  intros Hget Hstatus Hparse Htitle. split.
  - intros Hheadings.
    unfold scrape_website, try_except, bind, service_call, lift.
    rewrite Hget, Hstatus, Hparse. cbv zeta. rewrite Htitle, Hheadings.
    eexists. eexists. split; [reflexivity |]. split; [reflexivity |].
    split; [reflexivity |].
    rewrite length_map. apply firstn_le_length.
  - intros Hheadings Hlinks.
    unfold scrape_website, try_except, bind, service_call, lift.
    rewrite Hget, Hstatus, Hparse. cbv zeta.
    rewrite Htitle, Hheadings, Hlinks.
    eexists. eexists. split; [reflexivity |]. split; [reflexivity |].
    split; [reflexivity |].
    rewrite length_map. apply firstn_le_length.
Qed.

(** X3.  When the page is fetched and parsed and the prompt names none of
    title, headings and links, the result is one string: the cleaned text
    of the page when it has at most 500 code points, and otherwise its
    first 500 code points followed by three dots.  It has at most 503
    code points. *)
Theorem scrape_excerpt_bounded (request : WebScrapeRequest)
    (fetched : Response) (soup : list node) (log : list call) :
  requests_get W (scrape_url request) = Ok fetched ->
  raise_for_status fetched = Ok tt ->
  html_parser W (content fetched) = Ok soup ->
  any_in ["title"; "headings"; "links"] (lower (prompt request)) = false ->
  exists response excerpt,
    fst (scrape_website W request log) = Ok response /\
    scraped_result response = Text excerpt /\
    excerpt
    = (if (500 <? len (page_text (cleaned soup)))%N
       then take 500 (page_text (cleaned soup)) ++ "..."
       else page_text (cleaned soup)) /\
    (len excerpt <= 503)%N.
Proof.
  intros Hget Hstatus Hparse Hnone.
  rewrite !Facts.any_in_cons, !orb_false_iff in Hnone.
  destruct Hnone as (Htitle & Hheadings & Hlinks & _).
  unfold scrape_website, try_except, bind, service_call, lift.
  rewrite Hget, Hstatus, Hparse. cbv zeta.
  rewrite Htitle, Hheadings, Hlinks.
  eexists. eexists. split; [reflexivity |]. split; [reflexivity |].
  split; [reflexivity |].
  fold (cleaned soup). fold (page_text (cleaned soup)).
  generalize (page_text (cleaned soup)). intro text.
  destruct (500 <? len text)%N eqn:Hlong.
  - rewrite Facts.len_app.
    pose proof (Facts.len_take 500 text) as Htake.
    change (len "...") with 3%N. lia.
  - apply N.ltb_ge in Hlong. lia.
Qed.

End WithWorld.

Import Sample.

Lemma scrape_lists_bounded_witness :
  exists response,
    fst (scrape_website world
           {| scrape_url := "https://example.com";
              prompt := "All HEADINGS" |} [])
    = Ok response /\
    scraped_result response = Items ["Example Domain"].
Proof.
  destruct (scrape_lists_bounded (R := runtime) world
              {| scrape_url := "https://example.com";
                 prompt := "All HEADINGS" |}
              {| status_code := 200; reason := "OK";
                 url := "https://example.com"; content := "<html>...</html>" |}
              example_page [] eq_refl eq_refl eq_refl eq_refl)
    as (Hheadings & _).
  destruct (Hheadings eq_refl) as (response & items & Hr & Hi & Hitems & _).
  exists response. split; [exact Hr |].
  rewrite Hi, Hitems. reflexivity.
Defined.

Lemma scrape_excerpt_bounded_witness :
  exists response,
    fst (scrape_website world
           {| scrape_url := "https://example.com"; prompt := "summary" |} [])
    = Ok response /\
    scraped_result response = Text "Example DomainExample DomainMore information...".
Proof.
  destruct (scrape_excerpt_bounded (R := runtime) world
              {| scrape_url := "https://example.com"; prompt := "summary" |}
              {| status_code := 200; reason := "OK";
                 url := "https://example.com"; content := "<html>...</html>" |}
              example_page [] eq_refl eq_refl eq_refl eq_refl)
    as (response & excerpt & Hr & Hexcerpt & Htext & _).
  exists response. split; [exact Hr |].
  rewrite Hexcerpt, Htext. reflexivity.
Defined.

End ScrapeMoreSpec.

(* ===================================================================== *)
(** ** The excerpt of the web scrape is one line *)
(* ===================================================================== *)

Module ExcerptSpec.
Import PyStr Py ApiServer Vocabulary.

Section WithLaws.
Context {R : Runtime} {L : @Laws R}.

(** Lines 221-223: whatever the document, the cleaned text is one line. *)
Lemma page_text_one_line (soup : list node) :
  one_line (page_text soup) = true.
Proof.
  unfold page_text.
  apply Facts.one_line_join.
  apply Forall_forall. intros chunk Hchunk.
  apply filter_In in Hchunk. destruct Hchunk as (Hchunk & _).
  apply in_flat_map in Hchunk. destruct Hchunk as (line & Hline & Hchunk).
  apply in_map_iff in Hchunk. destruct Hchunk as (piece & <- & Hpiece).
  apply in_map_iff in Hline. destruct Hline as (raw & <- & Hraw).
  apply Facts.one_line_strip.
  assert (Hraw_line : one_line raw = true).
  { pose proof (splitlines_one_line (Soup.soup_get_text soup)) as Hlines.
    rewrite Forall_forall in Hlines. apply Hlines. exact Hraw. }
  pose proof (Facts.split2_from_one_line
                (String.length (strip raw)) (strip raw) []
                (le_n _) eq_refl (Facts.one_line_strip _ Hraw_line))
    as Hpieces.
  rewrite Forall_forall in Hpieces. apply Hpieces. exact Hpiece.
Qed.

(** X4.  When the page is fetched and parsed and the prompt names none of
    title, headings and links, the excerpt has none of the line
    boundaries LF, VT, FF, CR, FS, GS and RS in it: the text of the page
    comes back as one line, cut or not. *)
Theorem scrape_excerpt_one_line (W : World) (request : WebScrapeRequest)
    (fetched : Response) (soup : list node) (log : list call) :
  requests_get W (scrape_url request) = Ok fetched ->
  raise_for_status fetched = Ok tt ->
  html_parser W (content fetched) = Ok soup ->
  any_in ["title"; "headings"; "links"] (lower (prompt request)) = false ->
  exists response excerpt,
    fst (scrape_website W request log) = Ok response /\
    scraped_result response = Text excerpt /\
    one_line excerpt = true.
Proof.
  intros Hget Hstatus Hparse Hnone.
  rewrite !Facts.any_in_cons, !orb_false_iff in Hnone.
  destruct Hnone as (Htitle & Hheadings & Hlinks & _).
  unfold scrape_website, try_except, bind, service_call, lift.
  rewrite Hget, Hstatus, Hparse. cbv zeta.
  rewrite Htitle, Hheadings, Hlinks.
  eexists. eexists. split; [reflexivity |]. split; [reflexivity |].
  fold (cleaned soup). fold (page_text (cleaned soup)).
  pose proof (page_text_one_line (cleaned soup)) as Hline.
  revert Hline. generalize (page_text (cleaned soup)). intros text Hline.
  destruct (500 <? len text)%N.
  - rewrite Facts.one_line_app, (Facts.one_line_take 500 text Hline).
    reflexivity.
  - exact Hline.
Qed.

End WithLaws.

Import Sample.

Lemma scrape_excerpt_one_line_witness :
  exists response excerpt,
    fst (scrape_website world
           {| scrape_url := "https://example.com"; prompt := "overview" |} [])
    = Ok response /\
    scraped_result response = Text excerpt /\
    one_line excerpt = true.
Proof.
  exact (scrape_excerpt_one_line (L := Facts.sample_laws) world
           {| scrape_url := "https://example.com"; prompt := "overview" |}
           {| status_code := 200; reason := "OK";
              url := "https://example.com"; content := "<html>...</html>" |}
           example_page [] eq_refl eq_refl eq_refl eq_refl).
Defined.

End ExcerptSpec.

(* ===================================================================== *)
(** ** More properties of the CSV analysis *)
(* ===================================================================== *)

Module DispatchSpec.
Import PyStr Py DataAnalysis Vocabulary.

Section WithPandas.
Context {R : Runtime} {P : Pandas}.

(** X5.  The keyword ['na'] is a substring test like the others: a query
    whose lower-cased text contains "na" anywhere, as "analyze" does, and
    none of the keywords tested before line 81, is answered by the
    missing-value branch. *)
Theorem na_routed (data_content user_query : string) :
  str_in "na" (lower user_query) = true ->
  any_in tested_before_missing (lower user_query) = false ->
  routes_to_missing data_content user_query.
Proof.
  intros Hna Hbefore df key Hread.
  destruct (ToolFacts.tested_before_missing_none _ Hbefore)
    as (H1 & H2 & H3).
  unfold outcome. ToolFacts.enter_analysis Hread.
  rewrite H1, H2, H3.
  rewrite !Facts.any_in_cons, Hna, !orb_true_r.
  reflexivity.
Qed.

(** X6.  The word "mean" is tested for summary statistics (line 68)
    before it is tested for grouping (lines 119 and 128): a query that
    contains "mean" and none of the keywords of lines 38 and 52 gets the
    answer of the bare query "mean", whatever else it says about
    grouping. *)
Theorem mean_is_summary {L : @Laws R} (data_content user_query : string)
    (key : option string) (log : list call) :
  any_in ["first"; "rows"; "head"; "show"] (lower user_query) = false ->
  any_in ["columns"; "column names"; "data types"] (lower user_query)
  = false ->
  str_in "mean" (lower user_query) = true ->
  analyze_data_with_sql data_content user_query key log
  = analyze_data_with_sql data_content "mean" key log.
Proof.
  intros H1 H2 Hmean.
  assert (Hsummary : forall s,
             str_in "mean" s = true ->
             any_in ["summary"; "statistics"; "describe"; "mean"; "median";
                     "std"] s = true).
  { intros s Hs. rewrite !Facts.any_in_cons, Hs, !orb_true_r. reflexivity. }
  unfold analyze_data_with_sql, try_except, analysis, bind, lift.
  destruct (read_csv data_content) as [df | e]; [| reflexivity].
  cbv zeta.
  rewrite H1, H2, (Hsummary _ Hmean).
  rewrite (lower_ascii_text "mean" eq_refl).
  change (lower_ascii "mean") with "mean".
  change (any_in ["first"; "rows"; "head"; "show"] "mean") with false.
  change (any_in ["columns"; "column names"; "data types"] "mean")
    with false.
  rewrite (Hsummary "mean" eq_refl).
  reflexivity.
Qed.

Lemma group_by_loop_no_candidate (df : DataFrame) (query_lower : string)
    (words : list string) (log : list call) :
  (forall candidate,
      In candidate (group_candidates words) ->
      list_in candidate (df_columns df) = false) ->
  group_by_loop df query_lower words log
  = (Ok (Some "❌ Could not identify grouping column. Please specify 'group by [column_name]'."),
     log).
Proof.
  induction words as [| word rest IH]; intros Hnone.
  - reflexivity.
  - cbn [group_by_loop group_candidates] in *.
    assert (Hrest : forall candidate,
               In candidate (group_candidates rest) ->
               list_in candidate (df_columns df) = false).
    { intros c Hc. apply Hnone. apply in_or_app. right. exact Hc. }
    destruct (list_in (lower word) ["by"; "group"]); [| exact (IH Hrest)].
    destruct rest as [| candidate rest']; [exact (IH Hrest) |].
    rewrite (Hnone candidate); [exact (IH Hrest) |].
    apply in_or_app. left. left. reflexivity.
Qed.

(** X7.  A grouping query names its column by the word after "by" or
    "group", spelled exactly as the label; the words are those of the
    interpreter's [split], the letter case of "by" and "group" is folded
    by its [lower].  When the data parses, the query reaches the group-by
    test (it has one of its keywords and none tested earlier) and no such
    word is a column label, the answer is the message that the grouping
    column could not be identified; no grouping is computed. *)
Theorem group_without_column (data_content user_query : string)
    (key : option string) (df : DataFrame) (log : list call) :
  read_csv data_content = Ok df ->
  any_in tested_before_group (lower user_query) = false ->
  any_in ["group"; "groupby"; "count"; "average"; "mean"] (lower user_query)
  = true ->
  (forall candidate,
      In candidate (group_candidates (split user_query)) ->
      list_in candidate (df_columns df) = false) ->
  analyze_data_with_sql data_content user_query key log
  = (Ok (Some "❌ Could not identify grouping column. Please specify 'group by [column_name]'."),
     log).
Proof.
  intros Hread Hbefore Hgroup Hnone.
  unfold tested_before_group in Hbefore.
  rewrite !Facts.any_in_app, !orb_false_iff in Hbefore.
  destruct Hbefore as (Hmissing & H4 & H5 & H6).
  destruct (ToolFacts.tested_before_missing_none _ Hmissing)
    as (H1 & H2 & H3).
  ToolFacts.enter_analysis Hread.
  rewrite H1, H2, H3, H4, H5, H6, Hgroup.
  rewrite (group_by_loop_no_candidate df _ _ log Hnone).
  reflexivity.
Qed.

End WithPandas.

Import Sample.

Lemma na_routed_witness :
  routes_to_missing gaps_csv "Analyze it".
Proof.
  apply (na_routed gaps_csv "Analyze it"); reflexivity.
Defined.

Lemma mean_is_summary_witness :
  analyze_data_with_sql people_csv "group by city and mean age" None []
  = analyze_data_with_sql people_csv "mean" None [].
Proof.
  apply (mean_is_summary (L := Facts.sample_laws) people_csv
           "group by city and mean age" None []);
    reflexivity.
Defined.

Lemma group_without_column_witness :
  analyze_data_with_sql people_csv "average group by CITY" None []
  = (Ok (Some "❌ Could not identify grouping column. Please specify 'group by [column_name]'."),
     []).
Proof.
  eapply (group_without_column (R := runtime) (P := pandas) people_csv
            "average group by CITY" None _ []);
    try reflexivity.
  intros candidate Hin. vm_compute in Hin.
  destruct Hin as [<- | [<- | []]]; reflexivity.
Defined.

End DispatchSpec.

(* ===================================================================== *)
(** ** When the analysis returns no text *)
(* ===================================================================== *)

Module NoneSpec.
Import PyStr Py DataAnalysis Vocabulary.

Section WithPandas.
Context {R : Runtime} {P : Pandas}.

Lemma never_none_ret (text : string) : never_none (ret (Some text)).
Proof. intros log. discriminate. Qed.

Lemma never_none_bind {A} (m : M A) (k : A -> M (option string)) :
  (forall x, never_none (k x)) -> never_none (bind m k).
Proof.
  intros Hk log. unfold bind.
  destruct (m log) as [[x | e] log']; [apply Hk | discriminate].
Qed.

Ltac never_none_steps :=
  repeat first
    [ assumption
    | apply never_none_ret
    | apply never_none_bind; intro
    | match goal with
      | |- never_none (if ?c then _ else _) => destruct c
      | |- never_none (match ?x with _ => _ end) => destruct x
      | |- never_none (let _ := _ in _) => cbv zeta
      end ].

Lemma group_by_loop_some (df : DataFrame) (query_lower : string)
    (words : list string) :
  never_none (group_by_loop df query_lower words).
Proof.
  induction words as [| word rest IH]; cbn [group_by_loop].
  - apply never_none_ret.
  - never_none_steps.
Qed.

Lemma top_values_some (df : DataFrame) (user_query query_lower : string) :
  never_none (top_values df user_query query_lower).
Proof.
  unfold top_values. cbv zeta.
  apply never_none_bind. intro n.
  destruct (find _ (df_columns df)) as [col |].
  - apply never_none_bind. intros is_number.
    apply never_none_bind. intro. apply never_none_ret.
  - destruct (numeric_cols df); never_none_steps.
Qed.

(** X8.  The function returns Python's [None] in one case only: the data
    parses and the lower-cased query contains one of 'first', 'rows',
    'head', 'show' but neither 'first' nor 'head'.  Every other run
    returns a string. *)
Theorem none_only_from_show (data_content user_query : string)
    (key : option string) (log : list call) :
  fst (analyze_data_with_sql data_content user_query key log) = Ok None ->
  (exists df, read_csv data_content = Ok df) /\
  any_in ["first"; "rows"; "head"; "show"] (lower user_query) = true /\
  str_in "first" (lower user_query) = false /\
  str_in "head" (lower user_query) = false.
Proof.
  unfold analyze_data_with_sql, try_except, analysis.
  unfold bind at 1. unfold lift at 1.
  destruct (read_csv data_content) as [df | e]; [| discriminate].
  cbv zeta.
  destruct (any_in ["first"; "rows"; "head"; "show"] (lower user_query)).
  - destruct (str_in "first" (lower user_query));
      destruct (str_in "head" (lower user_query));
      cbn [orb];
      try (intros _; eauto; fail);
      intros Hnone; exfalso; revert Hnone;
      match goal with
      | |- fst (match ?m log with _ => _ end) = Ok None -> False =>
          pose proof (never_none_bind _ _
                        (fun num_rows => never_none_ret _) log
                      : fst (m log) <> Ok None) as Hsome;
          destruct (m log) as [[[text |] | e] log']
      end;
      simpl in *; congruence.
  - intros Hnone. exfalso. revert Hnone.
    repeat match goal with
           | |- context [if ?c then _ else _] => destruct c
           end;
      try discriminate.
    + pose proof (group_by_loop_some df (lower user_query)
                    (split user_query) log) as Hsome.
      destruct (group_by_loop df (lower user_query) (split user_query) log)
        as [[[text |] | e] log']; simpl in *; congruence.
    + pose proof (top_values_some df user_query (lower user_query) log)
        as Hsome.
      destruct (top_values df user_query (lower user_query) log)
        as [[[text |] | e] log']; simpl in *; congruence.
Qed.

End WithPandas.

Import Sample.

Lemma none_only_from_show_witness :
  any_in ["first"; "rows"; "head"; "show"] (lower "Show everything") = true /\
  str_in "first" (lower "Show everything") = false /\
  str_in "head" (lower "Show everything") = false.
Proof.
  exact (proj2 (none_only_from_show (R := runtime) (P := pandas) people_csv
                  "Show everything" None [] eq_refl)).
Defined.

End NoneSpec.

(* ===================================================================== *)
(** ** Handlers over tools that never raise *)
(* ===================================================================== *)

Module HandlerSpec.
Import PyStr Py ApiServer Vocabulary.

Section WithWorld.
Context {R : Runtime} {P : Pandas}.
Variable W : World.
Variable S : Services.

(** X9.  The three finance handlers never answer with status 400: each
    returns a response that carries the symbol of the request and the
    text of its tool, and when the provider fails that text is the tool's
    error string. *)
Theorem finance_handlers_always_return (request : StockRequest)
    (log : list call) :
  (exists text,
      fst (Finance.get_stock_price W (symbol request) log) = Ok text /\
      fst (get_stock_price_api W request log)
      = Ok {| stock_symbol := symbol request; stock_result := text;
              stock_timestamp := now_isoformat W |}) /\
  (exists text,
      fst (Finance.get_crypto_price W (symbol request) log) = Ok text /\
      fst (get_crypto_price_api W request log)
      = Ok {| stock_symbol := symbol request; stock_result := text;
              stock_timestamp := now_isoformat W |}) /\
  (exists text,
      fst (Finance.get_stock_fundamentals W (symbol request) log)
      = Ok text /\
      fst (get_stock_fundamentals_api W request log)
      = Ok {| stock_symbol := symbol request; stock_result := text;
              stock_timestamp := now_isoformat W |}) /\
  (forall e,
      yf_info W (upper (symbol request)) = Raise e ->
      fst (get_stock_fundamentals_api W request log)
      = Ok {| stock_symbol := symbol request;
              stock_result :=
                "Error retrieving fundamentals for " ++ symbol request
                ++ ": " ++ str_exn e;
              stock_timestamp := now_isoformat W |}).
Proof.
  split; [| split; [| split]].
  - destruct (Facts.wraps_total_tool
                (Finance.get_stock_price W (symbol request))
                (fun text => {| stock_symbol := symbol request;
                                stock_result := text;
                                stock_timestamp := now_isoformat W |})
                (Facts.always_returns_try_except _ _) log)
      as (text & Htool & Hwrap & _).
    exists text. split; [exact Htool | exact Hwrap].
  - destruct (Facts.wraps_total_tool
                (Finance.get_crypto_price W (symbol request))
                (fun text => {| stock_symbol := symbol request;
                                stock_result := text;
                                stock_timestamp := now_isoformat W |})
                (Facts.always_returns_try_except _ _) log)
      as (text & Htool & Hwrap & _).
    exists text. split; [exact Htool | exact Hwrap].
  - destruct (Facts.wraps_total_tool
                (Finance.get_stock_fundamentals W (symbol request))
                (fun text => {| stock_symbol := symbol request;
                                stock_result := text;
                                stock_timestamp := now_isoformat W |})
                (Facts.always_returns_try_except _ _) log)
      as (text & Htool & Hwrap & _).
    exists text. split; [exact Htool | exact Hwrap].
  - intros e Hinfo.
    unfold get_stock_fundamentals_api, Finance.get_stock_fundamentals,
      try_except, bind, service_call.
    rewrite Hinfo. reflexivity.
Qed.

(** X10.  The analysis handler answers 400 exactly when neither the
    request nor the environment has a non-empty key.  With a key it always
    returns: the result of the tool goes into the response, and data that
    cannot be parsed gives a normal response whose result is the error
    text. *)
Theorem analyze_data_api_gate (request : DataAnalysisRequest)
    (log : list call) :
  (str_truthy (effective_key W request) = false ->
   fst (analyze_data_api W request log)
   = Raise (HTTPException 400
              (str_exn (HTTPException 400
                          "OpenAI API key is required for data analysis"))))
  /\
  (str_truthy (effective_key W request) = true ->
   exists result,
     fst (DataAnalysis.analyze_data_with_sql
            (data_content request) (user_query request)
            (effective_key W request) log) = Ok result /\
     fst (analyze_data_api W request log)
     = Ok {| analysis_data_content := take 100 (data_content request) ++ "...";
             analysis_query := user_query request;
             analysis_result := result;
             analysis_timestamp := now_isoformat W |}) /\
  (str_truthy (effective_key W request) = true ->
   forall e,
     read_csv (data_content request) = Raise e ->
     exists response,
       fst (analyze_data_api W request log) = Ok response /\
       analysis_result response
       = Some ("Error analyzing data: " ++ str_exn e)).
Proof.
  unfold effective_key. split; [| split].
  - intros Hkey.
    unfold analyze_data_api, try_except. unfold bind at 1.
    cbv zeta. rewrite Hkey. reflexivity.
  - intros Hkey.
    destruct (Facts.wraps_total_tool
                (DataAnalysis.analyze_data_with_sql
                   (data_content request) (user_query request)
                   (py_or (openai_api_key request)
                          (getenv W "OPENAI_API_KEY")))
                (fun result =>
                   {| analysis_data_content :=
                        take 100 (data_content request) ++ "...";
                      analysis_query := user_query request;
                      analysis_result := result;
                      analysis_timestamp := now_isoformat W |})
                (ToolFacts.analyze_total _ _ _) log)
      as (result & Htool & Hwrap & _).
    exists result. split; [exact Htool |].
    unfold analyze_data_api. cbv zeta. rewrite Hkey. cbn [negb].
    exact Hwrap.
  - intros Hkey e Hread.
    unfold analyze_data_api. cbv zeta. rewrite Hkey. cbn [negb].
    unfold try_except, bind, ret, DataAnalysis.analyze_data_with_sql,
      DataAnalysis.analysis, try_except, bind, lift.
    rewrite Hread. eexists. split; reflexivity.
Qed.

End WithWorld.

Import Sample.

Lemma finance_handlers_always_return_witness :
  fst (get_stock_fundamentals_api world {| symbol := "nope" |} [])
  = Ok {| stock_symbol := "nope";
          stock_result :=
            "Error retrieving fundamentals for nope: 404 Client Error";
          stock_timestamp := "2025-01-01T00:00:00" |}.
Proof.
  exact (proj2 (proj2 (proj2
           (finance_handlers_always_return world {| symbol := "nope" |} [])))
         _ eq_refl).
Defined.

Lemma analyze_data_api_gate_witness :
  fst (analyze_data_api world
         {| data_content := people_csv; user_query := "hello";
            openai_api_key := Some "" |} [])
  = Raise (HTTPException 400
             "400: OpenAI API key is required for data analysis") /\
  exists response,
    fst (analyze_data_api world
           {| data_content := ""; user_query := "hello";
              openai_api_key := Some "sk-test" |} [])
    = Ok response /\
    analysis_result response
    = Some "Error analyzing data: No columns to parse from file".
Proof.
  split.
  - exact (proj1 (analyze_data_api_gate world
                    {| data_content := people_csv; user_query := "hello";
                       openai_api_key := Some "" |} []) eq_refl).
  - exact (proj2 (proj2 (analyze_data_api_gate world
                           {| data_content := ""; user_query := "hello";
                              openai_api_key := Some "sk-test" |} []))
             eq_refl _ eq_refl).
Defined.

End HandlerSpec.

(* ===================================================================== *)
(** ** More properties of finance_tools.py *)
(* ===================================================================== *)

Module FinanceMoreSpec.
Import PyStr Py Finance Vocabulary.

Section WithWorld.
Context {R : Runtime}.
Variable W : World.
Variable S : Services.

(** X11.  The ticker of lines 165-166 always ends with ["-USD"], and
    computing it twice changes nothing: a caller may pass the symbol or
    the ticker and gets the same lookup and the same text. *)
Theorem crypto_symbol_stable (symbol : string) (log : list call) :
  endswith (crypto_symbol symbol) "-USD" = true /\
  crypto_symbol (crypto_symbol symbol) = crypto_symbol symbol /\
  get_crypto_price W (crypto_symbol symbol) log
  = get_crypto_price W symbol log.
Proof.
  assert (Hends : endswith (crypto_symbol symbol) "-USD" = true).
  { unfold crypto_symbol.
    destruct (endswith symbol "-USD") eqn:E; cbn [negb].
    - exact E.
    - apply Facts.endswith_app. }
  assert (Hfix : crypto_symbol (crypto_symbol symbol) = crypto_symbol symbol).
  { unfold crypto_symbol at 1. rewrite Hends. reflexivity. }
  split; [exact Hends |]. split; [exact Hfix |].
  unfold get_crypto_price. cbv zeta. rewrite Hfix. reflexivity.
Qed.

(** X12.  [get_crypto_price] never raises and asks the provider exactly
    once, whether the provider answers, fails, or sends values that
    cannot be formatted. *)
Theorem get_crypto_price_contained (symbol : string) :
  always_returns (get_crypto_price W symbol) /\
  calls_once (YfInfo (crypto_symbol symbol)) (get_crypto_price W symbol).
Proof.
  destruct (ToolFacts.get_crypto_price_lookup W symbol)
    as (Htotal & Hcalls & _).
  split; [exact Htotal | exact Hcalls].
Qed.

(** X13.  The market capitalisation and the circulating supply are
    formatted as numbers, with the string ['N/A'] as the default.  So
    when the provider gives a price but leaves one of the two out, the
    result is not the price: it is the error string with the text of the
    [ValueError] that formatting a string with the code [f] raises. *)
Theorem crypto_price_needs_all_fields (symbol : string) (info : info_dict)
    (price_text : string) (log : list call) :
  yf_info W (crypto_symbol symbol) = Ok info ->
  has_truthy info "regularMarketPrice" = true ->
  py_format (dict_get info "regularMarketPrice" N_A) ",.2f" = Ok price_text ->
  (dict_lookup info "marketCap" = None ->
   fst (get_crypto_price W symbol log)
   = Ok ("Error retrieving crypto price for " ++ crypto_symbol symbol
         ++ ": Unknown format code 'f' for object of type 'str'")) /\
  (forall market_cap,
      py_format (dict_get info "marketCap" N_A) ",.0f" = Ok market_cap ->
      dict_lookup info "circulatingSupply" = None ->
      fst (get_crypto_price W symbol log)
      = Ok ("Error retrieving crypto price for " ++ crypto_symbol symbol
            ++ ": Unknown format code 'f' for object of type 'str'")).
Proof.
  intros Hinfo Hprice Hformat. split.
  - intros Hcap.
    unfold get_crypto_price, try_except, bind, service_call, lift.
    cbv zeta. rewrite Hinfo, Hprice, Hformat.
    unfold dict_get at 1. rewrite Hcap. reflexivity.
  - intros market_cap Hcap Hsupply.
    unfold get_crypto_price, try_except, bind, service_call, lift.
    cbv zeta. rewrite Hinfo, Hprice, Hformat, Hcap.
    unfold dict_get at 1. rewrite Hsupply. reflexivity.
Qed.

Lemma recommendation_lines_action (rows : list recommendation)
    (result : string) :
  existsb has_action rows = true ->
  exists e, recommendation_lines rows result = Raise e.
Proof.
  revert result. induction rows as [| row rest IH]; intros result Haction.
  - discriminate Haction.
  - cbn [recommendation_lines]. unfold res_bind.
    destruct (subscript (cells row) "To Grade") as [to_grade | e];
      [| eauto].
    destruct (subscript (cells row) "Firm") as [firm | e]; [| eauto].
    destruct (name_strftime row) as [date | e]; [| eauto].
    cbv zeta.
    cbn [existsb] in Haction. unfold has_action at 1 in Haction.
    destruct (has_key (cells row) "Action"); [eauto |].
    apply IH. exact Haction.
Qed.

Lemma recommendation_lines_name_error (rows : list recommendation)
    (result : string) :
  forallb printable_row rows = true ->
  existsb has_action rows = true ->
  recommendation_lines rows result
  = Raise (PyError "NameError" "name 'pd' is not defined").
Proof.
  revert result. induction rows as [| row rest IH];
    intros result Hprintable Haction.
  - discriminate Haction.
  - cbn [forallb] in Hprintable.
    apply andb_true_iff in Hprintable. destruct Hprintable as (Hrow & Hrest).
    unfold printable_row in Hrow.
    rewrite !andb_true_iff in Hrow. destruct Hrow as ((Hgrade & Hfirm) & Hdate).
    cbn [recommendation_lines]. unfold res_bind, subscript.
    unfold has_key in Hgrade, Hfirm.
    destruct (dict_lookup (cells row) "To Grade"); [| discriminate Hgrade].
    destruct (dict_lookup (cells row) "Firm"); [| discriminate Hfirm].
    destruct (name_strftime row); [| discriminate Hdate].
    cbv zeta.
    cbn [existsb] in Haction. unfold has_action at 1 in Haction.
    destruct (has_key (cells row) "Action"); [reflexivity |].
    apply IH; assumption.
Qed.

(** X14.  The module uses [pd] on line 84 and never imports it.  So when
    one of the latest ten rows of a non-empty recommendations table has
    the label ['Action'], [get_analyst_recommendations] returns an error
    string and never the recommendations; when those rows can be printed,
    the error is the [NameError] of the missing import. *)
Theorem recommendations_with_action_fail (symbol : string)
    (rows : list recommendation) (log : list call) :
  yf_recommendations S (upper symbol) = Ok (Some rows) ->
  existsb has_action (tail10 rows) = true ->
  (exists e,
      fst (get_analyst_recommendations S symbol log)
      = Ok ("Error retrieving analyst recommendations for " ++ symbol ++ ": "
            ++ str_exn e)) /\
  (forallb printable_row (tail10 rows) = true ->
   fst (get_analyst_recommendations S symbol log)
   = Ok ("Error retrieving analyst recommendations for " ++ symbol
         ++ ": name 'pd' is not defined")).
Proof.
  intros Hrows Haction.
  assert (Hnonempty : exists first rest, rows = first :: rest).
  { destruct rows as [| first rest]; [discriminate Haction | eauto]. }
  destruct Hnonempty as (first & rest & Hshape).
  split.
  - destruct (recommendation_lines_action (tail10 rows)
                ("**Analyst Recommendations for " ++ upper symbol ++ "**"
                 ++ nl ++ nl) Haction) as (e & He).
    exists e.
    unfold get_analyst_recommendations, try_except, bind, service_call, lift.
    rewrite Hrows. rewrite Hshape in *. cbv beta iota zeta.
    rewrite He. reflexivity.
  - intros Hprintable.
    unfold get_analyst_recommendations, try_except, bind, service_call, lift.
    rewrite Hrows. rewrite Hshape in *. cbv beta iota zeta.
    rewrite (recommendation_lines_name_error _ _ Hprintable Haction).
    reflexivity.
Qed.

(** X15.  [get_market_news] never raises and sends exactly one request,
    to the search address with the query put in as it is; an answer with
    an HTTP error status becomes the error string with the text of the
    status error. *)
Theorem get_market_news_contained (query : string) :
  always_returns (get_market_news S query) /\
  calls_once (HttpGet ("https://api.duckduckgo.com/?q=" ++ query
                       ++ "&format=json&no_html=1&skip_disambig=1"))
             (get_market_news S query) /\
  (forall response e log,
      requests_get_timeout S (search_url query) = Ok response ->
      raise_for_status response = Raise e ->
      fst (get_market_news S query log)
      = Ok ("Error retrieving market news: " ++ str_exn e)).
Proof.
  destruct (ToolFacts.get_market_news_lookup S query)
    as (Htotal & Hcalls & _).
  split; [exact Htotal |]. split; [exact Hcalls |].
  intros response e log Hget Hstatus.
  apply (ToolFacts.get_market_news_status S query response Hget).
  exact Hstatus.
Qed.

End WithWorld.

Import Sample.

Lemma crypto_price_needs_all_fields_witness :
  fst (get_crypto_price world "eth" [])
  = Ok "Error retrieving crypto price for ETH-USD: Unknown format code 'f' for object of type 'str'".
Proof.
  exact (proj1 (crypto_price_needs_all_fields (R := runtime) world "eth"
                  [("regularMarketPrice", price "3,100.00")]
                  "3,100.00" [] eq_refl eq_refl eq_refl)
           eq_refl).
Defined.

Lemma recommendations_with_action_fail_witness :
  fst (get_analyst_recommendations services "aapl" [])
  = Ok "Error retrieving analyst recommendations for aapl: name 'pd' is not defined".
Proof.
  exact (proj2 (recommendations_with_action_fail (R := runtime) services
                  "aapl" [upgrade; upgrade_with_action] [] eq_refl eq_refl)
           eq_refl).
Defined.

Lemma get_market_news_contained_witness :
  fst (get_market_news
         {| yf_recommendations := yf_recommendations services;
            ddg_text := ddg_text services;
            now_strftime := now_strftime services;
            importable := importable services;
            requests_get_timeout := fun u =>
              Ok {| status_code := 503; reason := "Service Unavailable";
                    url := u; content := "" |};
            response_json := response_json services;
            agent_run := agent_run services;
            makedirs := makedirs services;
            requests_get_plain := requests_get_plain services;
            uuid4 := uuid4 services;
            write_file := write_file services |}
         "gold" [])
  = Ok "Error retrieving market news: 503 Server Error: Service Unavailable for url: https://api.duckduckgo.com/?q=gold&format=json&no_html=1&skip_disambig=1".
Proof.
  exact (proj2 (proj2 (get_market_news_contained
                         {| yf_recommendations := yf_recommendations services;
                            ddg_text := ddg_text services;
                            now_strftime := now_strftime services;
                            importable := importable services;
                            requests_get_timeout := fun u =>
                              Ok {| status_code := 503;
                                    reason := "Service Unavailable";
                                    url := u; content := "" |};
                            response_json := response_json services;
                            agent_run := agent_run services;
                            makedirs := makedirs services;
                            requests_get_plain := requests_get_plain services;
                            uuid4 := uuid4 services;
                            write_file := write_file services |}
                         "gold"))
           _ _ [] eq_refl eq_refl).
Defined.

End FinanceMoreSpec.

(* ===================================================================== *)
(** ** Properties of the status reports and of the news search *)
(* ===================================================================== *)

Module StatusNewsSpec.
Import PyStr Py ApiServer News Vocabulary.

Section WithWorld.
Context {R : Runtime} {P : Pandas}.
Variable W : World.
Variable S : Services.

(** X16.  The data-analysis report ends with "ready to use" exactly when
    the environment has a non-empty OpenAI key; whether pandas or DuckDB
    can be imported changes two lines of the report and not this
    verdict. *)
Theorem data_analysis_ready_iff_key :
  endswith (DataAnalysis.get_data_analysis_status W S)
           "🎉 Data analysis is ready to use!"
  = str_truthy (getenv W "OPENAI_API_KEY").
Proof.
  unfold DataAnalysis.get_data_analysis_status. cbv zeta.
  destruct (str_truthy (getenv W "OPENAI_API_KEY"));
    destruct (importable S "pandas");
    destruct (importable S "duckdb");
    vm_compute; reflexivity.
Qed.

(** X17.  The music report ends with "ready to use" exactly when both
    keys are set and non-empty, whether or not the libraries can be
    imported. *)
Theorem music_ready_iff_both_keys :
  endswith (Music.get_music_generation_status W S)
           "🎉 Music generation is ready to use!"
  = str_truthy (getenv W "OPENAI_API_KEY")
    && str_truthy (getenv W "MODELSLAB_API_KEY").
Proof.
  unfold Music.get_music_generation_status. cbv zeta.
  destruct (str_truthy (getenv W "OPENAI_API_KEY"));
    destruct (str_truthy (getenv W "MODELSLAB_API_KEY"));
    destruct (importable S "agno");
    destruct (importable S "requests");
    vm_compute; reflexivity.
Qed.

Lemma news_entries_length (label : string) (i : N)
    (results : list info_dict) :
  List.length (news_entries label i results) = List.length results.
Proof.
  revert i. induction results as [| result rest IH]; intros i; simpl.
  - reflexivity.
  - rewrite IH. reflexivity.
Qed.

(** The entry at place [k] is the entry of the result at place [k], under
    the number [i + k]. *)
Lemma news_entries_nth (label : string) (results : list info_dict) :
  forall (i : N) (k : nat) (result : info_dict),
    nth_error results k = Some result ->
    nth_error (news_entries label i results) k
    = Some (news_entry label (i + N.of_nat k) result).
Proof.
  induction results as [| first rest IH]; intros i k result Hk.
  - destruct k; discriminate Hk.
  - destruct k as [| k].
    + cbn [nth_error] in Hk. injection Hk as ->.
      cbn [news_entries nth_error].
      replace (i + N.of_nat 0)%N with i by lia. reflexivity.
    + cbn [news_entries nth_error] in *.
      rewrite (IH (N.succ i) k result Hk).
      replace (N.succ i + N.of_nat k)%N
        with (i + N.of_nat (Datatypes.S k))%N by lia.
      reflexivity.
Qed.

(** X18.  When the search returns results, [search_news_articles]
    announces their number and lists exactly that many entries, in the
    order of the search: the entry at place [k] shows the title, the
    address and the summary of the result at place [k], under the heading
    "Article k+1". *)
Theorem search_news_articles_numbered (topic : string) (max_results : Z)
    (first : info_dict) (rest : list info_dict) (log : list call) :
  ddg_text S (topic ++ " news " ++ now_strftime S "%Y-%m") max_results
  = Ok (first :: rest) ->
  exists entries,
    fst (search_news_articles S topic max_results log)
    = Ok ("Found " ++ str_N (N.of_nat (List.length (first :: rest)))
          ++ " recent news articles about '" ++ topic ++ "':" ++ nl
          ++ join nl entries) /\
    List.length entries = List.length (first :: rest) /\
    (forall k result,
        nth_error (first :: rest) k = Some result ->
        nth_error entries k
        = Some (nl
                ++ "**Article " ++ str_N (N.of_nat k + 1) ++ ":**"
                ++ nl
                ++ "- **Title**: "
                ++ py_str (dict_get result "title" (py_of_str "No title"))
                ++ nl
                ++ "- **Source**: "
                ++ py_str (dict_get result "href" (py_of_str "No URL"))
                ++ nl
                ++ "- **Summary**: "
                ++ py_str (dict_get result "body" (py_of_str "No summary"))
                ++ nl)).
Proof.
  intros Hsearch.
  exists (news_entries "Article" 1 (first :: rest)).
  split; [| split].
  - unfold search_news_articles, try_except, bind, service_call.
    cbv zeta. rewrite Hsearch. reflexivity.
  - apply news_entries_length.
  - intros k result Hk.
    rewrite (news_entries_nth "Article" (first :: rest) 1 k result Hk).
    replace (1 + N.of_nat k)%N with (N.of_nat k + 1)%N by lia.
    reflexivity.
Qed.

(** X19.  The news handler never answers with status 400: it returns the
    text of the tool and sends the one search of the tool.  It cannot be
    asked for zero results: a request without [max_results], or with 0,
    is served as a request for 5. *)
Theorem news_api_default (topic : string) (log : list call) :
  (forall max_results,
      exists text,
        fst (search_news_articles S topic (int_or max_results 5) log)
        = Ok text /\
        search_news_articles_api W S
          {| topic := topic; max_results := max_results |} log
        = (Ok {| news_topic := topic; news_result := text;
                 news_timestamp := now_isoformat W |},
           (log ++ [DdgText (topic ++ " news " ++ now_strftime S "%Y-%m")
                      (int_or max_results 5)])%list)) /\
  search_news_articles_api W S {| topic := topic; max_results := None |} log
  = search_news_articles_api W S
      {| topic := topic; max_results := Some 5%Z |} log /\
  search_news_articles_api W S
    {| topic := topic; max_results := Some 0%Z |} log
  = search_news_articles_api W S
      {| topic := topic; max_results := Some 5%Z |} log.
Proof.
  split; [| split; reflexivity].
  intros max_results.
  destruct (ToolFacts.search_news_articles_lookup S topic
              (int_or max_results 5)) as (_ & Hcalls & _).
  destruct (Facts.wraps_total_tool
              (search_news_articles S topic (int_or max_results 5))
              (fun text => {| news_topic := topic; news_result := text;
                              news_timestamp := now_isoformat W |})
              (Facts.always_returns_try_except _ _) log)
    as (text & Htool & Hwrap & Hlog).
  exists text. split; [exact Htool |].
  rewrite Hcalls in Hlog.
  unfold search_news_articles_api. cbv zeta.
  cbn [ApiServer.topic ApiServer.max_results].
  apply injective_projections; cbn [fst snd]; [exact Hwrap | exact Hlog].
Qed.

End WithWorld.

Import Sample.

Lemma search_news_articles_numbered_witness :
  exists entries,
    fst (search_news_articles services "rust" 5 [])
    = Ok ("Found 2 recent news articles about 'rust':" ++ nl
          ++ join nl entries) /\
    nth_error entries 1
    = Some (nl ++ "**Article 2:**" ++ nl
            ++ "- **Title**: Crates" ++ nl
            ++ "- **Source**: No URL" ++ nl
            ++ "- **Summary**: New crates" ++ nl).
Proof.
  destruct (search_news_articles_numbered services "rust" 5
              [("title", text "Rust 2.0"); ("href", text "https://r.example")]
              [[("title", text "Crates"); ("body", text "New crates")]]
              [] eq_refl) as (entries & Htext & _ & Hentry).
  exists entries. split; [exact Htext |].
  exact (Hentry 1 _ eq_refl).
Defined.

End StatusNewsSpec.

(* ===================================================================== *)
(** ** Properties of the reports that loop over several lookups *)
(* ===================================================================== *)

Module ReportsSpec.
Import PyStr Py Finance Vocabulary.

Section WithWorld.
Context {R : Runtime} {P : Pandas} {PF : @PandasFrames P}.
Variable W : World.
Variable S : Services.

(** X20.  [calculate_portfolio_value] never raises.  When the holdings
    parse, the symbols of the dictionary are distinct and the provider is
    asked once for each of them, in the order of the dictionary, whatever
    the lookups answer. *)
Theorem portfolio_one_lookup_per_symbol (holdings : string)
    (holdings_dict : list (string * Z)) :
  parse_holdings (split_on "," holdings) [] = Ok holdings_dict ->
  always_returns (calculate_portfolio_value W holdings) /\
  NoDup (map fst holdings_dict) /\
  calls_exactly (map YfInfo (map fst holdings_dict))
    (calculate_portfolio_value W holdings).
Proof.
  intros Hparse.
  split; [apply ToolFacts.calculate_portfolio_value_total |]. split.
  - apply (ToolFacts.parse_holdings_nodup (split_on "," holdings) []
             holdings_dict); [constructor | exact Hparse].
  - apply ToolFacts.calculate_portfolio_value_calls. exact Hparse.
Qed.

(** X21.  A holding whose lookup fails does not end the report: the loop
    goes on with the next holding, the total as it was, and the line
    [- **SYMBOL**: Error retrieving data - ] followed by the text of the
    exception added to the details. *)
Theorem portfolio_failed_lookup_skipped (symbol : string) (shares : Z)
    (rest : list (string * Z)) (total_value : pyval) (details : list string)
    (e : exn) (log : list call) :
  yf_info W symbol = Raise e ->
  portfolio_loop W ((symbol, shares) :: rest) total_value details log
  = portfolio_loop W rest total_value
      (details ++ [("- **" ++ symbol ++ "**: Error retrieving data - "
                    ++ str_exn e)%string])%list
      (log ++ [YfInfo symbol])%list.
Proof.
  intros Hinfo.
  cbn [portfolio_loop]. unfold bind at 1. unfold try_except at 1.
  unfold bind at 1. unfold service_call at 1.
  rewrite Hinfo. reflexivity.
Qed.

(** X22.  [get_economic_indicators] never raises and asks the provider
    about the seven indicators, once each, in the order of the
    dictionary.  When every lookup fails, the report is the heading
    followed by one line [Error retrieving data] per indicator; the text
    of the exceptions is not shown. *)
Theorem economic_indicators_contained :
  always_returns (get_economic_indicators W) /\
  calls_exactly
    [YfInfo "^GSPC"; YfInfo "^DJI"; YfInfo "^IXIC"; YfInfo "^VIX";
     YfInfo "GC=F"; YfInfo "CL=F"; YfInfo "DX-Y.NYB"]
    (get_economic_indicators W) /\
  ((forall symbol, exists e, yf_info W symbol = Raise e) ->
   forall log,
     fst (get_economic_indicators W log)
     = Ok ("**Key Economic Indicators**" ++ nl ++ nl
           ++ "❌ **S&P 500**: Error retrieving data" ++ nl
           ++ "❌ **Dow Jones**: Error retrieving data" ++ nl
           ++ "❌ **NASDAQ**: Error retrieving data" ++ nl
           ++ "❌ **Volatility Index**: Error retrieving data" ++ nl
           ++ "❌ **Gold Futures**: Error retrieving data" ++ nl
           ++ "❌ **Crude Oil Futures**: Error retrieving data" ++ nl
           ++ "❌ **US Dollar Index**: Error retrieving data" ++ nl)).
Proof.
  split; [apply ToolFacts.get_economic_indicators_total |].
  split; [exact (ToolFacts.get_economic_indicators_calls W) |].
  intros Hfail log.
  unfold get_economic_indicators, try_except, indicators.
  cbn [indicators_loop].
  unfold bind, try_except, service_call, ret.
  destruct (Hfail "^GSPC") as (e1 & ->).
  destruct (Hfail "^DJI") as (e2 & ->).
  destruct (Hfail "^IXIC") as (e3 & ->).
  destruct (Hfail "^VIX") as (e4 & ->).
  destruct (Hfail "GC=F") as (e5 & ->).
  destruct (Hfail "CL=F") as (e6 & ->).
  destruct (Hfail "DX-Y.NYB") as (e7 & ->).
  reflexivity.
Qed.

(** X23.  [preprocess_csv_data] never raises and reaches no outside
    service.  When the numeric conversion of an object column whose name
    does not contain "date" raises an exception that
    [except (ValueError, TypeError)] catches, the column is kept as it is
    and the loop goes on with the next column: nothing of the exception
    reaches the result.  Any other exception of the conversion ends the
    loop. *)
Theorem conversion_error_kept (csv_content col : string)
    (rest : list string) (df : DataFrame) (e : exn) :
  str_in "date" (lower col) = false ->
  dtype_is_object df col = Ok true ->
  to_numeric df col = Raise e ->
  always_returns (DataAnalysis.preprocess_csv_data csv_content) /\
  quiet (DataAnalysis.preprocess_csv_data csv_content) /\
  (caught_by ["ValueError"; "TypeError"] e = true ->
   DataAnalysis.convert_loop (col :: rest) df
   = DataAnalysis.convert_loop rest df) /\
  (caught_by ["ValueError"; "TypeError"] e = false ->
   DataAnalysis.convert_loop (col :: rest) df = Raise e).
Proof.
  intros Hdate Hobject Hnumeric.
  split; [apply ToolFacts.preprocess_total |].
  split; [apply ToolFacts.preprocess_quiet |].
  rewrite (ToolFacts.convert_loop_conversion_error col rest df e
             Hdate Hobject Hnumeric).
  split; intros ->; reflexivity.
Qed.

(** X24.  Without both keys (given, or else in the environment; an empty
    string counts as none) [generate_music] returns the message about the
    missing keys and asks neither the agent nor any other service. *)
Theorem generate_music_needs_keys (prompt : string)
    (openai_api_key models_lab_api_key : option string) (log : list call) :
  str_truthy (if str_truthy openai_api_key then openai_api_key
              else getenv W "OPENAI_API_KEY")
  && str_truthy (if str_truthy models_lab_api_key then models_lab_api_key
                 else getenv W "MODELSLAB_API_KEY") = false ->
  exists message,
    Music.generate_music W S prompt openai_api_key models_lab_api_key log
    = (Ok message, log) /\
    String.prefix
      "Error: Missing API keys. To generate music, you need both OpenAI and ModelsLab API keys."
      message = true.
Proof.
  intros Hkeys.
  exists Music.missing_keys_message. split; [| reflexivity].
  unfold Music.generate_music, try_except. cbv zeta.
  destruct (str_truthy openai_api_key);
    destruct (str_truthy models_lab_api_key);
    cbn [negb] in *; rewrite <- negb_andb, Hkeys; reflexivity.
Qed.

End WithWorld.

Import Sample.

Lemma portfolio_one_lookup_per_symbol_witness :
  snd (calculate_portfolio_value world "aapl:1, msft:2,aapl:3" [])
  = [YfInfo "AAPL"; YfInfo "MSFT"].
Proof.
  exact (proj2 (proj2 (portfolio_one_lookup_per_symbol (R := runtime) world
                         "aapl:1, msft:2,aapl:3"
                         [("AAPL", 3%Z); ("MSFT", 2%Z)] eq_refl))
           []).
Defined.

Lemma portfolio_failed_lookup_skipped_witness :
  portfolio_loop world [("NOPE", 1%Z); ("MSFT", 2%Z)] (whole 0) [] []
  = portfolio_loop world [("MSFT", 2%Z)] (whole 0)
      ["- **NOPE**: Error retrieving data - 404 Client Error"]
      [YfInfo "NOPE"].
Proof.
  exact (portfolio_failed_lookup_skipped (R := runtime) world "NOPE" 1
           [("MSFT", 2%Z)] (whole 0) [] _ [] eq_refl).
Defined.

Lemma economic_indicators_contained_witness :
  fst (get_economic_indicators
         {| now_isoformat := ""; getenv := fun _ => None;
            requests_get := requests_get world;
            html_parser := html_parser world;
            yf_info := fun _ => Raise (PyError "HTTPError" "429") |} [])
  = Ok ("**Key Economic Indicators**" ++ nl ++ nl
        ++ "❌ **S&P 500**: Error retrieving data" ++ nl
        ++ "❌ **Dow Jones**: Error retrieving data" ++ nl
        ++ "❌ **NASDAQ**: Error retrieving data" ++ nl
        ++ "❌ **Volatility Index**: Error retrieving data" ++ nl
        ++ "❌ **Gold Futures**: Error retrieving data" ++ nl
        ++ "❌ **Crude Oil Futures**: Error retrieving data" ++ nl
        ++ "❌ **US Dollar Index**: Error retrieving data" ++ nl).
Proof.
  exact (proj2 (proj2 (economic_indicators_contained (R := runtime)
                         {| now_isoformat := ""; getenv := fun _ => None;
                            requests_get := requests_get world;
                            html_parser := html_parser world;
                            yf_info := fun _ =>
                              Raise (PyError "HTTPError" "429") |}))
           (fun _ => ex_intro _ _ eq_refl) []).
Defined.

Lemma conversion_error_kept_witness :
  DataAnalysis.convert_loop (PF := frames) ["name"; "age"]
    [("name", [Some "John"]); ("age", [Some "25"])]
  = DataAnalysis.convert_loop (PF := frames) ["age"]
      [("name", [Some "John"]); ("age", [Some "25"])].
Proof.
  exact (proj1 (proj2 (proj2
           (conversion_error_kept (R := runtime) (PF := frames) "" "name"
              ["age"] [("name", [Some "John"]); ("age", [Some "25"])]
              _ eq_refl eq_refl eq_refl)))
           eq_refl).
Defined.

Lemma generate_music_needs_keys_witness :
  exists message,
    Music.generate_music world services "calm piano" (Some "sk-test") None []
    = (Ok message, []) /\
    String.prefix
      "Error: Missing API keys. To generate music, you need both OpenAI and ModelsLab API keys."
      message = true.
Proof.
  exact (generate_music_needs_keys world services "calm piano"
           (Some "sk-test") None [] eq_refl).
Defined.

End ReportsSpec.
